(** * sbml2cellml: SBML to CellML conversion and the CellML time-course driver

    A shallow embedding of [src/sbml2cellml/cellml2sbml.py] and
    [src/cellml/cellml_simulator.py].

    - Python [float] is IEEE binary64: Rocq's primitive [float].
    - Python [str] is [string]; the f-strings are written out as concatenations.
    - Python [dict] keeps insertion order and the order is observable in the
      generated MathML, so a dict is an association list with at most one
      entry per key ([dict_set] overwrites in place, or appends).
    - A Python exception is a value of [exception]; a function that may raise
      returns [result].
    - The object graphs of libsbml, libcellml and libopencor are records that
      hold what the code reads from them, or what it writes into them. *)

From Stdlib Require Import String Ascii List Bool Arith Lia ZArith.
From Stdlib Require Import Floats.PrimFloat.
From Stdlib Require Import DecimalString.
Import ListNotations.
Open Scope list_scope.
Open Scope string_scope.

(** ** Exceptions *)

Inductive exception : Type :=
| SBML2CellMLConversionError (msg : string)
| UnboundLocalError (name : string)
| KeyError (key : string)
| AttributeError (attr : string)
| IndexError
| ValueError.

Inductive result (A : Type) : Type :=
| Ok (a : A)
| Raise (e : exception).

Arguments Ok {A} a.
Arguments Raise {A} e.

Definition bind {A B : Type} (r : result A) (k : A -> result B) : result B :=
  match r with
  | Ok a => k a
  | Raise e => Raise e
  end.

Notation "x <- r ;; k" := (bind r (fun x => k))
  (at level 61, r at next level, right associativity).
Notation "' p <- r ;; k" := (bind r (fun x => let p := x in k))
  (at level 61, p pattern, r at next level, right associativity).

(** A [for] loop whose body may raise: the first exception ends the loop. *)
Fixpoint for_each {A S : Type} (body : S -> A -> result S) (xs : list A) (s : S)
  : result S :=
  match xs with
  | [] => Ok s
  | x :: xs' => s' <- body s x ;; for_each body xs' s'
  end.

(** ** Python dictionaries *)

Section Dict.
Context {V : Type}.

Definition dict : Type := list (string * V).

Fixpoint dict_get (k : string) (d : dict) : option V :=
  match d with
  | [] => None
  | (k', v) :: d' => if String.eqb k k' then Some v else dict_get k d'
  end.

(** [d[k] = v]: an existing key keeps its position. *)
Fixpoint dict_set (k : string) (v : V) (d : dict) : dict :=
  match d with
  | [] => [(k, v)]
  | (k', v') :: d' =>
      if String.eqb k k' then (k, v) :: d' else (k', v') :: dict_set k v d'
  end.

(** [d[k]] as an expression. *)
Definition dict_lookup (k : string) (d : dict) : result V :=
  match dict_get k d with
  | Some v => Ok v
  | None => Raise (KeyError k)
  end.

Definition dict_items (d : dict) : list (string * V) := d.
Definition dict_keys (d : dict) : list string := map fst d.
End Dict.

Arguments dict V : clear implicits.

(** ** Python strings *)

Definition dq : string := String (ascii_of_nat 34) EmptyString.
Definition nl : string := String (ascii_of_nat 10) EmptyString.

(** [sep.join(parts)] *)
Fixpoint join (sep : string) (parts : list string) : string :=
  match parts with
  | [] => EmptyString
  | [p] => p
  | p :: ps => p ++ sep ++ join sep ps
  end.

(** [s.replace(old, new)] for a non-empty [old]: occurrences are replaced from
    left to right and do not overlap.  [skip] counts the characters of a match
    still to be dropped. *)
Fixpoint replace_from (old new : string) (skip : nat) (s : string) : string :=
  match s with
  | EmptyString => EmptyString
  | String c s' =>
      match skip with
      | S k => replace_from old new k s'
      | O =>
          if String.prefix old s
          then new ++ replace_from old new (String.length old - 1) s'
          else String c (replace_from old new 0 s')
      end
  end.

Definition replace (old new s : string) : string :=
  match old with
  | EmptyString => s
  | _ => replace_from old new 0 s
  end.

(** [str.isspace] on the ASCII range. *)
Definition is_space (c : ascii) : bool :=
  let n := nat_of_ascii c in
  (Nat.leb 9 n && Nat.leb n 13) || (Nat.leb 28 n && Nat.leb n 32).

Fixpoint lstrip (s : string) : string :=
  match s with
  | EmptyString => EmptyString
  | String c s' => if is_space c then lstrip s' else s
  end.

Fixpoint rstrip (s : string) : string :=
  match s with
  | EmptyString => EmptyString
  | String c s' =>
      match rstrip s' with
      | EmptyString => if is_space c then EmptyString else String c EmptyString
      | r => String c r
      end
  end.

Definition strip (s : string) : string := rstrip (lstrip s).

(** [str(n)] for a non-negative integer. *)
Definition str_of_nat (n : nat) : string :=
  NilEmpty.string_of_uint (Nat.to_uint n).

Fixpoint spaces (n : nat) : string :=
  match n with
  | O => EmptyString
  | S k => String " " (spaces k)
  end.

(** [f"{n:3}"]: right-aligned in a field of width 3. *)
Definition fmt_width3 (n : nat) : string :=
  let s := str_of_nat n in
  spaces (3 - String.length s) ++ s.

(** ** The SBML object graph, as libsbml hands it to the converter *)

Record Compartment : Type := {
  compartment_id : string;            (* getId() *)
  compartment_size : float            (* getSize(), NaN when unset *)
}.

Record SBMLParameter : Type := {
  parameter_id : string;              (* getId() *)
  parameter_value : float             (* getValue(), NaN when unset *)
}.

(** [isSetInitialAmount()] and [isSetInitialConcentration()] say whether the
    option holds a value; a set value may itself be NaN. *)
Record Species : Type := {
  species_id : string;                          (* getId() *)
  species_compartment : string;                 (* getCompartment() *)
  species_hasOnlySubstanceUnits : bool;         (* getHasOnlySubstanceUnits() *)
  species_initialAmount : option float;         (* getInitialAmount() *)
  species_initialConcentration : option float   (* getInitialConcentration() *)
}.

Inductive RuleTypeCode : Type :=
| SBML_ASSIGNMENT_RULE
| SBML_RATE_RULE
| SBML_ALGEBRAIC_RULE.

(** Rules and kinetic laws are taken with their math: the formula is the
    string that [formulaToL3String] returns for it. *)
Record Rule : Type := {
  rule_variable : string;             (* getVariable() *)
  rule_typeCode : RuleTypeCode;       (* getTypeCode() *)
  rule_formula : string               (* formulaToL3String(getMath()) *)
}.

(** [reaction_kineticLaw] is [None] when [getKineticLaw()] returns [None], and
    otherwise the L3 formula of the law's math. *)
Record Reaction : Type := {
  reaction_kineticLaw : option string;
  reaction_reactants : list string;   (* getSpecies() of each reactant reference *)
  reaction_products : list string     (* getSpecies() of each product reference *)
}.

Record SBMLModel : Type := {
  model_id : option string;           (* getId() when isSetId() *)
  model_compartments : list Compartment;
  model_parameters : list SBMLParameter;
  model_species : list Species;
  model_rules : list Rule;
  model_reactions : list Reaction
}.

Record SBMLDocument : Type := {
  document_model : option SBMLModel   (* getModel() *)
}.

(** The file at [sbml_path]: [Path(sbml_path).stem] and what
    [libsbml.readSBMLFromFile] reads from it. *)
Record SBMLFile : Type := {
  file_stem : string;
  file_document : SBMLDocument
}.

(** [m_sbml.getSpecies(sid)]: the first species with that id. *)
Definition getSpecies (m : SBMLModel) (sid : string) : option Species :=
  find (fun s => String.eqb (species_id s) sid) (model_species m).

(** ** The CellML object graph the converter builds *)

Record CellMLVariable : Type := {
  variable_name : string;
  variable_units : string;
  variable_initialValue : option float
}.

Record Units : Type := {
  units_name : string;
  units_unit : list (string * Z)      (* addUnit(reference, exponent) *)
}.

Record Component : Type := {
  component_name : string;
  component_variables : list CellMLVariable;
  component_math : string
}.

Record CellMLModel : Type := {
  cellml_name : string;
  cellml_components : list Component;
  cellml_units : list Units
}.

Definition new_Model (name : string) : CellMLModel :=
  {| cellml_name := name; cellml_components := []; cellml_units := [] |}.

Definition new_Component (name : string) : Component :=
  {| component_name := name; component_variables := []; component_math := "" |}.

Definition addComponent (c : Component) (m : CellMLModel) : CellMLModel :=
  {| cellml_name := cellml_name m;
     cellml_components := (cellml_components m ++ [c])%list;
     cellml_units := cellml_units m |}.

Definition addUnits (u : Units) (m : CellMLModel) : CellMLModel :=
  {| cellml_name := cellml_name m;
     cellml_components := cellml_components m;
     cellml_units := (cellml_units m ++ [u])%list |}.

(** The converter adds its component to the model first and fills it
    afterwards: [component] and the model's first component are one object.
    A method called on [component] is therefore an update of the first
    component of the model. *)
Definition on_component (f : Component -> Component) (m : CellMLModel)
  : CellMLModel :=
  match cellml_components m with
  | [] => m
  | c :: cs =>
      {| cellml_name := cellml_name m;
         cellml_components := f c :: cs;
         cellml_units := cellml_units m |}
  end.

Definition addVariable (v : CellMLVariable) (c : Component) : Component :=
  {| component_name := component_name c;
     component_variables := (component_variables c ++ [v])%list;
     component_math := component_math c |}.

Definition setMath (math : string) (c : Component) : Component :=
  {| component_name := component_name c;
     component_variables := component_variables c;
     component_math := math |}.

(** A variable with units "dimensionless", as every variable the converter
    makes. *)
Definition dimensionless (name : string) (init : option float) : CellMLVariable :=
  {| variable_name := name;
     variable_units := "dimensionless";
     variable_initialValue := init |}.

(** ** cellml2sbml.py: MathML processing *)

Definition xml_prefix : string :=
  "<?xml version=" ++ dq ++ "1.0" ++ dq ++ " encoding=" ++ dq ++ "UTF-8" ++ dq
  ++ "?>".

Definition mathml_prefixes : list string :=
  [ "<math xmlns=" ++ dq ++ "http://www.w3.org/1998/Math/MathML" ++ dq ++ ">";
    "<math xmlns=" ++ dq ++ "http://www.w3.org/1998/Math/MathML" ++ dq
    ++ " xmlns:sbml=" ++ dq ++ "http://www.sbml.org/sbml/level3/version2/core"
    ++ dq ++ ">" ].

Definition mathml_suffix : string := "</math>".

Section Converter.

(** [libsbml.writeMathMLToString(libsbml.parseL3Formula(formula))]; [None]
    when libsbml yields no string for the formula. *)
Variable formula_to_mathml : string -> option string.

Definition process_mathml_for_cellml (formula : string) : result string :=
  match formula_to_mathml formula with
  | None => Raise (AttributeError "replace")
  | Some mathml_str =>
      let mathml_str := replace xml_prefix "" mathml_str in
      let mathml_str :=
        fold_left (fun acc prefix => replace prefix "" acc)
                  mathml_prefixes mathml_str in
      let mathml_str := replace mathml_suffix "" mathml_str in
      let mathml_str := replace "sbml:units" "cellml:units" mathml_str in
      Ok (strip mathml_str)
  end.

Definition mathml_for_diff (vid formula ivid : string) : result string :=
  rhs_str <- process_mathml_for_cellml formula ;;
  Ok ("<apply>" ++ nl
      ++ "  <eq/>" ++ nl
      ++ "  <apply>" ++ nl
      ++ "    <diff/>" ++ nl
      ++ "    <bvar>" ++ nl
      ++ "      <ci>" ++ ivid ++ "</ci>" ++ nl
      ++ "    </bvar>" ++ nl
      ++ "    <ci>" ++ vid ++ "</ci>" ++ nl
      ++ "  </apply>" ++ nl
      ++ "  " ++ rhs_str ++ nl
      ++ "</apply>" ++ nl
      ++ "    ").

Definition mathml_for_assignment (vid formula : string) : result string :=
  rhs_str <- process_mathml_for_cellml formula ;;
  Ok ("<apply>" ++ nl
      ++ "  <eq/>" ++ nl
      ++ "  <ci>" ++ vid ++ "</ci>" ++ nl
      ++ "  " ++ rhs_str ++ nl
      ++ "</apply>" ++ nl).

(** ** cellml2sbml.py: convert_sbml2cellml *)

Definition process_init_value (sid : string) (value : float) : float :=
  if is_nan value then 1%float else value.

(** *** Compartments (the loop of line 92) *)

Definition add_compartment (st : dict float * CellMLModel) (c : Compartment)
  : dict float * CellMLModel :=
  let '(cdict, m_cellml) := st in
  let cid := compartment_id c in
  let cvalue := process_init_value cid (compartment_size c) in
  let cdict := dict_set cid cvalue cdict in
  let v := dimensionless cid (Some cvalue) in
  (cdict, on_component (addVariable v) m_cellml).

Definition add_compartments (cs : list Compartment) (m_cellml : CellMLModel)
  : dict float * CellMLModel :=
  fold_left add_compartment cs ([], m_cellml).

(** *** Parameters (the loop of line 105) *)

Definition add_parameter (m_cellml : CellMLModel) (p : SBMLParameter)
  : CellMLModel :=
  let pid := parameter_id p in
  let pvalue := process_init_value pid (parameter_value p) in
  let v := dimensionless pid (Some pvalue) in
  on_component (addVariable v) m_cellml.

Definition add_parameters (ps : list SBMLParameter) (m_cellml : CellMLModel)
  : CellMLModel :=
  fold_left add_parameter ps m_cellml.

(** *** Species (the loop of line 118)

    [vinit] is a local of the enclosing function: it is unbound until a
    loop iteration assigns it and keeps its value across iterations. *)

Record species_state : Type := {
  species_types : dict string;
  vinit : option float;
  species_model : CellMLModel
}.

Definition species_type (s : Species) : string :=
  if species_hasOnlySubstanceUnits s then "amount" else "concentration".

(** The [if]/[elif] of lines 126 to 131: the value of [vinit] after it. *)
Definition assign_vinit (cdict : dict float) (s : Species)
           (vinit : option float) : result (option float) :=
  let sid := species_id s in
  let cid := species_compartment s in
  match species_initialAmount s with
  | Some a =>
      let amount := process_init_value sid a in
      if species_hasOnlySubstanceUnits s
      then Ok (Some amount)
      else (size <- dict_lookup cid cdict ;; Ok (Some (amount * size)%float))
  | None =>
      match species_initialConcentration s with
      | Some c =>
          let concentration := process_init_value sid c in
          if species_hasOnlySubstanceUnits s
          then (size <- dict_lookup cid cdict ;;
                Ok (Some (concentration * size)%float))
          else Ok (Some concentration)
      | None => Ok vinit
      end
  end.

(** Reading the local [vinit]. *)
Definition read_vinit (vinit : option float) : result float :=
  match vinit with
  | Some x => Ok x
  | None => Raise (UnboundLocalError "vinit")
  end.

Definition add_one_species (cdict : dict float) (st : species_state)
           (s : Species) : result species_state :=
  let sid := species_id s in
  let types := dict_set sid (species_type s) (species_types st) in
  vinit' <- assign_vinit cdict s (vinit st) ;;
  x <- read_vinit vinit' ;;
  let v := dimensionless sid (Some x) in
  Ok {| species_types := types;
        vinit := vinit';
        species_model := on_component (addVariable v) (species_model st) |}.

Definition add_species (cdict : dict float) (ss : list Species)
           (m_cellml : CellMLModel) : result species_state :=
  for_each (add_one_species cdict) ss
           {| species_types := []; vinit := None; species_model := m_cellml |}.

(** *** Rules (the loop of line 142) *)

Definition collect_rule (st : dict string * dict string) (rule : Rule)
  : dict string * dict string :=
  let '(arules, rrules) := st in
  let vid := rule_variable rule in
  match rule_typeCode rule with
  | SBML_ASSIGNMENT_RULE => (dict_set vid (rule_formula rule) arules, rrules)
  | SBML_RATE_RULE => (arules, dict_set vid (rule_formula rule) rrules)
  | SBML_ALGEBRAIC_RULE => (arules, rrules)
  end.

Definition collect_rules (rules : list Rule) : dict string * dict string :=
  fold_left collect_rule rules ([], []).

(** *** Reaction terms (the loop of line 154) *)

(** The body of the loops of lines 163 and 172, with [sign] "-" for a
    reactant and "+" for a product. *)
Definition add_term (sign formula : string) (reaction_terms : dict string)
           (sid : string) : dict string :=
  let formula_str := sign ++ " (" ++ formula ++ ")" in
  match dict_get sid reaction_terms with
  | Some old => dict_set sid (old ++ " " ++ formula_str) reaction_terms
  | None => dict_set sid formula_str reaction_terms
  end.

Definition add_reaction (reaction_terms : dict string) (r : Reaction)
  : result (dict string) :=
  match reaction_kineticLaw r with
  | None => Raise (AttributeError "getMath")
  | Some formula =>
      let reaction_terms :=
        fold_left (add_term "-" formula) (reaction_reactants r)
                  reaction_terms in
      let reaction_terms :=
        fold_left (add_term "+" formula) (reaction_products r)
                  reaction_terms in
      Ok reaction_terms
  end.

Definition collect_reaction_terms (rs : list Reaction) : result (dict string) :=
  for_each add_reaction rs [].

(** *** Amount or concentration (the loop of line 182) *)

Definition scale_term (m_sbml : SBMLModel) (types : dict string)
           (reaction_terms_all : dict string) (item : string * string)
  : result (dict string) :=
  let '(sid, formula_str) := item in
  ty <- dict_lookup sid types ;;
  if String.eqb ty "amount"
  then Ok (dict_set sid formula_str reaction_terms_all)
  else if String.eqb ty "concentration"
  then match getSpecies m_sbml sid with
       | None => Raise (AttributeError "getCompartment")
       | Some s =>
           let cid := species_compartment s in
           Ok (dict_set sid
                 ("1.0 dimensionless/" ++ cid ++ " * (" ++ formula_str ++ ")")
                 reaction_terms_all)
       end
  else Ok reaction_terms_all.

Definition scale_reaction_terms (m_sbml : SBMLModel) (types : dict string)
           (reaction_terms : dict string) : result (dict string) :=
  for_each (scale_term m_sbml types) (dict_items reaction_terms) [].

(** *** MathML (lines 191 to 227) *)

Definition time_name : string := "time".

Definition append_assignment (mathml_parts : list string)
           (item : string * string) : result (list string) :=
  let '(vid, formula) := item in
  mathml_str <- mathml_for_assignment vid formula ;;
  Ok (mathml_parts ++ [mathml_str])%list.

Definition append_diff (mathml_parts : list string)
           (item : string * string) : result (list string) :=
  let '(vid, formula) := item in
  mathml_str <- mathml_for_diff vid formula time_name ;;
  Ok (mathml_parts ++ [mathml_str])%list.

Definition collect_mathml_parts (arules rrules reaction_terms : dict string)
  : result (list string) :=
  mathml_parts <- for_each append_assignment (dict_items arules) [] ;;
  mathml_parts <- for_each append_diff (dict_items rrules) mathml_parts ;;
  for_each append_diff (dict_items reaction_terms) mathml_parts.

Definition math_header : string :=
  "<math xmlns=" ++ dq ++ "http://www.w3.org/1998/Math/MathML" ++ dq
  ++ " xmlns:cellml=" ++ dq ++ "http://www.cellml.org/cellml/2.0#" ++ dq
  ++ ">" ++ nl.

Definition combine_mathml (mathml_parts : list string) : string :=
  math_header ++ join nl mathml_parts ++ "</math>".

(** *** The converter

    The console output is left out: it has no influence on the model that
    is returned, and the loops over events and initial assignments only
    print. *)

Definition per_second : Units :=
  {| units_name := "per_second"; units_unit := [("second", (-1)%Z)] |}.

Definition variable_time : CellMLVariable := dimensionless time_name None.

(** The body of the converter from line 58 on, once [m_sbml] is there. *)
Definition convert_model (stem : string) (m_sbml : SBMLModel)
  : result CellMLModel :=
  let mid := match model_id m_sbml with Some i => i | None => stem end in
  let m_cellml := new_Model mid in
  let m_cellml := addComponent (new_Component "sbml") m_cellml in
  let m_cellml := addUnits per_second m_cellml in
  let m_cellml := on_component (addVariable variable_time) m_cellml in
  let '(cdict, m_cellml) :=
    add_compartments (model_compartments m_sbml) m_cellml in
  let m_cellml := add_parameters (model_parameters m_sbml) m_cellml in
  st <- add_species cdict (model_species m_sbml) m_cellml ;;
  let m_cellml := species_model st in
  let '(arules, rrules) := collect_rules (model_rules m_sbml) in
  reaction_terms <- collect_reaction_terms (model_reactions m_sbml) ;;
  reaction_terms <-
    scale_reaction_terms m_sbml (species_types st) reaction_terms ;;
  mathml_parts <- collect_mathml_parts arules rrules reaction_terms ;;
  let cellml_mathml := combine_mathml mathml_parts in
  Ok (on_component (setMath cellml_mathml) m_cellml).

Definition convert_sbml2cellml (sbml_path : SBMLFile) : result CellMLModel :=
  match document_model (file_document sbml_path) with
  | None => Raise (SBML2CellMLConversionError "No model in SBMLDocument.")
  | Some m_sbml => convert_model (file_stem sbml_path) m_sbml
  end.

End Converter.

(** ** cellml2sbml.py: the validation path *)

(** A libcellml issue as [print_issues] renders it: the text of [level()] in
    an f-string, and [description()]. *)
Record CellMLIssue : Type := {
  issue_level : string;
  issue_description : string
}.

(** A libcellml logger (printer, validator or analyser), through the two
    methods [print_issues] calls. *)
Record Logger : Type := {
  issueCount : nat;
  issue : nat -> CellMLIssue
}.

(** What a function writes, in order: each entry is the text of one call of
    [console.print] or of the builtin [print]. *)
Inductive output : Type :=
| console_print (text : string)
| print (text : string).

Definition issue_text (logger : Logger) (index : nat) : string :=
  let count := index + 1 in
  "[" ++ fmt_width3 count ++ "] - (" ++ issue_level (issue logger index) ++ ") "
  ++ issue_description (issue logger index).

Definition print_issues (title : string) (logger : Logger) : list output :=
  if Nat.eqb (issueCount logger) 0
  then []
  else console_print (title ++ " " ++ str_of_nat (issueCount logger))
       :: map (fun index => console_print (issue_text logger index))
              (seq 0 (issueCount logger)).

(** The three loggers [validate_cellml] makes: a fresh printer, the validator
    after [validateModel(model)], the analyser after [analyseModel(model)]. *)
Record LibCellML : Type := {
  Printer : Logger;
  Validator_validateModel : CellMLModel -> Logger;
  Analyser_analyseModel : CellMLModel -> Logger
}.

Definition validate_cellml (lib : LibCellML) (model : CellMLModel)
  : list output * Z :=
  let out1 := print_issues "Printer: " (Printer lib) in
  let out2 := print_issues "Validator: " (Validator_validateModel lib model) in
  let out3 := print_issues "Analyser: " (Analyser_analyseModel lib model) in
  ((out1 ++ out2 ++ out3)%list, 0%Z).

(** ** cellml_simulator.py *)

Record Issue : Type := {
  description : string
}.

(** libopencor, through the constructors, attributes and methods that
    [run_cellml_timecourse] uses.  [SedInstance_run] gives the instance as it
    is after [run()]. *)
Record OpenCOR : Type := {
  File : Type;
  SedDocument : Type;
  SedInstance : Type;
  SedInstanceTask : Type;
  File_new : string -> File;
  File_issues : File -> list Issue;
  SedDocument_new : File -> SedDocument;
  SedDocument_issues : SedDocument -> list Issue;
  SedDocument_instantiate : SedDocument -> SedInstance;
  SedInstance_issues : SedInstance -> list Issue;
  SedInstance_run : SedInstance -> SedInstance;
  SedInstance_tasks : SedInstance -> list SedInstanceTask;
  task_voi : SedInstanceTask -> list float;
  task_voi_name : SedInstanceTask -> string;
  task_voi_unit : SedInstanceTask -> string;
  task_state_count : SedInstanceTask -> nat;
  task_state_name : SedInstanceTask -> nat -> string;
  task_state : SedInstanceTask -> nat -> list float;
  task_state_unit : SedInstanceTask -> nat -> string
}.

(** The simulation object of line 54.  The code sets its four attributes and
    never hands it back to the document. *)
Record SedUniformTimeCourse : Type := {
  initial_time : option float;
  output_start_time : option float;
  output_end_time : option float;
  number_of_steps : option Z
}.

(** The steps of the pipeline, and the console in between. *)
Inductive event : Type :=
| load (cellml_path : string)         (* libopencor.File(...) *)
| build_document                      (* libopencor.SedDocument(file) *)
| build_simulation (s : SedUniformTimeCourse)
| instantiate                         (* document.instantiate() *)
| run                                 (* instance.run() *)
| first_task                          (* instance.tasks[0] *)
| read_voi
| read_state (k : nat)
| build_frame                         (* pd.DataFrame(data_dict) *)
| out (o : output).

(** A computation that logs events and may raise. *)
Definition logged (A : Type) : Type := list event * result A.

Definition ret {A : Type} (a : A) : logged A := ([], Ok a).

Definition emit (e : event) : logged unit := ([e], Ok tt).

Definition raise {A : Type} (e : exception) : logged A := ([], Raise e).

Definition lbind {A B : Type} (c : logged A) (k : A -> logged B) : logged B :=
  match c with
  | (log, Ok a) => let '(log', r) := k a in ((log ++ log')%list, r)
  | (log, Raise e) => (log, Raise e)
  end.

Notation "x <~ c ;; k" := (lbind c (fun x => k))
  (at level 61, c at next level, right associativity).
Notation "c ;;; k" := (lbind c (fun _ => k))
  (at level 61, right associativity).

(** A [for] loop in [logged]. *)
Fixpoint lfor {A S : Type} (body : S -> A -> logged S) (xs : list A) (s : S)
  : logged S :=
  match xs with
  | [] => ret s
  | x :: xs' => s' <~ body s x ;; lfor body xs' s'
  end.

(** [if len(x.issues) != 0: print(x.issues[0].description) else: print(ok)] *)
Definition check_issues (pr : string -> output) (issues : list Issue)
           (ok : string) : logged unit :=
  match issues with
  | first :: _ => emit (out (pr (description first)))
  | [] => emit (out (pr ok))
  end.

Record DataFrame : Type := {
  columns : list (string * list float)
}.

(** [pd.DataFrame(data_dict)]: one column per key, in the order of the dict;
    pandas raises [ValueError] when the columns differ in length. *)
Definition same_length (data_dict : dict (list float)) : bool :=
  match data_dict with
  | [] => true
  | (_, col) :: rest =>
      forallb (fun kv => Nat.eqb (List.length (snd kv)) (List.length col)) rest
  end.

Definition DataFrame_new (data_dict : dict (list float)) : logged DataFrame :=
  emit build_frame ;;;
  if same_length data_dict
  then ret {| columns := dict_items data_dict |}
  else raise ValueError.

Section Simulator.

Variable lib : OpenCOR.

(** The body of the loop of line 94. *)
Definition add_state (instance_task : SedInstanceTask lib)
           (st : dict (list float) * dict string) (k : nat)
  : logged (dict (list float) * dict string) :=
  let '(data_dict, units) := st in
  emit (read_state k) ;;;
  let name := task_state_name lib instance_task k in
  ret (dict_set name (task_state lib instance_task k) data_dict,
       dict_set name (task_state_unit lib instance_task k) units).

Definition run_cellml_timecourse (cellml_path : string) (start end_ : float)
           (steps : Z) : logged (DataFrame * dict string) :=
  (* load model *)
  emit (load cellml_path) ;;;
  let file := File_new lib cellml_path in
  check_issues console_print (File_issues lib file) "File: all good!" ;;;
  (* SED-ML document *)
  emit build_document ;;;
  let document := SedDocument_new lib file in
  check_issues print (SedDocument_issues lib document) "Document: all good!" ;;;
  (* timecourse settings *)
  let simulation :=
    {| initial_time := Some start;
       output_start_time := Some start;
       output_end_time := Some end_;
       number_of_steps := Some steps |} in
  emit (build_simulation simulation) ;;;
  emit instantiate ;;;
  let instance := SedDocument_instantiate lib document in
  check_issues print (SedInstance_issues lib instance) "Instance: all good!" ;;;
  (* run simulation *)
  emit run ;;;
  let instance := SedInstance_run lib instance in
  check_issues print (SedInstance_issues lib instance)
               "Instance running: all good!" ;;;
  (* task results *)
  emit first_task ;;;
  match SedInstance_tasks lib instance with
  | [] => raise IndexError
  | instance_task :: _ =>
      emit read_voi ;;;
      let voi := task_voi lib instance_task in
      let voi_name := task_voi_name lib instance_task in
      let voi_unit := task_voi_unit lib instance_task in
      let n_state := task_state_count lib instance_task in
      let data_dict := [(voi_name, voi)] in
      let units := [(voi_name, voi_unit)] in
      st <~ lfor (add_state instance_task) (seq 0 n_state)
                 (data_dict, units) ;;
      let '(data_dict, units) := st in
      df <~ DataFrame_new data_dict ;;
      ret (df, units)
  end.

End Simulator.

(** *** plot_cellml_timecourse

    What the function draws: one line per call of [ax.plot], the two axis
    labels and the legend.  A frame is taken as pandas builds it from a dict:
    [df[name]] is the column of that name. *)

Record Line : Type := {
  line_x : list float;
  line_y : list float;
  line_label : string
}.

Record Axes : Type := {
  ax_lines : list Line;
  ax_xlabel : string;
  ax_ylabel : string;
  ax_legend : bool
}.

(** The body of the loop of line 24. *)
Definition plot_line (df : DataFrame) (units : dict string) (voi : list float)
           (lines : list Line) (name : string) : result (list Line) :=
  y <- dict_lookup name (columns df) ;;
  unit <- dict_lookup name units ;;
  Ok (lines ++ [ {| line_x := voi;
                    line_y := y;
                    line_label := name ++ "[" ++ unit ++ "]" |} ])%list.

Definition plot_cellml_timecourse (df : DataFrame) (units : dict string)
  : result Axes :=
  match map fst (columns df) with
  | [] => Raise IndexError
  | voi_name :: names =>
      voi <- dict_lookup voi_name (columns df) ;;
      lines <- for_each (plot_line df units voi) names [] ;;
      voi_unit <- dict_lookup voi_name units ;;
      Ok {| ax_lines := lines;
            ax_xlabel := "voi (" ++ voi_name ++ ") [" ++ voi_unit ++ "]";
            ax_ylabel := "states";
            ax_legend := true |}
  end.


(** * Specification-side definitions *)

(** The shape of every model the converter works on: one component, named
    "sbml". *)
Definition sbml_model (name : string) (units : list Units)
           (vars : list CellMLVariable) (math : string) : CellMLModel :=
  {| cellml_name := name;
     cellml_components :=
       [ {| component_name := "sbml";
            component_variables := vars;
            component_math := math |} ];
     cellml_units := units |}.

(** The variables of all components of a model, in order. *)
Definition all_variables (m : CellMLModel) : list CellMLVariable :=
  flat_map component_variables (cellml_components m).

Definition compartment_variable (c : Compartment) : CellMLVariable :=
  dimensionless (compartment_id c)
    (Some (process_init_value (compartment_id c) (compartment_size c))).

Definition parameter_variable (p : SBMLParameter) : CellMLVariable :=
  dimensionless (parameter_id p)
    (Some (process_init_value (parameter_id p) (parameter_value p))).

(** The dict [cdict] after the loop over [cs], started from [d]. *)
Definition cdict_from (d : dict float) (cs : list Compartment) : dict float :=
  fold_left
    (fun d c =>
       dict_set (compartment_id c)
                (process_init_value (compartment_id c) (compartment_size c)) d)
    cs d.

Definition cdict_of (cs : list Compartment) : dict float := cdict_from [] cs.

(** A species with neither an initial amount nor an initial concentration. *)
Definition no_initial_value (s : Species) : Prop :=
  species_initialAmount s = None /\ species_initialConcentration s = None.

(** The run of the species loop as a relation: [species_run cdict v ss vars v']
    when the loop over [ss], entered with the local [vinit] in state [v], adds
    the variables [vars] and leaves [vinit] in state [v']. *)
Inductive species_run (cdict : dict float)
  : option float -> list Species -> list CellMLVariable -> option float -> Prop :=
| species_run_nil : forall v, species_run cdict v [] [] v
| species_run_cons : forall v s x ss vars v',
    assign_vinit cdict s v = Ok (Some x) ->
    species_run cdict (Some x) ss vars v' ->
    species_run cdict v (s :: ss)
                (dimensionless (species_id s) (Some x) :: vars) v'.


(** The dict [species_types] after the species loop. *)
Definition species_types_of (ss : list Species) : dict string :=
  fold_left (fun d s => dict_set (species_id s) (species_type s) d) ss [].

(** The name the converter gives the CellML model. *)
Definition mid_of (stem : string) (m_sbml : SBMLModel) : string :=
  match model_id m_sbml with Some i => i | None => stem end.

(** Whether a result is the converter's own exception. *)
Definition is_conversion_error {A : Type} (r : result A) : bool :=
  match r with
  | Raise (SBML2CellMLConversionError _) => true
  | _ => false
  end.

(** NaN becomes 1.0, every other value stays. *)
Definition nan_to_one (value : float) : float :=
  if is_nan value then 1%float else value.

(** The initial value of the first variable called [name]. *)
Definition initial_value_of (name : string) (m : CellMLModel) : option float :=
  match find (fun v => String.eqb (variable_name v) name) (all_variables m) with
  | Some v => variable_initialValue v
  | None => None
  end.

(** The concentration that an amount in a compartment of a given size is, and
    the amount that a concentration is. *)
Definition equivalent_concentration (amount size : float) : float :=
  (amount / size)%float.

Definition equivalent_amount (concentration size : float) : float :=
  (concentration * size)%float.

(** What the converter is to store for a species whose initial amount or
    initial concentration is set, from the values of that species alone. *)
Definition species_value (cdict : dict float) (s : Species) (x : float) : Prop :=
  match species_initialAmount s, species_initialConcentration s with
  | Some a, _ =>
      if species_hasOnlySubstanceUnits s
      then x = nan_to_one a
      else exists size,
          dict_get (species_compartment s) cdict = Some size
          /\ x = (nan_to_one a * size)%float
  | None, Some c =>
      if species_hasOnlySubstanceUnits s
      then exists size,
          dict_get (species_compartment s) cdict = Some size
          /\ x = (nan_to_one c * size)%float
      else x = nan_to_one c
  | None, None => True
  end.

(** The reaction terms, in the words of the specification: the contributions
    of one reaction to a species are "- (formula)" for each of its reactant
    references to the species, then "+ (formula)" for each of its product
    references; the term of a species is the contributions of all reactions,
    in reaction order, separated by one space. *)
Definition signed (sign formula : string) : string :=
  sign ++ " (" ++ formula ++ ")".

Definition reaction_contributions (sid : string) (r : Reaction) : list string :=
  match reaction_kineticLaw r with
  | None => []
  | Some formula =>
      (map (fun _ => signed "-" formula)
           (filter (String.eqb sid) (reaction_reactants r))
       ++ map (fun _ => signed "+" formula)
              (filter (String.eqb sid) (reaction_products r)))%list
  end.

Definition contributions (sid : string) (rs : list Reaction) : list string :=
  flat_map (reaction_contributions sid) rs.

Definition accumulated (sid : string) (rs : list Reaction) : option string :=
  match contributions sid rs with
  | [] => None
  | ts => Some (join " " ts)
  end.

Definition wrapped (cid term : string) : string :=
  "1.0 dimensionless/" ++ cid ++ " * (" ++ term ++ ")".

(** The species ids a reaction refers to. *)
Definition reacting (rs : list Reaction) : list string :=
  flat_map (fun r => (reaction_reactants r ++ reaction_products r)%list) rs.

(** One more contribution on a term that may not exist yet, and several. *)
Definition append_term (old : option string) (t : string) : string :=
  match old with
  | Some o => o ++ " " ++ t
  | None => t
  end.

Definition extend (old : option string) (ts : list string) : option string :=
  fold_left (fun acc t => Some (append_term acc t)) ts old.

(** One issue check: the line it prints. *)
Definition checked (pr : string -> output) (issues : list Issue) (ok : string)
  : event :=
  out (pr (match issues with first :: _ => description first | [] => ok end)).

(** The console lines of a log, and its pipeline steps. *)
Definition outputs_of (log : list event) : list output :=
  flat_map (fun e => match e with out o => [o] | _ => [] end) log.

Definition steps_of (log : list event) : list event :=
  filter (fun e => match e with out _ => false | _ => true end) log.

(** The loop of line 94 without its log. *)
Definition add_state_pure (lib : OpenCOR) (instance_task : SedInstanceTask lib)
           (st : dict (list float) * dict string) (k : nat)
  : dict (list float) * dict string :=
  (dict_set (task_state_name lib instance_task k)
            (task_state lib instance_task k) (fst st),
   dict_set (task_state_name lib instance_task k)
            (task_state_unit lib instance_task k) (snd st)).

(** The names of the states of a task, in state order. *)
Definition state_names (lib : OpenCOR) (instance_task : SedInstanceTask lib)
  : list string :=
  map (task_state_name lib instance_task)
      (seq 0 (task_state_count lib instance_task)).

(** The instance that [run_cellml_timecourse] reads its results from. *)
Definition run_instance (lib : OpenCOR) (cellml_path : string)
  : SedInstance lib :=
  SedInstance_run lib
    (SedDocument_instantiate lib
       (SedDocument_new lib (File_new lib cellml_path))).

(** "Only the first issue is printed": no issue after the first appears in
    the output. *)
Definition only_first_issue_printed (logger : Logger) (o : list output) : Prop :=
  forall index,
    0 < index -> index < issueCount logger ->
    ~ In (console_print (issue_text logger index)) o.

(** "One column for the variable of integration and one more per state." *)
Definition one_column_per_state (lib : OpenCOR)
           (instance_task : SedInstanceTask lib) (df : DataFrame) : Prop :=
  List.length (columns df) = 1 + task_state_count lib instance_task.

(** Example inputs. *)

Definition no_mathml : string -> option string := fun _ => None.

Definition example_compartment : Compartment :=
  {| compartment_id := "c"; compartment_size := 2%float |}.

(** A species with no initial value of its own. *)
Definition species_unset : Species :=
  {| species_id := "S1";
     species_compartment := "c";
     species_hasOnlySubstanceUnits := false;
     species_initialAmount := None;
     species_initialConcentration := None |}.

(** A concentration species with the initial amount 4.0. *)
Definition species_amount_set : Species :=
  {| species_id := "S2";
     species_compartment := "c";
     species_hasOnlySubstanceUnits := false;
     species_initialAmount := Some 4%float;
     species_initialConcentration := None |}.

(** An amount species with the initial concentration NaN. *)
Definition species_concentration_nan : Species :=
  {| species_id := "S3";
     species_compartment := "c";
     species_hasOnlySubstanceUnits := true;
     species_initialAmount := None;
     species_initialConcentration := Some nan |}.

Definition file_of (ss : list Species) (rules : list Rule)
           (rs : list Reaction) : SBMLFile :=
  {| file_stem := "example";
     file_document :=
       {| document_model :=
            Some {| model_id := None;
                    model_compartments := [example_compartment];
                    model_parameters :=
                      [ {| parameter_id := "k"; parameter_value := nan |} ];
                    model_species := ss;
                    model_rules := rules;
                    model_reactions := rs |} |} |}.

Definition model_of (ss : list Species) (rules : list Rule)
           (rs : list Reaction) : SBMLModel :=
  match document_model (file_document (file_of ss rules rs)) with
  | Some m => m
  | None => {| model_id := None; model_compartments := [];
               model_parameters := []; model_species := [];
               model_rules := []; model_reactions := [] |}
  end.

(** Two reactions between the species S2 and S3. *)
Definition example_reactions : list Reaction :=
  [ {| reaction_kineticLaw := Some "k * S2";
       reaction_reactants := ["S2"];
       reaction_products := ["S3"; "S3"] |};
    {| reaction_kineticLaw := Some "k * S3";
       reaction_reactants := ["S3"];
       reaction_products := ["S2"] |} ].

Definition example_species : list Species :=
  [species_amount_set; species_concentration_nan].

Definition example_rules : list Rule :=
  [ {| rule_variable := "k";
       rule_typeCode := SBML_ASSIGNMENT_RULE;
       rule_formula := "2 * c" |};
    {| rule_variable := "c";
       rule_typeCode := SBML_RATE_RULE;
       rule_formula := "0" |} ].

(** A MathML writer with the layout of libsbml's output: the XML declaration,
    the <math> element of the first prefix, and the formula as its content. *)
Definition example_mathml : string -> option string :=
  fun formula =>
    Some (xml_prefix ++ nl ++ hd "" mathml_prefixes ++ nl
          ++ "  <ci> " ++ formula ++ " </ci>" ++ nl ++ mathml_suffix).

Definition example_model : SBMLModel :=
  model_of example_species example_rules example_reactions.

Definition example_cellml : CellMLModel :=
  match convert_model example_mathml "example" example_model with
  | Ok cm => cm
  | Raise _ => new_Model ""
  end.

(** A logger with two issues. *)
Definition two_issues : Logger :=
  {| issueCount := 2;
     issue := fun index =>
                if Nat.eqb index 0
                then {| issue_level := "ERROR"; issue_description := "first" |}
                else {| issue_level := "WARNING";
                        issue_description := "second" |} |}.

(** An engine whose only task has the variable of integration "t" and
    [n] states over a grid of two points; [name k] is the name of state [k].
    The loaded file has two issues. *)
Definition example_engine (n : nat) (name : nat -> string) : OpenCOR :=
  {| File := string;
     SedDocument := string;
     SedInstance := string;
     SedInstanceTask := unit;
     File_new := fun cellml_path => cellml_path;
     File_issues := fun _ => [ {| description := "first" |};
                               {| description := "second" |} ];
     SedDocument_new := fun file => file;
     SedDocument_issues := fun _ => [];
     SedDocument_instantiate := fun document => document;
     SedInstance_issues := fun _ => [];
     SedInstance_run := fun instance => instance;
     SedInstance_tasks := fun _ => [tt];
     task_voi := fun _ => [0%float; 1%float];
     task_voi_name := fun _ => "t";
     task_voi_unit := fun _ => "second";
     task_state_count := fun _ => n;
     task_state_name := fun _ k => name k;
     task_state := fun _ k => [2%float; 3%float];
     task_state_unit := fun _ _ => "dimensionless" |}.

(** Two states with the same name, and two states with names of their own. *)
Definition same_names : OpenCOR := example_engine 2 (fun _ => "x").

Definition distinct_names : OpenCOR :=
  example_engine 2 (fun k => if Nat.eqb k 0 then "x" else "y").

Definition empty_file : SBMLFile :=
  {| file_stem := "empty"; file_document := {| document_model := None |} |}.

(** * Definitions for further properties *)

(** Whether the converter reads the size of the species' compartment. *)
Definition needs_compartment (s : Species) : bool :=
  match species_initialAmount s, species_initialConcentration s with
  | Some _, _ => negb (species_hasOnlySubstanceUnits s)
  | None, Some _ => species_hasOnlySubstanceUnits s
  | None, None => false
  end.

(** A species the species loop can handle by itself: it has an initial value
    and, when the size of its compartment is read, the compartment is one of
    the model. *)
Definition species_ready (cs : list Compartment) (s : Species) : Prop :=
  ~ no_initial_value s
  /\ (needs_compartment s = true ->
      In (species_compartment s) (map compartment_id cs)).

Definition is_algebraic (rule : Rule) : bool :=
  match rule_typeCode rule with
  | SBML_ALGEBRAIC_RULE => true
  | _ => false
  end.

Definition is_assignment (rule : Rule) : bool :=
  match rule_typeCode rule with
  | SBML_ASSIGNMENT_RULE => true
  | _ => false
  end.

Definition is_rate (rule : Rule) : bool :=
  match rule_typeCode rule with
  | SBML_RATE_RULE => true
  | _ => false
  end.

Definition with_rules (m : SBMLModel) (rules : list Rule) : SBMLModel :=
  {| model_id := model_id m;
     model_compartments := model_compartments m;
     model_parameters := model_parameters m;
     model_species := model_species m;
     model_rules := rules;
     model_reactions := model_reactions m |}.

(** The elements of a list in the order of their first occurrence. *)
Definition first_mentions (xs : list string) : list string :=
  rev (nodup string_dec (rev xs)).

(** The formula of the last rule for [vid] among rules of one kind. *)
Definition last_formula (kind : Rule -> bool) (vid : string)
           (rules : list Rule) : option string :=
  option_map rule_formula
    (find (fun rule => kind rule && String.eqb (rule_variable rule) vid)
          (rev rules)).

(** A dict filled by a loop that sets [key x] to [value x] for each [x]. *)
Definition filled {A V : Type} (key : A -> string) (value : A -> V)
           (xs : list A) (d : dict V) : dict V :=
  fold_left (fun d x => dict_set (key x) (value x) d) xs d.

(** Whether [old] occurs in [s], and whether a character does. *)
Fixpoint occurs (old s : string) : bool :=
  String.prefix old s
  || match s with
     | EmptyString => false
     | String _ s' => occurs old s'
     end.

Fixpoint has_char (c : ascii) (s : string) : bool :=
  match s with
  | EmptyString => false
  | String c' s' => Ascii.eqb c c' || has_char c s'
  end.

(** The layout of the string libsbml writes for a formula: the XML
    declaration, the start tag of the <math> element, the content and the end
    tag, each on lines of their own. *)
Definition libsbml_layout (start_tag body : string) : string :=
  xml_prefix ++ nl ++ start_tag ++ nl ++ body ++ nl ++ mathml_suffix.

(** The number of lines [print_issues] writes for a logger. *)
Definition report_length (logger : Logger) : nat :=
  match issueCount logger with
  | O => 0
  | S n => S (S n)
  end.

(** The MathML libsbml writes for "1 dimensionless": a number with units,
    in a <math> element that declares the sbml namespace. *)
Definition units_body : string :=
  "  <cn sbml:units=" ++ dq ++ "dimensionless" ++ dq ++ "> 1 </cn>".

Definition units_mathml : string -> option string :=
  fun _ => Some (libsbml_layout (last mathml_prefixes "") units_body).

(** An engine without a task, and an engine whose state has a shorter series
    than the variable of integration. *)
Definition no_task : OpenCOR :=
  {| File := string;
     SedDocument := string;
     SedInstance := string;
     SedInstanceTask := unit;
     File_new := fun cellml_path => cellml_path;
     File_issues := fun _ => [ {| description := "no such file" |} ];
     SedDocument_new := fun file => file;
     SedDocument_issues := fun _ => [];
     SedDocument_instantiate := fun document => document;
     SedInstance_issues := fun _ => [];
     SedInstance_run := fun instance => instance;
     SedInstance_tasks := fun _ => [];
     task_voi := fun _ => [];
     task_voi_name := fun _ => "t";
     task_voi_unit := fun _ => "second";
     task_state_count := fun _ => 0;
     task_state_name := fun _ _ => "x";
     task_state := fun _ _ => [];
     task_state_unit := fun _ _ => "dimensionless" |}.

Definition ragged : OpenCOR :=
  {| File := string;
     SedDocument := string;
     SedInstance := string;
     SedInstanceTask := unit;
     File_new := fun cellml_path => cellml_path;
     File_issues := fun _ => [];
     SedDocument_new := fun file => file;
     SedDocument_issues := fun _ => [];
     SedDocument_instantiate := fun document => document;
     SedInstance_issues := fun _ => [];
     SedInstance_run := fun instance => instance;
     SedInstance_tasks := fun _ => [tt];
     task_voi := fun _ => [0%float; 1%float];
     task_voi_name := fun _ => "t";
     task_voi_unit := fun _ => "second";
     task_state_count := fun _ => 1;
     task_state_name := fun _ _ => "x";
     task_state := fun _ _ => [2%float];
     task_state_unit := fun _ _ => "dimensionless" |}.

(** The equations, as the math string is to hold them.  [cellml_content] is
    what is kept of the string libsbml writes for a formula: the XML
    declaration, the two start tags and the end tag of the <math> element are
    taken out, "sbml:units" becomes "cellml:units", and the whitespace at the
    ends goes. *)
Definition cellml_content (text : string) : string :=
  let text :=
    replace ("<?xml version=" ++ dq ++ "1.0" ++ dq ++ " encoding=" ++ dq
             ++ "UTF-8" ++ dq ++ "?>") "" text in
  let text :=
    replace ("<math xmlns=" ++ dq ++ "http://www.w3.org/1998/Math/MathML" ++ dq
             ++ ">") "" text in
  let text :=
    replace ("<math xmlns=" ++ dq ++ "http://www.w3.org/1998/Math/MathML" ++ dq
             ++ " xmlns:sbml=" ++ dq
             ++ "http://www.sbml.org/sbml/level3/version2/core" ++ dq ++ ">")
            "" text in
  let text := replace "</math>" "" text in
  strip (replace "sbml:units" "cellml:units" text).

(** [vid = rhs] *)
Definition assignment_equation (vid rhs : string) : string :=
  "<apply>" ++ nl
  ++ "  <eq/>" ++ nl
  ++ "  <ci>" ++ vid ++ "</ci>" ++ nl
  ++ "  " ++ rhs ++ nl
  ++ "</apply>" ++ nl.

(** [d vid / d time = rhs]; the text ends with a newline and four spaces. *)
Definition differential_equation (vid rhs : string) : string :=
  "<apply>" ++ nl
  ++ "  <eq/>" ++ nl
  ++ "  <apply>" ++ nl
  ++ "    <diff/>" ++ nl
  ++ "    <bvar>" ++ nl
  ++ "      <ci>time</ci>" ++ nl
  ++ "    </bvar>" ++ nl
  ++ "    <ci>" ++ vid ++ "</ci>" ++ nl
  ++ "  </apply>" ++ nl
  ++ "  " ++ rhs ++ nl
  ++ "</apply>" ++ nl
  ++ "    ".

(** The equation of an entry [(vid, formula)], given what libsbml writes. *)
Definition is_assignment_of (f : string -> option string)
           (item : string * string) (eq : string) : Prop :=
  exists text,
    f (snd item) = Some text
    /\ eq = assignment_equation (fst item) (cellml_content text).

Definition is_differential_of (f : string -> option string)
           (item : string * string) (eq : string) : Prop :=
  exists text,
    f (snd item) = Some text
    /\ eq = differential_equation (fst item) (cellml_content text).

(** Two assignment rules for the variable k. *)
Definition rules_on_k : list Rule :=
  [ {| rule_variable := "k";
       rule_typeCode := SBML_ASSIGNMENT_RULE;
       rule_formula := "1" |};
    {| rule_variable := "k";
       rule_typeCode := SBML_ASSIGNMENT_RULE;
       rule_formula := "2" |} ].

(** * Facts about dictionaries *)

Section DictFacts.
Context {V : Type}.
Implicit Types (d : dict V) (k : string) (v : V).

Lemma dict_get_set_same d k v : dict_get k (dict_set k v d) = Some v.
Proof.
  induction d as [|[k' v'] d IH]; simpl.
  - now rewrite String.eqb_refl.
  - destruct (String.eqb k k') eqn:E; simpl.
    + now rewrite String.eqb_refl.
    + now rewrite E.
Qed.

Lemma dict_get_set_other d k k' v :
  k <> k' -> dict_get k' (dict_set k v d) = dict_get k' d.
Proof.
  intros Hne. induction d as [|[k0 v0] d IH]; simpl.
  - destruct (String.eqb k' k) eqn:E; [|reflexivity].
    apply String.eqb_eq in E. congruence.
  - destruct (String.eqb k k0) eqn:E; simpl.
    + apply String.eqb_eq in E. subst k0.
      destruct (String.eqb k' k) eqn:E'; [|reflexivity].
      apply String.eqb_eq in E'. congruence.
    + now rewrite IH.
Qed.

Lemma dict_get_None_not_key d k :
  dict_get k d = None <-> ~ In k (dict_keys d).
Proof.
  induction d as [|[k' v'] d IH]; simpl.
  - tauto.
  - destruct (String.eqb k k') eqn:E.
    + apply String.eqb_eq in E. subst. split; [discriminate | tauto].
    + apply String.eqb_neq in E. rewrite IH. split.
      * intros H [H'|H']; [congruence | tauto].
      * tauto.
Qed.

Lemma dict_get_Some_key d k v : dict_get k d = Some v -> In k (dict_keys d).
Proof.
  intros H. destruct (in_dec string_dec k (dict_keys d)) as [Hin|Hin]; auto.
  apply dict_get_None_not_key in Hin. congruence.
Qed.

(** A new key goes to the end. *)
Lemma dict_set_fresh d k v :
  dict_get k d = None -> dict_set k v d = (d ++ [(k, v)])%list.
Proof.
  induction d as [|[k' v'] d IH]; simpl; intros H.
  - reflexivity.
  - destruct (String.eqb k k'); [discriminate|]. now rewrite IH.
Qed.

(** An existing key keeps its place: the keys do not change. *)
Lemma dict_keys_set_present d k v v0 :
  dict_get k d = Some v0 -> dict_keys (dict_set k v d) = dict_keys d.
Proof.
  induction d as [|[k' v'] d IH]; simpl; intros H.
  - discriminate.
  - destruct (String.eqb k k') eqn:E; simpl.
    + apply String.eqb_eq in E. now subst.
    + unfold dict_keys in *. simpl. f_equal. now apply IH.
Qed.

Lemma dict_keys_set_fresh d k v :
  dict_get k d = None -> dict_keys (dict_set k v d) = (dict_keys d ++ [k])%list.
Proof.
  intros H. rewrite dict_set_fresh by assumption.
  unfold dict_keys. now rewrite map_app.
Qed.

Lemma dict_set_NoDup d k v :
  NoDup (dict_keys d) -> NoDup (dict_keys (dict_set k v d)).
Proof.
  intros Hnd. destruct (dict_get k d) as [v0|] eqn:E.
  - now rewrite (dict_keys_set_present _ _ _ _ E).
  - rewrite (dict_keys_set_fresh _ _ _ E).
    apply NoDup_app; auto.
    + constructor; [intros []|constructor].
    + intros x Hx [<-|[]]. now apply dict_get_None_not_key in E.
Qed.

End DictFacts.

(** * Facts about the loops and the model *)

Lemma for_each_cons {A S : Type} (body : S -> A -> result S) x xs s :
  for_each body (x :: xs) s = (s' <- body s x ;; for_each body xs s').
Proof. reflexivity. Qed.

Lemma bind_Ok_inv {A B : Type} (r : result A) (k : A -> result B) b :
  bind r k = Ok b -> exists a, r = Ok a /\ k a = Ok b.
Proof. destruct r; simpl; intros H; [eauto | discriminate]. Qed.

Lemma addVariable_sbml_model name units vars math v :
  on_component (addVariable v) (sbml_model name units vars math)
  = sbml_model name units (vars ++ [v])%list math.
Proof. reflexivity. Qed.

Lemma setMath_sbml_model name units vars math math' :
  on_component (setMath math') (sbml_model name units vars math)
  = sbml_model name units vars math'.
Proof. reflexivity. Qed.

Lemma add_compartments_from cs d name units vars math :
  fold_left add_compartment cs (d, sbml_model name units vars math)
  = (cdict_from d cs,
     sbml_model name units (vars ++ map compartment_variable cs)%list math).
Proof.
  revert d vars. induction cs as [|c cs IH]; intros d vars; simpl.
  - now rewrite app_nil_r.
  - rewrite addVariable_sbml_model, IH. now rewrite <- app_assoc.
Qed.

Lemma add_parameters_sbml_model ps name units vars math :
  add_parameters ps (sbml_model name units vars math)
  = sbml_model name units (vars ++ map parameter_variable ps)%list math.
Proof.
  unfold add_parameters. revert vars.
  induction ps as [|p ps IH]; intros vars; simpl.
  - now rewrite app_nil_r.
  - unfold add_parameter at 2. rewrite addVariable_sbml_model, IH.
    now rewrite <- app_assoc.
Qed.

(** The species loop refines [species_run]. *)
Lemma add_species_from cdict ss types v name units vars math st :
  for_each (add_one_species cdict) ss
    {| species_types := types; vinit := v;
       species_model := sbml_model name units vars math |} = Ok st ->
  exists svars,
    species_run cdict v ss svars (vinit st)
    /\ species_model st = sbml_model name units (vars ++ svars)%list math
    /\ species_types st
       = fold_left (fun d s => dict_set (species_id s) (species_type s) d)
                   ss types.
Proof.
  revert types v vars. induction ss as [|s ss IH]; intros types v vars; simpl.
  - intros H. inversion H; subst; simpl. exists []. rewrite app_nil_r.
    repeat split. constructor.
  - intros H. apply bind_Ok_inv in H. destruct H as [st1 [H1 H2]].
    unfold add_one_species in H1. simpl in H1.
    apply bind_Ok_inv in H1. destruct H1 as [v1 [Hv1 H1]].
    apply bind_Ok_inv in H1. destruct H1 as [x [Hx H1]].
    destruct v1 as [x1|]; simpl in Hx; [|discriminate].
    inversion Hx; subst x1. inversion H1; subst st1. clear H1 Hx.
    rewrite addVariable_sbml_model in H2.
    apply IH in H2. destruct H2 as [svars [Hrun [Hm Ht]]].
    exists (dimensionless (species_id s) (Some x) :: svars).
    split; [|split].
    + econstructor; eauto.
    + rewrite Hm. now rewrite <- app_assoc.
    + exact Ht.
Qed.

(** What a successful conversion went through, stage by stage. *)
Lemma convert_model_inv f stem m cm :
  convert_model f stem m = Ok cm ->
  exists svars v' rt rt' parts,
    species_run (cdict_of (model_compartments m)) None (model_species m) svars v'
    /\ collect_reaction_terms (model_reactions m) = Ok rt
    /\ scale_reaction_terms m (species_types_of (model_species m)) rt = Ok rt'
    /\ collect_mathml_parts f (fst (collect_rules (model_rules m)))
                            (snd (collect_rules (model_rules m))) rt' = Ok parts
    /\ cm = sbml_model (mid_of stem m) [per_second]
                       (variable_time
                          :: map compartment_variable (model_compartments m)
                          ++ map parameter_variable (model_parameters m)
                          ++ svars)%list
                       (combine_mathml parts).
Proof.
  unfold convert_model. fold (mid_of stem m).
  change (on_component (addVariable variable_time)
            (addUnits per_second
               (addComponent (new_Component "sbml") (new_Model (mid_of stem m)))))
    with (sbml_model (mid_of stem m) [per_second] [variable_time] "").
  unfold add_compartments. rewrite add_compartments_from.
  rewrite add_parameters_sbml_model.
  intros H. apply bind_Ok_inv in H. destruct H as [st [Hsp H]].
  apply add_species_from in Hsp. destruct Hsp as [svars [Hrun [Hm Ht]]].
  destruct (collect_rules (model_rules m)) as [arules rrules] eqn:Hrules.
  apply bind_Ok_inv in H. destruct H as [rt [Hrt H]].
  apply bind_Ok_inv in H. destruct H as [rt' [Hrt' H]].
  apply bind_Ok_inv in H. destruct H as [parts [Hparts H]].
  exists svars, (vinit st), rt, rt', parts.
  rewrite Ht in Hrt'. rewrite Hm in H. rewrite setMath_sbml_model in H.
  inversion H; subst cm. simpl.
  repeat split; auto.
  now rewrite <- app_assoc.
Qed.

(** * The converter's own exception *)

Lemma bind_no_conversion_error {A B : Type} (r : result A) (k : A -> result B) :
  is_conversion_error r = false ->
  (forall a, is_conversion_error (k a) = false) ->
  is_conversion_error (bind r k) = false.
Proof. destruct r; simpl; auto. Qed.

Lemma for_each_no_conversion_error {A S : Type} (body : S -> A -> result S) xs :
  (forall s x, is_conversion_error (body s x) = false) ->
  forall s, is_conversion_error (for_each body xs s) = false.
Proof.
  intros Hbody. induction xs as [|x xs IH]; intros s; simpl.
  - reflexivity.
  - apply bind_no_conversion_error; auto.
Qed.

Lemma dict_lookup_no_conversion_error {V : Type} k (d : dict V) :
  is_conversion_error (dict_lookup k d) = false.
Proof. unfold dict_lookup. now destruct (dict_get k d). Qed.

Ltac no_conversion_error :=
  repeat first
    [ reflexivity
    | apply dict_lookup_no_conversion_error
    | apply bind_no_conversion_error; [|intros ?]
    | apply for_each_no_conversion_error; intros ? ?
    | match goal with
      | |- context [match ?x with _ => _ end] => destruct x; simpl
      | |- context [if ?b then _ else _] => destruct b; simpl
      end ].

Lemma convert_model_no_conversion_error f stem m :
  is_conversion_error (convert_model f stem m) = false.
Proof.
  unfold convert_model.
  destruct (add_compartments _ _) as [cdict m1].
  destruct (collect_rules _) as [arules rrules].
  unfold add_species, add_one_species, assign_vinit, read_vinit,
    collect_reaction_terms, add_reaction, scale_reaction_terms, scale_term,
    collect_mathml_parts, append_assignment, append_diff,
    mathml_for_assignment, mathml_for_diff, process_mathml_for_cellml.
  no_conversion_error.
Qed.

(** C4: a document without a model makes [convert_sbml2cellml] raise
    [SBML2CellMLConversionError] ("No model in SBMLDocument.") and no CellML
    model is returned; with a model, the converter runs [convert_model], which
    never raises that exception. *)
Theorem missing_model_raises_conversion_error
        (f : string -> option string) (sbml_path : SBMLFile) :
  match document_model (file_document sbml_path) with
  | None =>
      convert_sbml2cellml f sbml_path
      = Raise (SBML2CellMLConversionError "No model in SBMLDocument.")
  | Some m_sbml =>
      convert_sbml2cellml f sbml_path
      = convert_model f (file_stem sbml_path) m_sbml
      /\ is_conversion_error (convert_sbml2cellml f sbml_path) = false
  end.
Proof.
  unfold convert_sbml2cellml.
  destruct (document_model (file_document sbml_path)) as [m|].
  - split; [reflexivity | apply convert_model_no_conversion_error].
  - reflexivity.
Qed.

(** * The species loop *)

Lemma assign_vinit_unset cdict s v :
  no_initial_value s -> assign_vinit cdict s v = Ok v.
Proof. intros [Ha Hc]. unfold assign_vinit. now rewrite Ha, Hc. Qed.

(** With an initial value of its own, a species does not look at [vinit]. *)
Lemma assign_vinit_set cdict s v v0 :
  ~ no_initial_value s -> assign_vinit cdict s v = assign_vinit cdict s v0.
Proof.
  unfold no_initial_value, assign_vinit. intros H.
  destruct (species_initialAmount s); [reflexivity|].
  destruct (species_initialConcentration s); [reflexivity|].
  exfalso. now apply H.
Qed.

Lemma assign_vinit_value cdict s v x :
  assign_vinit cdict s v = Ok (Some x) -> species_value cdict s x.
Proof.
  unfold assign_vinit, species_value, dict_lookup, process_init_value, nan_to_one.
  destruct (species_initialAmount s) as [a|].
  - destruct (species_hasOnlySubstanceUnits s).
    + intros H. now inversion H.
    + destruct (dict_get _ cdict) as [size|]; simpl; intros H; [|discriminate].
      inversion H. eauto.
  - destruct (species_initialConcentration s) as [c|]; [|trivial].
    destruct (species_hasOnlySubstanceUnits s).
    + destruct (dict_get _ cdict) as [size|]; simpl; intros H; [|discriminate].
      inversion H. eauto.
    + intros H. now inversion H.
Qed.

Lemma species_run_names cdict v ss svars v' :
  species_run cdict v ss svars v' ->
  map variable_name svars = map species_id ss.
Proof. induction 1; simpl; congruence. Qed.

Lemma species_run_length cdict v ss svars v' :
  species_run cdict v ss svars v' -> List.length svars = List.length ss.
Proof. induction 1; simpl; congruence. Qed.

Lemma species_run_values cdict v ss svars v' :
  species_run cdict v ss svars v' ->
  Forall2 (fun s var =>
             variable_name var = species_id s
             /\ exists x, variable_initialValue var = Some x
                          /\ species_value cdict s x
                          /\ (~ no_initial_value s ->
                              assign_vinit cdict s None = Ok (Some x)))
          ss svars.
Proof.
  induction 1 as [|v s x ss vars v' Hassign Hrun IH]; constructor; auto.
  split; [reflexivity|]. exists x. repeat split.
  - eapply assign_vinit_value; eauto.
  - intros Hset. now rewrite (assign_vinit_set cdict s None v Hset).
Qed.

Lemma species_run_app_inv cdict v pre post svars v' :
  species_run cdict v (pre ++ post)%list svars v' ->
  exists sv1 sv2 vm,
    svars = (sv1 ++ sv2)%list
    /\ species_run cdict v pre sv1 vm
    /\ species_run cdict vm post sv2 v'.
Proof.
  revert v svars. induction pre as [|s pre IH]; simpl; intros v svars H.
  - exists [], svars, v. repeat split; [constructor | assumption].
  - inversion H as [|? ? x ? vars ? Hassign Hrun]; subst.
    destruct (IH _ _ Hrun) as [sv1 [sv2 [vm [-> [H1 H2]]]]].
    exists (dimensionless (species_id s) (Some x) :: sv1), sv2, vm.
    repeat split; [econstructor; eauto | assumption].
Qed.

(** A species without an initial value that follows another species gets the
    value of that species' variable. *)
Lemma species_run_reuse cdict v p s post svars v' :
  species_run cdict v (p :: s :: post) svars v' ->
  no_initial_value s ->
  exists x rest,
    svars = dimensionless (species_id p) (Some x)
              :: dimensionless (species_id s) (Some x) :: rest.
Proof.
  intros H Hs.
  inversion H as [|? ? x ? vars ? Hp Hrun]; subst.
  inversion Hrun as [|? ? y ? vars' ? Hassign Hrun']; subst.
  rewrite (assign_vinit_unset _ _ _ Hs) in Hassign.
  inversion Hassign; subst. eauto.
Qed.

(** A species without an initial value in front: [vinit] is still unbound. *)
Lemma add_species_unbound cdict s rest m_cellml :
  no_initial_value s ->
  add_species cdict (s :: rest) m_cellml = Raise (UnboundLocalError "vinit").
Proof.
  intros Hs. unfold add_species. simpl. unfold add_one_species. simpl.
  now rewrite (assign_vinit_unset _ _ _ Hs).
Qed.

Lemma convert_model_variables f stem m cm :
  convert_model f stem m = Ok cm ->
  exists svars v',
    species_run (cdict_of (model_compartments m)) None (model_species m) svars v'
    /\ cellml_components cm
       = [ {| component_name := "sbml";
              component_variables :=
                (variable_time
                   :: map compartment_variable (model_compartments m)
                   ++ map parameter_variable (model_parameters m)
                   ++ svars)%list;
              component_math := component_math
                                  (hd (new_Component "") (cellml_components cm)) |} ].
Proof.
  intros H. apply convert_model_inv in H.
  destruct H as [svars [v' [rt [rt' [parts [Hrun [_ [_ [_ ->]]]]]]]]].
  exists svars, v'. split; [assumption | reflexivity].
Qed.

Lemma all_variables_converted f stem m cm :
  convert_model f stem m = Ok cm ->
  exists svars v',
    species_run (cdict_of (model_compartments m)) None (model_species m) svars v'
    /\ all_variables cm
       = (variable_time
            :: map compartment_variable (model_compartments m)
            ++ map parameter_variable (model_parameters m)
            ++ svars)%list.
Proof.
  intros H. destruct (convert_model_variables _ _ _ _ H) as [svars [v' [Hrun Hc]]].
  exists svars, v'. split; [assumption|].
  unfold all_variables. rewrite Hc. simpl. now rewrite app_nil_r.
Qed.

(** X1: whenever the conversion returns a model, that model has the one component
    "sbml", and its variables are "time", then one per compartment, one per
    parameter and one per species, in the order of the SBML model. *)
Lemma converted_variable_names f stem m cm :
  convert_model f stem m = Ok cm ->
  exists c,
    cellml_components cm = [c]
    /\ component_name c = "sbml"
    /\ map variable_name (component_variables c)
       = ("time"
            :: map compartment_id (model_compartments m)
            ++ map parameter_id (model_parameters m)
            ++ map species_id (model_species m))%list.
Proof.
  intros H. destruct (convert_model_variables _ _ _ _ H) as [svars [v' [Hrun Hc]]].
  eexists. split; [exact Hc|]. split; [reflexivity|]. simpl.
  rewrite !map_app, !map_map. simpl.
  rewrite (species_run_names _ _ _ _ _ Hrun).
  repeat f_equal.
Qed.

(** C1: on an SBML model whose only species has neither an initial amount nor
    an initial concentration, [convert_sbml2cellml] raises [UnboundLocalError]
    for [vinit] and returns no CellML model: no variable is produced for that
    species. *)
Theorem species_without_initial_value_aborts_conversion
        (f : string -> option string) :
  convert_sbml2cellml f (file_of [species_unset] [] [])
  = Raise (UnboundLocalError "vinit")
  /\ ~ exists cm,
        convert_sbml2cellml f (file_of [species_unset] [] []) = Ok cm
        /\ In "S1" (map variable_name (all_variables cm)).
Proof.
  split; [reflexivity|].
  intros [cm [H _]]. discriminate H.
Qed.

(** The amount half of the conversion of initial values: an amount species
    with an initial concentration gets the concentration times the size of
    its compartment. *)
Lemma initial_concentration_of_amount_species cdict s v c size :
  species_hasOnlySubstanceUnits s = true ->
  species_initialAmount s = None ->
  species_initialConcentration s = Some c ->
  dict_get (species_compartment s) cdict = Some size ->
  assign_vinit cdict s v = Ok (Some (equivalent_amount (nan_to_one c) size)).
Proof.
  intros Hh Ha Hc Hsize. unfold assign_vinit, dict_lookup.
  now rewrite Ha, Hc, Hh, Hsize.
Qed.

(** C3: a concentration species (hasOnlySubstanceUnits false) with the initial
    amount 4.0 in a compartment of size 2.0 gets the initial value 8.0, the
    amount times the size; the equivalent concentration is 4.0 / 2.0 = 2.0. *)
Theorem initial_amount_of_concentration_species_is_multiplied
        (f : string -> option string) :
  exists cm,
    convert_sbml2cellml f (file_of [species_amount_set] [] []) = Ok cm
    /\ initial_value_of "S2" cm = Some 8%float
    /\ equivalent_concentration 4 (compartment_size example_compartment)
       = 2%float
    /\ initial_value_of "S2" cm
       <> Some (equivalent_concentration 4 (compartment_size example_compartment)).
Proof.
  eexists. split; [reflexivity|].
  split; [reflexivity|]. split; [reflexivity|].
  intros H. vm_compute in H. inversion H.
Qed.

(** * Initial values *)

Lemma process_init_value_nan_to_one sid value :
  process_init_value sid value = nan_to_one value.
Proof. reflexivity. Qed.

(** C8: [process_init_value] turns NaN into 1.0 and returns every other value
    unchanged, and in every model the converter returns the compartment and
    parameter variables carry the value so processed, while the value of a
    species variable is computed from the processed initial amount or
    concentration. *)
Theorem nan_initial_values_become_one
        (f : string -> option string) (stem : string) (m : SBMLModel)
        (cm : CellMLModel) :
  convert_model f stem m = Ok cm ->
  (forall sid value,
      (is_nan value = true -> process_init_value sid value = 1%float)
      /\ (is_nan value = false -> process_init_value sid value = value))
  /\ exists svars,
      all_variables cm
      = (variable_time
           :: map (fun c => dimensionless (compartment_id c)
                              (Some (nan_to_one (compartment_size c))))
                  (model_compartments m)
           ++ map (fun p => dimensionless (parameter_id p)
                              (Some (nan_to_one (parameter_value p))))
                  (model_parameters m)
           ++ svars)%list
      /\ Forall2 (fun s var =>
                    variable_name var = species_id s
                    /\ exists x, variable_initialValue var = Some x
                                 /\ species_value
                                      (cdict_of (model_compartments m)) s x)
                 (model_species m) svars.
Proof.
  intros H. split.
  - intros sid value. unfold process_init_value.
    split; intros ->; reflexivity.
  - destruct (all_variables_converted _ _ _ _ H) as [svars [v' [Hrun Hvars]]].
    exists svars. split; [exact Hvars|].
    eapply Forall2_impl; [|exact (species_run_values _ _ _ _ _ Hrun)].
    intros s var [Hname [x [Hx [Hval _]]]]. eauto.
Qed.

Lemma nan_initial_values_become_one_witness :
  process_init_value "k" nan = 1%float
  /\ exists svars,
      all_variables
        (sbml_model "example" [per_second]
           [variable_time; dimensionless "c" (Some 2%float);
            dimensionless "k" (Some 1%float);
            dimensionless "S3" (Some 2%float)] (combine_mathml []))
      = (variable_time
           :: map (fun c => dimensionless (compartment_id c)
                              (Some (nan_to_one (compartment_size c))))
                  [example_compartment]
           ++ map (fun p => dimensionless (parameter_id p)
                              (Some (nan_to_one (parameter_value p))))
                  [ {| parameter_id := "k"; parameter_value := nan |} ]
           ++ svars)%list
      /\ Forall2 (fun s var =>
                    variable_name var = species_id s
                    /\ exists x, variable_initialValue var = Some x
                                 /\ species_value (cdict_of [example_compartment])
                                                  s x)
                 [species_concentration_nan] svars.
Proof.
  destruct (nan_initial_values_become_one
              no_mathml "example" (model_of [species_concentration_nan] [] [])
              (sbml_model "example" [per_second]
                 [variable_time; dimensionless "c" (Some 2%float);
                  dimensionless "k" (Some 1%float);
                  dimensionless "S3" (Some 2%float)] (combine_mathml []))
              eq_refl) as [Hnan Hvars].
  split.
  - exact (proj1 (Hnan "k" nan) eq_refl).
  - exact Hvars.
Defined.

(** C9: (1) in every model the converter returns, the variable of a species
    that has an initial amount or an initial concentration set carries the
    value its own iteration assigns to [vinit]; (2) when the first species of
    the model has neither set, the conversion raises [UnboundLocalError] for
    [vinit]; (3) a species with neither set that comes right after another
    species gets the initial value of that species' variable. *)
Theorem unset_species_initial_value
        (f : string -> option string) (stem : string) (m : SBMLModel) :
  (forall cm,
      convert_model f stem m = Ok cm ->
      exists svars,
        all_variables cm
        = (variable_time
             :: map compartment_variable (model_compartments m)
             ++ map parameter_variable (model_parameters m)
             ++ svars)%list
        /\ Forall2 (fun s var =>
                      variable_name var = species_id s
                      /\ exists x,
                          variable_initialValue var = Some x
                          /\ (~ no_initial_value s ->
                              assign_vinit (cdict_of (model_compartments m))
                                           s None = Ok (Some x)))
                   (model_species m) svars)
  /\ (forall s rest,
         model_species m = s :: rest ->
         no_initial_value s ->
         convert_model f stem m = Raise (UnboundLocalError "vinit"))
  /\ (forall cm pre p s post,
         convert_model f stem m = Ok cm ->
         model_species m = (pre ++ p :: s :: post)%list ->
         no_initial_value s ->
         let i := 1 + List.length (model_compartments m)
                  + List.length (model_parameters m) + List.length pre in
         exists x,
           nth_error (all_variables cm) i
           = Some (dimensionless (species_id p) (Some x))
           /\ nth_error (all_variables cm) (S i)
              = Some (dimensionless (species_id s) (Some x))).
Proof.
  split; [|split].
  - intros cm H.
    destruct (all_variables_converted _ _ _ _ H) as [svars [v' [Hrun Hvars]]].
    exists svars. split; [exact Hvars|].
    eapply Forall2_impl; [|exact (species_run_values _ _ _ _ _ Hrun)].
    intros s var [Hname [x [Hx [_ Hown]]]]. eauto.
  - intros s rest Hss Hs. unfold convert_model.
    destruct (add_compartments _ _) as [cdict m1].
    rewrite Hss, (add_species_unbound _ _ _ _ Hs). reflexivity.
  - intros cm pre p s post H Hss Hs i.
    destruct (all_variables_converted _ _ _ _ H) as [svars [v' [Hrun Hvars]]].
    rewrite Hss in Hrun.
    apply species_run_app_inv in Hrun.
    destruct Hrun as [sv1 [sv2 [vm [-> [Hpre Hpost]]]]].
    destruct (species_run_reuse _ _ _ _ _ _ _ Hpost Hs) as [x [rest ->]].
    apply species_run_length in Hpre.
    exists x.
    assert (Hsplit :
              all_variables cm
              = ((variable_time
                    :: map compartment_variable (model_compartments m)
                    ++ map parameter_variable (model_parameters m) ++ sv1)
                   ++ dimensionless (species_id p) (Some x)
                   :: dimensionless (species_id s) (Some x) :: rest)%list).
    { rewrite Hvars. simpl. now rewrite <- !app_assoc. }
    assert (Hlen :
              List.length
                (variable_time
                   :: map compartment_variable (model_compartments m)
                   ++ map parameter_variable (model_parameters m) ++ sv1)%list
              = i).
    { subst i. simpl. rewrite !length_app, !length_map, Hpre. lia. }
    rewrite Hsplit. split.
    + rewrite nth_error_app2 by lia. rewrite Hlen, Nat.sub_diag. reflexivity.
    + rewrite nth_error_app2 by lia. rewrite Hlen.
      replace (S i - i) with 1 by lia. reflexivity.
Qed.

Lemma unset_species_initial_value_witness :
  convert_model no_mathml "example"
                (model_of [species_unset; species_amount_set] [] [])
  = Raise (UnboundLocalError "vinit")
  /\ exists x,
      nth_error
        (all_variables
           (sbml_model "example" [per_second]
              [variable_time; dimensionless "c" (Some 2%float);
               dimensionless "k" (Some 1%float);
               dimensionless "S2" (Some 8%float);
               dimensionless "S1" (Some 8%float)] (combine_mathml []))) 3
      = Some (dimensionless "S2" (Some x))
      /\ nth_error
           (all_variables
              (sbml_model "example" [per_second]
                 [variable_time; dimensionless "c" (Some 2%float);
                  dimensionless "k" (Some 1%float);
                  dimensionless "S2" (Some 8%float);
                  dimensionless "S1" (Some 8%float)] (combine_mathml []))) 4
         = Some (dimensionless "S1" (Some x)).
Proof.
  split.
  - exact (proj1 (proj2 (unset_species_initial_value
                           no_mathml "example"
                           (model_of [species_unset; species_amount_set] [] [])))
                 species_unset [species_amount_set] eq_refl
                 (conj eq_refl eq_refl)).
  - exact (proj2 (proj2 (unset_species_initial_value
                           no_mathml "example"
                           (model_of [species_amount_set; species_unset] [] [])))
                 (sbml_model "example" [per_second]
                    [variable_time; dimensionless "c" (Some 2%float);
                     dimensionless "k" (Some 1%float);
                     dimensionless "S2" (Some 8%float);
                     dimensionless "S1" (Some 8%float)] (combine_mathml []))
                 [] species_amount_set species_unset []
                 eq_refl eq_refl (conj eq_refl eq_refl)).
Defined.

(** * Reaction terms *)

Lemma string_app_assoc (a b c : string) : (a ++ b) ++ c = a ++ (b ++ c).
Proof. induction a as [|x a IH]; simpl; [reflexivity | now rewrite IH]. Qed.

Lemma join_cons_cons sep p q ps :
  join sep (p :: q :: ps) = p ++ sep ++ join sep (q :: ps).
Proof. reflexivity. Qed.

Lemma extend_app old ts us :
  extend old (ts ++ us)%list = extend (extend old ts) us.
Proof. unfold extend. now rewrite fold_left_app. Qed.

(** Extending an existing term appends to it, each time after one space. *)
Lemma extend_Some o ts : extend (Some o) ts = Some (join " " (o :: ts)).
Proof.
  revert o. induction ts as [|t ts IH]; intros o.
  - reflexivity.
  - change (extend (Some o) (t :: ts)) with (extend (Some (o ++ " " ++ t)) ts).
    rewrite IH. f_equal. destruct ts as [|t' ts].
    + reflexivity.
    + rewrite !join_cons_cons. now rewrite !string_app_assoc.
Qed.

Lemma extend_None ts :
  extend None ts = match ts with [] => None | _ => Some (join " " ts) end.
Proof.
  destruct ts as [|t ts]; [reflexivity|].
  change (extend None (t :: ts)) with (extend (Some t) ts).
  apply extend_Some.
Qed.

Lemma add_term_get_same sign formula rt sid :
  dict_get sid (add_term sign formula rt sid)
  = Some (append_term (dict_get sid rt) (signed sign formula)).
Proof.
  unfold add_term. destruct (dict_get sid rt); now rewrite dict_get_set_same.
Qed.

Lemma add_term_get_other sign formula rt sid sid' :
  sid <> sid' ->
  dict_get sid (add_term sign formula rt sid') = dict_get sid rt.
Proof.
  intros Hne. unfold add_term.
  destruct (dict_get sid' rt); apply dict_get_set_other; congruence.
Qed.

Lemma add_term_NoDup sign formula rt sid :
  NoDup (dict_keys rt) -> NoDup (dict_keys (add_term sign formula rt sid)).
Proof. unfold add_term. destruct (dict_get sid rt); apply dict_set_NoDup. Qed.

Lemma add_terms_get sign formula ids rt sid :
  dict_get sid (fold_left (add_term sign formula) ids rt)
  = extend (dict_get sid rt)
           (map (fun _ => signed sign formula) (filter (String.eqb sid) ids)).
Proof.
  revert rt. induction ids as [|i ids IH]; intros rt; simpl.
  - reflexivity.
  - rewrite IH. destruct (String.eqb sid i) eqn:E; simpl.
    + apply String.eqb_eq in E. subst i. now rewrite add_term_get_same.
    + apply String.eqb_neq in E. now rewrite add_term_get_other.
Qed.

Lemma add_terms_NoDup sign formula ids rt :
  NoDup (dict_keys rt) ->
  NoDup (dict_keys (fold_left (add_term sign formula) ids rt)).
Proof.
  revert rt. induction ids as [|i ids IH]; intros rt H; simpl; auto.
  apply IH. now apply add_term_NoDup.
Qed.

Lemma add_reaction_get rt r rt1 sid :
  add_reaction rt r = Ok rt1 ->
  dict_get sid rt1 = extend (dict_get sid rt) (reaction_contributions sid r).
Proof.
  unfold add_reaction, reaction_contributions.
  destruct (reaction_kineticLaw r) as [formula|]; [|discriminate].
  intros H. inversion H; subst rt1.
  now rewrite extend_app, !add_terms_get.
Qed.

Lemma add_reaction_NoDup rt r rt1 :
  add_reaction rt r = Ok rt1 -> NoDup (dict_keys rt) -> NoDup (dict_keys rt1).
Proof.
  unfold add_reaction.
  destruct (reaction_kineticLaw r) as [formula|]; [|discriminate].
  intros H Hnd. inversion H; subst rt1. now apply add_terms_NoDup, add_terms_NoDup.
Qed.

Lemma add_reactions_get rs rt rt1 sid :
  for_each add_reaction rs rt = Ok rt1 ->
  dict_get sid rt1 = extend (dict_get sid rt) (contributions sid rs).
Proof.
  revert rt. induction rs as [|r rs IH]; intros rt; simpl.
  - intros H. now inversion H.
  - intros H. apply bind_Ok_inv in H. destruct H as [rt0 [H0 H]].
    unfold contributions. simpl. rewrite extend_app.
    rewrite <- (add_reaction_get _ _ _ _ H0). now apply IH.
Qed.

Lemma add_reactions_NoDup rs rt rt1 :
  for_each add_reaction rs rt = Ok rt1 ->
  NoDup (dict_keys rt) -> NoDup (dict_keys rt1).
Proof.
  revert rt. induction rs as [|r rs IH]; intros rt; simpl.
  - intros H. now inversion H.
  - intros H Hnd. apply bind_Ok_inv in H. destruct H as [rt0 [H0 H]].
    eapply IH; eauto. eapply add_reaction_NoDup; eauto.
Qed.

(** Every reaction of a list that was collected has a kinetic law. *)
Lemma add_reactions_kineticLaw rs rt rt1 :
  for_each add_reaction rs rt = Ok rt1 ->
  Forall (fun r => reaction_kineticLaw r <> None) rs.
Proof.
  revert rt. induction rs as [|r rs IH]; intros rt; simpl; [constructor|].
  intros H. apply bind_Ok_inv in H. destruct H as [rt0 [H0 H]].
  constructor; [|eauto].
  unfold add_reaction in H0. destruct (reaction_kineticLaw r); congruence.
Qed.

Lemma collect_reaction_terms_get rs rt sid :
  collect_reaction_terms rs = Ok rt ->
  dict_get sid rt = accumulated sid rs.
Proof.
  intros H. unfold collect_reaction_terms in H.
  rewrite (add_reactions_get _ _ _ sid H). simpl.
  rewrite extend_None. unfold accumulated.
  now destruct (contributions sid rs).
Qed.

Lemma collect_reaction_terms_NoDup rs rt :
  collect_reaction_terms rs = Ok rt -> NoDup (dict_keys rt).
Proof. intros H. eapply add_reactions_NoDup; eauto. constructor. Qed.

Lemma scale_term_amount m types all sid term :
  dict_get sid types = Some "amount" ->
  scale_term m types all (sid, term) = Ok (dict_set sid term all).
Proof. intros H. unfold scale_term, dict_lookup. now rewrite H. Qed.

Lemma scale_term_concentration m types all sid term all1 :
  dict_get sid types = Some "concentration" ->
  scale_term m types all (sid, term) = Ok all1 ->
  exists s,
    getSpecies m sid = Some s
    /\ all1 = dict_set sid (wrapped (species_compartment s) term) all.
Proof.
  intros H. unfold scale_term, dict_lookup. rewrite H. simpl.
  destruct (getSpecies m sid) as [s|]; [|discriminate].
  intros H1. inversion H1. eauto.
Qed.

Lemma scale_term_get_other m types all sid term all1 sid' :
  scale_term m types all (sid, term) = Ok all1 ->
  sid' <> sid ->
  dict_get sid' all1 = dict_get sid' all.
Proof.
  unfold scale_term. intros H Hne.
  apply bind_Ok_inv in H. destruct H as [ty [_ H]].
  destruct (String.eqb ty "amount").
  - inversion H. apply dict_get_set_other. congruence.
  - destruct (String.eqb ty "concentration"); [|now inversion H].
    destruct (getSpecies m sid); [|discriminate].
    inversion H. apply dict_get_set_other. congruence.
Qed.

Lemma scale_terms_get m types items all all1 :
  for_each (scale_term m types) items all = Ok all1 ->
  NoDup (map fst items) ->
  (forall sid, ~ In sid (map fst items) -> dict_get sid all1 = dict_get sid all)
  /\ (forall sid term,
         In (sid, term) items ->
         (dict_get sid types = Some "amount" -> dict_get sid all1 = Some term)
         /\ (dict_get sid types = Some "concentration" ->
             exists s,
               getSpecies m sid = Some s
               /\ dict_get sid all1
                  = Some (wrapped (species_compartment s) term))).
Proof.
  revert all. induction items as [|[sid0 term0] items IH]; intros all H Hnd.
  - simpl in H. inversion H; subst. split; [reflexivity | intros ? ? []].
  - rewrite for_each_cons in H.
    apply bind_Ok_inv in H. destruct H as [all0 [H0 H]].
    inversion Hnd as [|? ? Hnotin Hnd']; subst.
    destruct (IH _ H Hnd') as [IHout IHin]. split.
    + intros sid Hsid. simpl in Hsid.
      rewrite IHout by tauto.
      eapply scale_term_get_other; [exact H0|].
      intros ->. apply Hsid. now left.
    + intros sid term [Heq|Hin].
      * injection Heq as Hsid Hterm. subst sid0 term0.
        rewrite (IHout _ Hnotin). split.
        -- intros Hty. rewrite (scale_term_amount _ _ _ _ _ Hty) in H0.
           inversion H0. apply dict_get_set_same.
        -- intros Hty.
           destruct (scale_term_concentration _ _ _ _ _ _ Hty H0) as [s [Hs ->]].
           exists s. split; [assumption | apply dict_get_set_same].
      * now apply IHin.
Qed.

Lemma dict_get_Some_In {V : Type} (d : dict V) k v :
  dict_get k d = Some v -> In (k, v) d.
Proof.
  induction d as [|[k' v'] d IH]; simpl; [discriminate|].
  destruct (String.eqb k k') eqn:E.
  - apply String.eqb_eq in E. intros H. inversion H. subst. now left.
  - auto.
Qed.



(** * MathML *)

(** A loop that appends one string per item. *)
Lemma append_loop {A : Type} (g : A -> result string)
      (body : list string -> A -> result (list string)) items parts parts' :
  (forall ps item, body ps item = (s <- g item ;; Ok (ps ++ [s])%list)) ->
  for_each body items parts = Ok parts' ->
  exists eqs,
    parts' = (parts ++ eqs)%list
    /\ Forall2 (fun item eq => g item = Ok eq) items eqs.
Proof.
  intros Hbody. revert parts.
  induction items as [|item items IH]; intros parts H.
  - simpl in H. inversion H; subst. exists []. rewrite app_nil_r.
    split; [reflexivity | constructor].
  - rewrite for_each_cons, Hbody in H.
    apply bind_Ok_inv in H. destruct H as [ps1 [H1 H]].
    apply bind_Ok_inv in H1. destruct H1 as [eq [Heq H1]].
    inversion H1; subst ps1. clear H1.
    destruct (IH _ H) as [eqs [-> Hall]].
    exists (eq :: eqs). rewrite <- app_assoc. split; [reflexivity|].
    now constructor.
Qed.

Lemma collect_mathml_parts_inv f arules rrules reaction_terms parts :
  collect_mathml_parts f arules rrules reaction_terms = Ok parts ->
  exists eqs_a eqs_r eqs_t,
    parts = (eqs_a ++ eqs_r ++ eqs_t)%list
    /\ Forall2 (fun item eq =>
                  mathml_for_assignment f (fst item) (snd item) = Ok eq)
               (dict_items arules) eqs_a
    /\ Forall2 (fun item eq =>
                  mathml_for_diff f (fst item) (snd item) time_name = Ok eq)
               (dict_items rrules) eqs_r
    /\ Forall2 (fun item eq =>
                  mathml_for_diff f (fst item) (snd item) time_name = Ok eq)
               (dict_items reaction_terms) eqs_t.
Proof.
  unfold collect_mathml_parts. intros H.
  apply bind_Ok_inv in H. destruct H as [ps1 [H1 H]].
  apply bind_Ok_inv in H. destruct H as [ps2 [H2 H3]].
  apply (append_loop (fun item => mathml_for_assignment f (fst item) (snd item)))
    in H1; [|now intros ps [vid formula]].
  apply (append_loop (fun item => mathml_for_diff f (fst item) (snd item) time_name))
    in H2; [|now intros ps [vid formula]].
  apply (append_loop (fun item => mathml_for_diff f (fst item) (snd item) time_name))
    in H3; [|now intros ps [vid formula]].
  destruct H1 as [eqs_a [-> Ha]]. destruct H2 as [eqs_r [-> Hr]].
  destruct H3 as [eqs_t [-> Ht]].
  exists eqs_a, eqs_r, eqs_t. simpl. rewrite <- app_assoc. auto.
Qed.

(** The keys of the collected dictionaries. *)

Lemma dict_keys_set_In {V : Type} (d : dict V) k v k' :
  In k' (dict_keys (dict_set k v d)) <-> k' = k \/ In k' (dict_keys d).
Proof.
  destruct (dict_get k d) as [v0|] eqn:E.
  - rewrite (dict_keys_set_present _ _ _ _ E).
    apply dict_get_Some_key in E. split; [tauto|]. intros [->|H]; auto.
  - rewrite (dict_keys_set_fresh _ _ _ E), in_app_iff. simpl.
    split; [intros [H|[H|[]]] | intros [H|H]]; auto.
Qed.

Lemma filter_eqb_nil sid ids :
  filter (String.eqb sid) ids = [] <-> ~ In sid ids.
Proof.
  induction ids as [|i ids IH]; simpl; [tauto|].
  destruct (String.eqb sid i) eqn:E.
  - apply String.eqb_eq in E. subst. split; [discriminate | tauto].
  - apply String.eqb_neq in E. rewrite IH. split.
    + intros H [H'|H']; [congruence | tauto].
    + tauto.
Qed.

Lemma reaction_contributions_nil sid r :
  reaction_kineticLaw r <> None ->
  reaction_contributions sid r = []
  <-> ~ In sid (reaction_reactants r ++ reaction_products r)%list.
Proof.
  intros Hlaw. unfold reaction_contributions.
  destruct (reaction_kineticLaw r) as [formula|]; [|congruence].
  split.
  - intros H Hin. apply app_eq_nil in H. destruct H as [H1 H2].
    apply map_eq_nil in H1, H2. apply filter_eqb_nil in H1, H2.
    apply in_app_iff in Hin. tauto.
  - intros H.
    assert (H1 : filter (String.eqb sid) (reaction_reactants r) = [])
      by (apply filter_eqb_nil; intros Hin; apply H, in_app_iff; auto).
    assert (H2 : filter (String.eqb sid) (reaction_products r) = [])
      by (apply filter_eqb_nil; intros Hin; apply H, in_app_iff; auto).
    now rewrite H1, H2.
Qed.

Lemma contributions_nil sid rs :
  Forall (fun r => reaction_kineticLaw r <> None) rs ->
  contributions sid rs = [] <-> ~ In sid (reacting rs).
Proof.
  induction 1 as [|r rs Hr Hrs IH]; simpl; [tauto|].
  unfold contributions, reacting in *. simpl. rewrite in_app_iff. split.
  - intros H. apply app_eq_nil in H. destruct H as [H1 H2].
    apply (reaction_contributions_nil sid r Hr) in H1. tauto.
  - intros H.
    assert (H1 : reaction_contributions sid r = [])
      by (apply (reaction_contributions_nil sid r Hr); tauto).
    assert (H2 : flat_map (reaction_contributions sid) rs = [])
      by (apply IH; tauto).
    now rewrite H1, H2.
Qed.

(** The keys of the reaction terms are the reacting species. *)
Lemma collect_reaction_terms_keys rs rt sid :
  collect_reaction_terms rs = Ok rt ->
  In sid (dict_keys rt) <-> In sid (reacting rs).
Proof.
  intros H.
  pose proof (collect_reaction_terms_get _ _ sid H) as Hget.
  pose proof (contributions_nil sid rs (add_reactions_kineticLaw _ _ _ H)) as Hnil.
  unfold accumulated in Hget. split.
  - intros Hin. destruct (in_dec string_dec sid (reacting rs)) as [|Hno]; auto.
    apply Hnil in Hno. rewrite Hno in Hget.
    apply dict_get_None_not_key in Hget. contradiction.
  - intros Hin. destruct (dict_get sid rt) eqn:E.
    + eapply dict_get_Some_key; eauto.
    + destruct (contributions sid rs) eqn:Ec; [|discriminate].
      exfalso. apply (proj1 Hnil); auto.
Qed.

Lemma species_types_from_values ss d sid ty :
  (forall sid ty, dict_get sid d = Some ty ->
                  ty = "amount" \/ ty = "concentration") ->
  dict_get sid
    (fold_left (fun d s => dict_set (species_id s) (species_type s) d) ss d)
  = Some ty ->
  ty = "amount" \/ ty = "concentration".
Proof.
  revert d. induction ss as [|s ss IH]; intros d Hd; simpl.
  - apply Hd.
  - apply IH. intros sid' ty'.
    destruct (string_dec (species_id s) sid') as [<-|Hne].
    + rewrite dict_get_set_same. intros H. inversion H.
      unfold species_type. destruct (species_hasOnlySubstanceUnits s); auto.
    + rewrite dict_get_set_other by assumption. apply Hd.
Qed.

Lemma species_types_of_values ss sid ty :
  dict_get sid (species_types_of ss) = Some ty ->
  ty = "amount" \/ ty = "concentration".
Proof. apply species_types_from_values. intros ? ?. discriminate. Qed.

(** With only the two species types, scaling keeps every entry, in order. *)
Lemma scale_terms_keys m types items all all1 :
  (forall sid ty, dict_get sid types = Some ty ->
                  ty = "amount" \/ ty = "concentration") ->
  for_each (scale_term m types) items all = Ok all1 ->
  NoDup (map fst items) ->
  (forall sid, In sid (map fst items) -> dict_get sid all = None) ->
  dict_keys all1 = (dict_keys all ++ map fst items)%list.
Proof.
  intros Htypes. revert all.
  induction items as [|[sid0 term0] items IH]; intros all H Hnd Hfresh.
  - simpl in H. inversion H. simpl. now rewrite app_nil_r.
  - rewrite for_each_cons in H.
    apply bind_Ok_inv in H. destruct H as [all0 [H0 H]].
    inversion Hnd as [|? ? Hnotin Hnd']; subst.
    assert (Hkeys0 : dict_keys all0 = (dict_keys all ++ [sid0])%list).
    { assert (Hnone : dict_get sid0 all = None) by (apply Hfresh; now left).
      unfold scale_term in H0.
      apply bind_Ok_inv in H0. destruct H0 as [ty [Hty H0]].
      unfold dict_lookup in Hty.
      destruct (dict_get sid0 types) as [ty'|] eqn:E; [|discriminate].
      inversion Hty; subst ty'.
      destruct (Htypes _ _ E) as [->| ->]; simpl in H0.
      - inversion H0. now apply dict_keys_set_fresh.
      - destruct (getSpecies m sid0); [|discriminate].
        inversion H0. now apply dict_keys_set_fresh. }
    rewrite (IH _ H Hnd').
    + rewrite Hkeys0. simpl. now rewrite <- app_assoc.
    + intros sid Hsid.
      rewrite (scale_term_get_other _ _ _ _ _ _ _ H0).
      * apply Hfresh. now right.
      * intros ->. contradiction.
Qed.

Lemma collect_rules_keys rules a0 r0 vid :
  (In vid (dict_keys (fst (fold_left collect_rule rules (a0, r0))))
   <-> In vid (dict_keys a0)
       \/ exists rule, In rule rules
                       /\ rule_typeCode rule = SBML_ASSIGNMENT_RULE
                       /\ rule_variable rule = vid)
  /\ (In vid (dict_keys (snd (fold_left collect_rule rules (a0, r0))))
      <-> In vid (dict_keys r0)
          \/ exists rule, In rule rules
                          /\ rule_typeCode rule = SBML_RATE_RULE
                          /\ rule_variable rule = vid).
Proof.
  revert a0 r0. induction rules as [|rule rules IH]; intros a0 r0; simpl.
  - split; (split; [tauto | intros [H|[rule [[] _]]]; exact H]).
  - destruct (rule_typeCode rule) eqn:E;
      match goal with
      | |- context [fold_left collect_rule rules (?a, ?r)] =>
          destruct (IH a r) as [IHa IHr]
      end;
      rewrite IHa, IHr, ?dict_keys_set_In; clear IHa IHr IH;
      split; split;
      try (intros [[H|H]|[x [Hx [Ht Hv]]]]);
      try (intros [H|[x [Hx [Ht Hv]]]]);
      try destruct Hx as [Hx|Hx]; subst;
      try congruence; eauto 8.
Qed.

Lemma collect_rules_NoDup rules a0 r0 :
  NoDup (dict_keys a0) -> NoDup (dict_keys r0) ->
  NoDup (dict_keys (fst (fold_left collect_rule rules (a0, r0))))
  /\ NoDup (dict_keys (snd (fold_left collect_rule rules (a0, r0)))).
Proof.
  revert a0 r0. induction rules as [|rule rules IH]; intros a0 r0 Ha Hr; simpl.
  - auto.
  - destruct (rule_typeCode rule); apply IH; auto using dict_set_NoDup.
Qed.

(** * The time-course driver *)

Lemma lfor_add_state lib (task : SedInstanceTask lib) ks st :
  lfor (add_state lib task) ks st
  = (map read_state ks, Ok (fold_left (add_state_pure lib task) ks st)).
Proof.
  revert st. induction ks as [|k ks IH]; intros [data_dict units].
  - reflexivity.
  - simpl. rewrite IH. reflexivity.
Qed.

(** The whole run: its log and its result. *)
Lemma run_cellml_timecourse_eq lib cellml_path start end_ steps :
  let file := File_new lib cellml_path in
  let document := SedDocument_new lib file in
  let instance := SedDocument_instantiate lib document in
  run_cellml_timecourse lib cellml_path start end_ steps
  = ([ load cellml_path;
       checked console_print (File_issues lib file) "File: all good!";
       build_document;
       checked print (SedDocument_issues lib document) "Document: all good!";
       build_simulation {| initial_time := Some start;
                           output_start_time := Some start;
                           output_end_time := Some end_;
                           number_of_steps := Some steps |};
       instantiate;
       checked print (SedInstance_issues lib instance) "Instance: all good!";
       run;
       checked print (SedInstance_issues lib (run_instance lib cellml_path))
               "Instance running: all good!";
       first_task ]
     ++ match SedInstance_tasks lib (run_instance lib cellml_path) with
        | [] => []
        | task :: _ =>
            read_voi
              :: map read_state (seq 0 (task_state_count lib task))
              ++ [build_frame]
        end,
     match SedInstance_tasks lib (run_instance lib cellml_path) with
     | [] => Raise IndexError
     | task :: _ =>
         let st :=
           fold_left (add_state_pure lib task)
                     (seq 0 (task_state_count lib task))
                     ([(task_voi_name lib task, task_voi lib task)],
                      [(task_voi_name lib task, task_voi_unit lib task)]) in
         if same_length (fst st)
         then Ok ({| columns := dict_items (fst st) |}, snd st)
         else Raise ValueError
     end)%list.
Proof.
  intros file document instance.
  unfold run_cellml_timecourse, run_instance, checked, check_issues.
  fold file. fold document. fold instance.
  destruct (File_issues lib file), (SedDocument_issues lib document),
    (SedInstance_issues lib instance),
    (SedInstance_issues lib (SedInstance_run lib instance)),
    (SedInstance_tasks lib (SedInstance_run lib instance)) as [|task tasks];
    simpl; try reflexivity;
    rewrite lfor_add_state; simpl;
    destruct (fold_left _ _ _) as [data_dict units]; simpl;
    unfold DataFrame_new; simpl;
    destruct (same_length data_dict); simpl;
    rewrite <- ?app_assoc; reflexivity.
Qed.

Lemma outputs_of_app l1 l2 :
  outputs_of (l1 ++ l2)%list = (outputs_of l1 ++ outputs_of l2)%list.
Proof. apply flat_map_app. Qed.

Lemma outputs_of_read_state ks : outputs_of (map read_state ks) = [].
Proof. induction ks; simpl; auto. Qed.

Lemma steps_of_read_state ks : steps_of (map read_state ks) = map read_state ks.
Proof. induction ks as [|k ks IH]; simpl; [reflexivity | now rewrite IH]. Qed.

(** C6: the log of [run_cellml_timecourse] is, in this order: load the file
    and check it, build the document and check it, (build the simulation
    settings,) instantiate the document and check the instance, run the
    instance and check it again, take the first task of the instance that was
    run, and only then read the variable of integration and the states and
    build the table.  A table is returned only from such a first task. *)
Theorem pipeline_steps_in_order
        (lib : OpenCOR) (cellml_path : string) (start end_ : float) (steps : Z) :
  let file := File_new lib cellml_path in
  let document := SedDocument_new lib file in
  let instance := SedDocument_instantiate lib document in
  let instance_run := SedInstance_run lib instance in
  fst (run_cellml_timecourse lib cellml_path start end_ steps)
  = ([ load cellml_path;
       checked console_print (File_issues lib file) "File: all good!";
       build_document;
       checked print (SedDocument_issues lib document) "Document: all good!";
       build_simulation {| initial_time := Some start;
                           output_start_time := Some start;
                           output_end_time := Some end_;
                           number_of_steps := Some steps |};
       instantiate;
       checked print (SedInstance_issues lib instance) "Instance: all good!";
       run;
       checked print (SedInstance_issues lib instance_run)
               "Instance running: all good!";
       first_task ]
     ++ match SedInstance_tasks lib instance_run with
        | [] => []
        | task :: _ =>
            read_voi
              :: map read_state (seq 0 (task_state_count lib task))
              ++ [build_frame]
        end)%list
  /\ match snd (run_cellml_timecourse lib cellml_path start end_ steps) with
     | Ok (df, units) =>
         exists task rest,
           SedInstance_tasks lib instance_run = task :: rest
           /\ In (task_voi_name lib task) (map fst (columns df))
     | Raise e =>
         (e = IndexError /\ SedInstance_tasks lib instance_run = [])
         \/ e = ValueError
     end.
Proof.
  intros file document instance instance_run.
  rewrite run_cellml_timecourse_eq. split; [reflexivity|].
  unfold run_instance. fold file. fold document. fold instance.
  fold instance_run. simpl.
  destruct (SedInstance_tasks lib instance_run) as [|task rest].
  - left. auto.
  - destruct (same_length _); [|now right].
    exists task, rest. split; [reflexivity|].
    simpl. unfold dict_items. fold (dict_keys
      (fst (fold_left (add_state_pure lib task)
                      (seq 0 (task_state_count lib task))
                      ([(task_voi_name lib task, task_voi lib task)],
                       [(task_voi_name lib task, task_voi_unit lib task)])))).
    generalize (seq 0 (task_state_count lib task)).
    assert (H0 : In (task_voi_name lib task)
                    (dict_keys [(task_voi_name lib task, task_voi lib task)]))
      by (now left).
    revert H0.
    generalize [(task_voi_name lib task, task_voi lib task)].
    generalize [(task_voi_name lib task, task_voi_unit lib task)].
    intros units data_dict H0 ks. revert units data_dict H0.
    induction ks as [|k ks IH]; intros units data_dict H0; simpl; auto.
    apply IH. apply dict_keys_set_In. now right.
Qed.

(** * Issues *)

Lemma print_issues_nth title logger index :
  index < issueCount logger ->
  nth_error (print_issues title logger) (S index)
  = Some (console_print (issue_text logger index)).
Proof.
  intros Hlt. unfold print_issues.
  destruct (Nat.eqb (issueCount logger) 0) eqn:E.
  - apply Nat.eqb_eq in E. lia.
  - simpl. rewrite nth_error_map, nth_error_seq.
    apply Nat.ltb_lt in Hlt. now rewrite Hlt.
Qed.

(** C5, as the code has it: each of the four issue checks of
    [run_cellml_timecourse] prints one line, the description of the first
    issue when there are issues, and the run goes on; [print_issues], which
    the validation path calls for the printer, the validator and the
    analyser, prints nothing without issues and otherwise the title with the
    number of issues and then every issue, numbered from 1, in order;
    [validate_cellml] prints the three reports one after the other and
    returns 0. *)
Theorem issues_are_printed :
  (forall lib cellml_path start end_ steps,
      outputs_of (fst (run_cellml_timecourse lib cellml_path start end_ steps))
      = [ console_print
            match File_issues lib (File_new lib cellml_path) with
            | first :: _ => description first
            | [] => "File: all good!"
            end;
          print
            match SedDocument_issues lib
                    (SedDocument_new lib (File_new lib cellml_path)) with
            | first :: _ => description first
            | [] => "Document: all good!"
            end;
          print
            match SedInstance_issues lib
                    (SedDocument_instantiate lib
                       (SedDocument_new lib (File_new lib cellml_path))) with
            | first :: _ => description first
            | [] => "Instance: all good!"
            end;
          print
            match SedInstance_issues lib (run_instance lib cellml_path) with
            | first :: _ => description first
            | [] => "Instance running: all good!"
            end ])
  /\ (forall title logger,
         print_issues title logger
         = match issueCount logger with
           | O => []
           | S _ =>
               console_print (title ++ " " ++ str_of_nat (issueCount logger))
                 :: map (fun index => console_print (issue_text logger index))
                        (seq 0 (issueCount logger))
           end)
  /\ (forall title logger index,
         index < issueCount logger ->
         List.length (print_issues title logger) = 1 + issueCount logger
         /\ nth_error (print_issues title logger) (S index)
            = Some (console_print
                      ("[" ++ fmt_width3 (index + 1) ++ "] - ("
                       ++ issue_level (issue logger index) ++ ") "
                       ++ issue_description (issue logger index))))
  /\ (forall lib model,
         validate_cellml lib model
         = ((print_issues "Printer: " (Printer lib)
               ++ print_issues "Validator: " (Validator_validateModel lib model)
               ++ print_issues "Analyser: " (Analyser_analyseModel lib model))%list,
            0%Z)).
Proof.
  split; [|split; [|split]].
  - intros lib cellml_path start end_ steps.
    rewrite run_cellml_timecourse_eq. simpl.
    destruct (SedInstance_tasks lib (run_instance lib cellml_path)); simpl.
    + reflexivity.
    + rewrite outputs_of_app, outputs_of_read_state. reflexivity.
  - intros title logger. unfold print_issues.
    now destruct (issueCount logger).
  - intros title logger index Hlt. split.
    + unfold print_issues. destruct (issueCount logger) eqn:E; [lia|].
      simpl. now rewrite length_map, length_seq.
    + now apply print_issues_nth.
  - reflexivity.
Qed.

Lemma issues_are_printed_witness :
  List.length (print_issues "Validator: " two_issues) = 3
  /\ nth_error (print_issues "Validator: " two_issues) 2
     = Some (console_print "[  2] - (WARNING) second")
  /\ outputs_of (fst (run_cellml_timecourse same_names "model.cellml" 0 100 100))
     = [ console_print "first"; print "Document: all good!";
         print "Instance: all good!"; print "Instance running: all good!" ].
Proof.
  destruct issues_are_printed as [Hrun [_ [Hprint _]]].
  destruct (Hprint "Validator: " two_issues 1) as [Hlen Hnth].
  - simpl. lia.
  - split; [exact Hlen|]. split; [exact Hnth|].
    exact (Hrun same_names "model.cellml" 0%float 100%float 100%Z).
Defined.

(** With two issues, [print_issues] prints the second one as well. *)
Lemma print_issues_prints_every_issue :
  print_issues "Validator: " two_issues
  = [ console_print "Validator:  2";
      console_print "[  1] - (ERROR) first";
      console_print "[  2] - (WARNING) second" ]
  /\ ~ only_first_issue_printed two_issues
         (print_issues "Validator: " two_issues).
Proof.
  split; [reflexivity|].
  intros H. apply (H 1); simpl; auto.
Qed.

(** * The table of results *)

Lemma dict_get_None_same_keys {V W : Type} (d1 : dict V) (d2 : dict W) k :
  dict_keys d1 = dict_keys d2 ->
  dict_get k d1 = None -> dict_get k d2 = None.
Proof.
  intros Hk H. apply dict_get_None_not_key. rewrite <- Hk.
  now apply dict_get_None_not_key.
Qed.

(** Two dicts with the same keys have the same keys after the same key is set
    in both. *)
Lemma dict_keys_set_same_keys {V W : Type} (d1 : dict V) (d2 : dict W) k v w :
  dict_keys d1 = dict_keys d2 ->
  dict_keys (dict_set k v d1) = dict_keys (dict_set k w d2).
Proof.
  intros Hk. destruct (dict_get k d1) as [v0|] eqn:E1.
  - rewrite (dict_keys_set_present _ _ _ _ E1).
    destruct (dict_get k d2) as [w0|] eqn:E2.
    + now rewrite (dict_keys_set_present _ _ _ _ E2).
    + apply (dict_get_None_same_keys d2 d1) in E2; congruence.
  - rewrite (dict_keys_set_fresh _ _ _ E1).
    rewrite (dict_keys_set_fresh _ _ _ (dict_get_None_same_keys _ _ _ Hk E1)).
    now rewrite Hk.
Qed.

Lemma dict_keys_set_hd {V : Type} (d : dict V) k v k0 :
  hd_error (dict_keys d) = Some k0 ->
  hd_error (dict_keys (dict_set k v d)) = Some k0.
Proof.
  destruct d as [|[k' v'] d]; simpl; [discriminate|].
  intros H. now destruct (String.eqb k k') eqn:E;
    [apply String.eqb_eq in E; subst|].
Qed.

Section States.
Variable lib : OpenCOR.
Variable task : SedInstanceTask lib.

Lemma add_states_same_keys ks st :
  dict_keys (fst st) = dict_keys (snd st) ->
  dict_keys (fst (fold_left (add_state_pure lib task) ks st))
  = dict_keys (snd (fold_left (add_state_pure lib task) ks st)).
Proof.
  revert st. induction ks as [|k ks IH]; intros st H; simpl; auto.
  apply IH. simpl. now apply dict_keys_set_same_keys.
Qed.

Lemma add_states_NoDup ks st :
  NoDup (dict_keys (fst st)) ->
  NoDup (dict_keys (fst (fold_left (add_state_pure lib task) ks st))).
Proof.
  revert st. induction ks as [|k ks IH]; intros st H; simpl; auto.
  apply IH. simpl. now apply dict_set_NoDup.
Qed.

Lemma add_states_hd ks st k0 :
  hd_error (dict_keys (fst st)) = Some k0 ->
  hd_error (dict_keys (fst (fold_left (add_state_pure lib task) ks st)))
  = Some k0.
Proof.
  revert st. induction ks as [|k ks IH]; intros st H; simpl; auto.
  apply IH. simpl. now apply dict_keys_set_hd.
Qed.

Lemma add_states_In ks st name :
  In name (dict_keys (fst (fold_left (add_state_pure lib task) ks st)))
  <-> In name (dict_keys (fst st))
      \/ In name (map (task_state_name lib task) ks).
Proof.
  revert st. induction ks as [|k ks IH]; intros st; simpl; [tauto|].
  rewrite IH. simpl. rewrite dict_keys_set_In. split.
  - intros [[->|H]|H]; auto.
  - intros [H|[<-|H]]; auto.
Qed.

(** With names that are new each time, every state adds an entry. *)
Lemma add_states_distinct ks st :
  dict_keys (fst st) = dict_keys (snd st) ->
  NoDup (dict_keys (fst st) ++ map (task_state_name lib task) ks)%list ->
  fold_left (add_state_pure lib task) ks st
  = ((fst st ++ map (fun k => (task_state_name lib task k,
                               task_state lib task k)) ks)%list,
     (snd st ++ map (fun k => (task_state_name lib task k,
                               task_state_unit lib task k)) ks)%list).
Proof.
  revert st. induction ks as [|k ks IH]; intros [data_dict units] Hk Hnd; simpl.
  - now rewrite !app_nil_r.
  - simpl in Hk, Hnd.
    assert (Hfresh : dict_get (task_state_name lib task k) data_dict = None).
    { apply dict_get_None_not_key. intros Hin.
      apply NoDup_remove_2 in Hnd. apply Hnd, in_or_app. now left. }
    assert (Hfresh' : dict_get (task_state_name lib task k) units = None)
      by (eapply dict_get_None_same_keys; eauto).
    unfold add_state_pure at 2. simpl.
    rewrite (dict_set_fresh _ _ _ Hfresh), (dict_set_fresh _ _ _ Hfresh').
    rewrite IH; simpl.
    + now rewrite <- !app_assoc.
    + unfold dict_keys in *. rewrite !map_app. simpl. now rewrite Hk.
    + unfold dict_keys in *. rewrite map_app. simpl.
      rewrite <- app_assoc. simpl.
      apply NoDup_Add with (a := task_state_name lib task k)
                           (l := (map fst data_dict
                                    ++ map (task_state_name lib task) ks)%list).
      * apply Add_app.
      * split.
        -- eapply NoDup_remove_1; eauto.
        -- eapply NoDup_remove_2; eauto.
Qed.

End States.

(** C7, as the code has it: a run that returns gives a table and a units
    dictionary with the same keys in the same order; the first column is
    keyed by the name of the variable of integration; no key occurs twice and
    the keys are that name and the names of the states.  When the name of the
    variable of integration and the names of the states are pairwise
    distinct, the first column holds the variable of integration and one
    column per state follows, keyed by the state's name, in state order. *)
Theorem timecourse_table
        (lib : OpenCOR) (cellml_path : string) (start end_ : float) (steps : Z)
        (df : DataFrame) (units : dict string) :
  snd (run_cellml_timecourse lib cellml_path start end_ steps) = Ok (df, units) ->
  exists task rest,
    SedInstance_tasks lib (run_instance lib cellml_path) = task :: rest
    /\ map fst (columns df) = dict_keys units
    /\ hd_error (map fst (columns df)) = Some (task_voi_name lib task)
    /\ NoDup (map fst (columns df))
    /\ (forall name,
           In name (map fst (columns df))
           <-> name = task_voi_name lib task \/ In name (state_names lib task))
    /\ (NoDup (task_voi_name lib task :: state_names lib task) ->
        columns df
        = (task_voi_name lib task, task_voi lib task)
            :: map (fun k => (task_state_name lib task k, task_state lib task k))
                   (seq 0 (task_state_count lib task))
        /\ units
           = (task_voi_name lib task, task_voi_unit lib task)
               :: map (fun k => (task_state_name lib task k,
                                 task_state_unit lib task k))
                      (seq 0 (task_state_count lib task))
        /\ one_column_per_state lib task df).
Proof.
  rewrite run_cellml_timecourse_eq. simpl.
  destruct (SedInstance_tasks lib (run_instance lib cellml_path))
    as [|task rest]; [discriminate|].
  set (st0 := ([(task_voi_name lib task, task_voi lib task)],
               [(task_voi_name lib task, task_voi_unit lib task)])).
  set (ks := seq 0 (task_state_count lib task)).
  destruct (same_length _); [|discriminate].
  intros H. inversion H; subst df units. clear H.
  exists task, rest. simpl. unfold dict_items.
  change (map fst (fst (fold_left (add_state_pure lib task) ks st0)))
    with (dict_keys (fst (fold_left (add_state_pure lib task) ks st0))).
  split; [reflexivity|]. split; [|split; [|split; [|split]]].
  - now apply add_states_same_keys.
  - now apply add_states_hd.
  - apply add_states_NoDup. simpl. constructor; [intros []|constructor].
  - intros name. rewrite add_states_In. simpl. unfold state_names. fold ks.
    split; [intros [[H|[]]|H] | intros [H|H]]; auto.
  - intros Hnd.
    rewrite (add_states_distinct lib task ks st0 eq_refl Hnd). simpl.
    repeat split. unfold one_column_per_state. simpl.
    unfold ks. now rewrite length_map, length_seq.
Qed.

Lemma timecourse_table_witness :
  exists df units,
    snd (run_cellml_timecourse distinct_names "model.cellml" 0 100 100)
    = Ok (df, units)
    /\ map fst (columns df) = ["t"; "x"; "y"]
    /\ dict_keys units = ["t"; "x"; "y"]
    /\ one_column_per_state distinct_names tt df.
Proof.
  exists {| columns := [("t", [0%float; 1%float]); ("x", [2%float; 3%float]);
                        ("y", [2%float; 3%float])] |},
         [("t", "second"); ("x", "dimensionless"); ("y", "dimensionless")].
  destruct (timecourse_table
              distinct_names "model.cellml" 0%float 100%float 100%Z
              {| columns := [("t", [0%float; 1%float]);
                             ("x", [2%float; 3%float]);
                             ("y", [2%float; 3%float])] |}
              [("t", "second"); ("x", "dimensionless"); ("y", "dimensionless")]
              eq_refl)
    as [task [rest [Htask [Hkeys [_ [_ [_ Hdistinct]]]]]]].
  destruct task.
  assert (Hnd : NoDup (task_voi_name distinct_names tt
                         :: state_names distinct_names tt)).
  { simpl. repeat constructor; simpl; intuition discriminate. }
  destruct (Hdistinct Hnd) as [_ [_ Hcount]].
  split; [reflexivity|]. split; [reflexivity|]. split; [reflexivity|].
  exact Hcount.
Defined.

(** Two states with the same name share one column: the table of
    [same_names] has two columns for a task with two states. *)
Lemma states_of_one_name_share_a_column :
  snd (run_cellml_timecourse same_names "model.cellml" 0 100 100)
  = Ok ({| columns := [("t", [0%float; 1%float]); ("x", [2%float; 3%float])] |},
        [("t", "second"); ("x", "dimensionless")])
  /\ SedInstance_tasks same_names (run_instance same_names "model.cellml") = [tt]
  /\ task_state_count same_names tt = 2
  /\ ~ one_column_per_state same_names tt
       {| columns := [("t", [0%float; 1%float]); ("x", [2%float; 3%float])] |}.
Proof.
  repeat split. unfold one_column_per_state. simpl. discriminate.
Qed.

(** The steps, without the console: they are the same whatever the issue
    lists hold. *)
Lemma pipeline_steps_do_not_depend_on_issues lib cellml_path start end_ steps :
  steps_of (fst (run_cellml_timecourse lib cellml_path start end_ steps))
  = ([ load cellml_path;
       build_document;
       build_simulation {| initial_time := Some start;
                           output_start_time := Some start;
                           output_end_time := Some end_;
                           number_of_steps := Some steps |};
       instantiate;
       run;
       first_task ]
     ++ match SedInstance_tasks lib (run_instance lib cellml_path) with
        | [] => []
        | task :: _ =>
            read_voi
              :: map read_state (seq 0 (task_state_count lib task))
              ++ [build_frame]
        end)%list.
Proof.
  rewrite run_cellml_timecourse_eq. simpl.
  destruct (SedInstance_tasks lib (run_instance lib cellml_path))
    as [|task rest]; simpl.
  - reflexivity.
  - unfold steps_of. rewrite filter_app.
    fold (steps_of (map read_state (seq 0 (task_state_count lib task)))).
    now rewrite steps_of_read_state.
Qed.

(** * Further examples *)

Example empty_document_is_refused :
  convert_sbml2cellml no_mathml empty_file
  = Raise (SBML2CellMLConversionError "No model in SBMLDocument.").
Proof. reflexivity. Qed.

Example example_model_is_converted :
  exists c,
    cellml_components example_cellml = [c]
    /\ map variable_name (component_variables c) = ["time"; "c"; "k"; "S2"; "S3"]
    /\ map variable_initialValue (component_variables c)
       = [None; Some 2%float; Some 1%float; Some 8%float; Some 2%float].
Proof. eexists. vm_compute. repeat split. Qed.

(** The species loop returns when every species has an initial value of its
    own and its compartment is among the compartments of the model. *)
Lemma add_species_total cdict ss m_cellml :
  Forall (fun s => ~ no_initial_value s
                   /\ dict_get (species_compartment s) cdict <> None) ss ->
  exists st, add_species cdict ss m_cellml = Ok st.
Proof.
  intros Hready. unfold add_species.
  generalize {| species_types := []; vinit := None; species_model := m_cellml |}.
  induction Hready as [|s ss [Hset Hc] _ IH]; intros st0.
  - simpl. eauto.
  - rewrite for_each_cons. unfold add_one_species at 1.
    assert (Hv : exists x, assign_vinit cdict s (vinit st0) = Ok (Some x)).
    { unfold assign_vinit, dict_lookup, no_initial_value in *.
      destruct (species_initialAmount s), (species_initialConcentration s),
        (species_hasOnlySubstanceUnits s),
        (dict_get (species_compartment s) cdict);
        simpl; eauto; try congruence; exfalso; auto. }
    destruct Hv as [x ->]. simpl. apply IH.
Qed.

(** * Further properties of the converter *)

(** ** Dictionaries filled by a loop *)

Lemma first_mentions_snoc l k :
  first_mentions (l ++ [k])%list
  = if in_dec string_dec k l then first_mentions l
    else (first_mentions l ++ [k])%list.
Proof.
  unfold first_mentions. rewrite rev_app_distr. simpl.
  destruct (in_dec string_dec k (rev l)) as [Hin|Hin];
    destruct (in_dec string_dec k l) as [Hin'|Hin']; try reflexivity.
  - exfalso. apply Hin'. now apply in_rev.
  - exfalso. apply Hin. now apply in_rev in Hin'.
Qed.

Lemma first_mentions_In l k : In k (first_mentions l) <-> In k l.
Proof.
  unfold first_mentions. rewrite <- in_rev, nodup_In, <- in_rev. tauto.
Qed.

Lemma first_mentions_NoDup l : NoDup (first_mentions l).
Proof. unfold first_mentions. apply NoDup_rev, NoDup_nodup. Qed.

Section FilledDict.
Context {A V : Type}.
Variable key : A -> string.
Variable value : A -> V.

Lemma filled_snoc xs x d :
  filled key value (xs ++ [x])%list d
  = dict_set (key x) (value x) (filled key value xs d).
Proof. unfold filled. now rewrite fold_left_app. Qed.

(** The keys come in the order of their first mention. *)
Lemma filled_keys xs :
  dict_keys (filled key value xs []) = first_mentions (map key xs).
Proof.
  induction xs as [|x xs IH] using rev_ind; [reflexivity|].
  rewrite filled_snoc, map_app. simpl map. rewrite first_mentions_snoc.
  destruct (in_dec string_dec (key x) (map key xs)) as [Hin|Hin].
  - apply first_mentions_In in Hin. rewrite <- IH in Hin.
    destruct (dict_get (key x) (filled key value xs [])) eqn:E.
    + now rewrite (dict_keys_set_present _ _ _ _ E).
    + apply dict_get_None_not_key in E. contradiction.
  - rewrite <- (first_mentions_In (map key xs)), <- IH in Hin.
    apply dict_get_None_not_key in Hin.
    now rewrite (dict_keys_set_fresh _ _ _ Hin), IH.
Qed.

(** The value is that of the last mention. *)
Lemma filled_get xs d k :
  dict_get k (filled key value xs d)
  = match find (fun x => String.eqb (key x) k) (rev xs) with
    | Some x => Some (value x)
    | None => dict_get k d
    end.
Proof.
  induction xs as [|x xs IH] using rev_ind; [reflexivity|].
  rewrite filled_snoc, rev_app_distr. simpl.
  destruct (String.eqb (key x) k) eqn:E.
  - apply String.eqb_eq in E. subst k. apply dict_get_set_same.
  - apply String.eqb_neq in E. now rewrite dict_get_set_other.
Qed.

Lemma filled_declared xs k :
  dict_get k (filled key value xs []) <> None <-> In k (map key xs).
Proof.
  rewrite <- (first_mentions_In (map key xs)), <- filled_keys. split.
  - intros H. destruct (dict_get k _) eqn:E; [|congruence].
    eapply dict_get_Some_key; eauto.
  - intros H E. apply dict_get_None_not_key in E. contradiction.
Qed.

End FilledDict.

Lemma find_filter {A : Type} (p q : A -> bool) l :
  find p (filter q l) = find (fun x => q x && p x) l.
Proof.
  induction l as [|x l IH]; simpl; [reflexivity|].
  destruct (q x); simpl; [|exact IH]. now destruct (p x).
Qed.

Lemma filter_rev {A : Type} (q : A -> bool) l :
  filter q (rev l) = rev (filter q l).
Proof.
  induction l as [|x l IH]; simpl; [reflexivity|].
  rewrite filter_app, IH. simpl. destruct (q x); simpl.
  - reflexivity.
  - now rewrite app_nil_r.
Qed.

(** ** Rules *)

Lemma collect_rules_filled rules a0 r0 :
  fold_left collect_rule rules (a0, r0)
  = (filled rule_variable rule_formula (filter is_assignment rules) a0,
     filled rule_variable rule_formula (filter is_rate rules) r0).
Proof.
  revert a0 r0. induction rules as [|rule rules IH]; intros a0 r0; simpl.
  - reflexivity.
  - unfold is_assignment at 1, is_rate at 1.
    destruct (rule_typeCode rule); simpl; apply IH.
Qed.

(** X4: the assignment rules and the rate rules are collected by variable: a
    variable stands where its first rule of the kind stood, with the formula
    of its last rule of the kind. *)
Theorem rules_are_collected_by_variable (rules : list Rule) :
  dict_keys (fst (collect_rules rules))
  = first_mentions (map rule_variable (filter is_assignment rules))
  /\ dict_keys (snd (collect_rules rules))
     = first_mentions (map rule_variable (filter is_rate rules))
  /\ forall vid,
      dict_get vid (fst (collect_rules rules))
      = last_formula is_assignment vid rules
      /\ dict_get vid (snd (collect_rules rules))
         = last_formula is_rate vid rules.
Proof.
  unfold collect_rules. rewrite collect_rules_filled. simpl.
  split; [apply filled_keys|]. split; [apply filled_keys|].
  intros vid. unfold last_formula.
  rewrite !filled_get, <- !filter_rev, !find_filter. simpl.
  split.
  - now destruct (find _ (rev rules)).
  - now destruct (find _ (rev rules)).
Qed.

Lemma collect_rules_without_algebraic rules :
  collect_rules (filter (fun rule => negb (is_algebraic rule)) rules)
  = collect_rules rules.
Proof.
  unfold collect_rules. generalize (@nil (string * string), @nil (string * string)).
  induction rules as [|rule rules IH]; intros [a0 r0]; simpl.
  - reflexivity.
  - unfold is_algebraic.
    destruct (rule_typeCode rule) eqn:E; simpl; rewrite ?E; apply IH.
Qed.

(** X5: algebraic rules are not converted: the conversion of a model is the
    conversion of the model without them. *)
Theorem algebraic_rules_are_ignored
        (f : string -> option string) (stem : string) (m : SBMLModel) :
  convert_model f stem
    (with_rules m (filter (fun rule => negb (is_algebraic rule)) (model_rules m)))
  = convert_model f stem m.
Proof.
  unfold convert_model. simpl.
  rewrite collect_rules_without_algebraic. reflexivity.
Qed.

(** ** The stages of the converter *)

Lemma convert_model_stages f stem m :
  convert_model f stem m
  = (st <- add_species (cdict_of (model_compartments m)) (model_species m)
                       (sbml_model (mid_of stem m) [per_second]
                          (variable_time
                             :: map compartment_variable (model_compartments m)
                             ++ map parameter_variable (model_parameters m))%list
                          "") ;;
     rt <- collect_reaction_terms (model_reactions m) ;;
     rt' <- scale_reaction_terms m (species_types st) rt ;;
     parts <- collect_mathml_parts f (fst (collect_rules (model_rules m)))
                                   (snd (collect_rules (model_rules m))) rt' ;;
     Ok (on_component (setMath (combine_mathml parts)) (species_model st))).
Proof.
  unfold convert_model. fold (mid_of stem m).
  change (on_component (addVariable variable_time)
            (addUnits per_second
               (addComponent (new_Component "sbml") (new_Model (mid_of stem m)))))
    with (sbml_model (mid_of stem m) [per_second] [variable_time] "").
  unfold add_compartments. rewrite add_compartments_from.
  rewrite add_parameters_sbml_model. rewrite <- app_assoc. simpl.
  destruct (add_species _ _ _); simpl; [|reflexivity].
  now destruct (collect_rules (model_rules m)).
Qed.

Lemma cdict_of_declared cs cid :
  dict_get cid (cdict_of cs) <> None <-> In cid (map compartment_id cs).
Proof.
  exact (filled_declared
           compartment_id
           (fun c => process_init_value (compartment_id c) (compartment_size c))
           cs cid).
Qed.

Lemma species_types_of_declared ss sid :
  dict_get sid (species_types_of ss) <> None <-> In sid (map species_id ss).
Proof. exact (filled_declared species_id species_type ss sid). Qed.

Lemma getSpecies_declared m sid :
  In sid (map species_id (model_species m)) -> getSpecies m sid <> None.
Proof.
  unfold getSpecies. induction (model_species m) as [|s ss IH]; simpl.
  - tauto.
  - intros [<-|Hin]; [now rewrite String.eqb_refl|].
    destruct (String.eqb (species_id s) sid); [discriminate | auto].
Qed.

(** ** What a converted model looks like *)

Lemma species_run_dimensionless cdict v ss vars v' :
  species_run cdict v ss vars v' ->
  Forall (fun var => variable_units var = "dimensionless"
                     /\ exists x, variable_initialValue var = Some x) vars.
Proof.
  induction 1 as [|v s x ss vars v' Hassign Hrun IH]; constructor.
  - split; [reflexivity | now exists x].
  - exact IH.
Qed.

(** X2: a converted model is named after the SBML model, or after the file when
    the SBML model has no id; its only units are "per_second", one per second;
    every variable has the units "dimensionless"; "time" has no initial
    value and every other variable has one. *)
Theorem converted_model_skeleton
        (f : string -> option string) (stem : string) (m : SBMLModel)
        (cm : CellMLModel) :
  convert_model f stem m = Ok cm ->
  cellml_name cm = match model_id m with Some i => i | None => stem end
  /\ cellml_units cm
     = [ {| units_name := "per_second"; units_unit := [("second", (-1)%Z)] |} ]
  /\ exists vars,
      all_variables cm
      = {| variable_name := "time";
           variable_units := "dimensionless";
           variable_initialValue := None |} :: vars
      /\ Forall (fun v => variable_units v = "dimensionless"
                          /\ variable_initialValue v <> None) vars.
Proof.
  intros H. apply convert_model_inv in H.
  destruct H as [svars [v' [rt [rt' [parts [Hrun [_ [_ [_ ->]]]]]]]]].
  split; [reflexivity|]. split; [reflexivity|].
  eexists. split.
  - unfold all_variables. simpl. rewrite app_nil_r. reflexivity.
  - rewrite !Forall_app. repeat split.
    + apply Forall_forall. intros v Hv. apply in_map_iff in Hv.
      destruct Hv as [c [<- _]]. split; [reflexivity | simpl; discriminate].
    + apply Forall_forall. intros v Hv. apply in_map_iff in Hv.
      destruct Hv as [p [<- _]]. split; [reflexivity | simpl; discriminate].
    + eapply Forall_impl; [|exact (species_run_dimensionless _ _ _ _ _ Hrun)].
      intros var [Hu [x Hx]]. split; [exact Hu | congruence].
Qed.

Lemma converted_model_skeleton_witness :
  cellml_name example_cellml = "example"
  /\ cellml_units example_cellml
     = [ {| units_name := "per_second"; units_unit := [("second", (-1)%Z)] |} ]
  /\ exists vars,
      all_variables example_cellml
      = {| variable_name := "time";
           variable_units := "dimensionless";
           variable_initialValue := None |} :: vars
      /\ Forall (fun v => variable_units v = "dimensionless"
                          /\ variable_initialValue v <> None) vars.
Proof.
  assert (H : convert_model example_mathml "example" example_model
              = Ok example_cellml) by (vm_compute; reflexivity).
  exact (converted_model_skeleton _ _ _ _ H).
Defined.

Lemma converted_variable_names_witness :
  exists c,
    cellml_components example_cellml = [c]
    /\ component_name c = "sbml"
    /\ map variable_name (component_variables c)
       = ["time"; "c"; "k"; "S2"; "S3"].
Proof.
  assert (H : convert_model example_mathml "example" example_model
              = Ok example_cellml) by (vm_compute; reflexivity).
  exact (converted_variable_names _ _ _ _ H).
Defined.

Lemma process_init_value_not_nan sid value :
  is_nan (process_init_value sid value) = false.
Proof.
  unfold process_init_value. destruct (is_nan value) eqn:E.
  - reflexivity.
  - exact E.
Qed.

Lemma cdict_from_not_nan cs d cid size :
  (forall cid size, dict_get cid d = Some size -> is_nan size = false) ->
  dict_get cid (cdict_from d cs) = Some size -> is_nan size = false.
Proof.
  revert d. induction cs as [|c cs IH]; intros d Hd; simpl.
  - apply Hd.
  - apply IH. intros cid' size'.
    destruct (string_dec (compartment_id c) cid') as [<-|Hne].
    + rewrite dict_get_set_same. intros H. inversion H.
      apply process_init_value_not_nan.
    + rewrite dict_get_set_other by assumption. apply Hd.
Qed.

(** X3: no compartment variable and no parameter variable of a converted model
    has the initial value NaN, and no compartment size that the species loop
    reads is NaN. *)
Theorem compartments_and_parameters_are_never_nan
        (f : string -> option string) (stem : string) (m : SBMLModel)
        (cm : CellMLModel) :
  convert_model f stem m = Ok cm ->
  (forall i v,
      1 <= i <= List.length (model_compartments m)
                + List.length (model_parameters m) ->
      nth_error (all_variables cm) i = Some v ->
      exists x, variable_initialValue v = Some x /\ is_nan x = false)
  /\ (forall cid size,
         dict_get cid (cdict_of (model_compartments m)) = Some size ->
         is_nan size = false).
Proof.
  intros H. split.
  - destruct (all_variables_converted _ _ _ _ H) as [svars [v' [_ ->]]].
    intros i v Hi Hnth. destruct i as [|i]; [lia|]. simpl in Hnth.
    rewrite app_assoc in Hnth.
    rewrite nth_error_app1 in Hnth by (rewrite length_app, !length_map; lia).
    apply nth_error_In, in_app_or in Hnth.
    destruct Hnth as [Hin|Hin]; apply in_map_iff in Hin;
      destruct Hin as [x [<- _]]; eexists; split; try reflexivity;
      apply process_init_value_not_nan.
  - intros cid size. apply cdict_from_not_nan. intros ? ?. discriminate.
Qed.

Lemma compartments_and_parameters_are_never_nan_witness :
  (exists x,
      variable_initialValue (dimensionless "k" (Some 1%float)) = Some x
      /\ is_nan x = false)
  /\ (forall cid size,
         dict_get cid (cdict_of (model_compartments example_model)) = Some size ->
         is_nan size = false).
Proof.
  assert (H : convert_model example_mathml "example" example_model
              = Ok example_cellml) by (vm_compute; reflexivity).
  destruct (compartments_and_parameters_are_never_nan _ _ _ _ H) as [Hv Hc].
  split; [|exact Hc].
  apply (Hv 2).
  - simpl. lia.
  - vm_compute. reflexivity.
Defined.

(** ** When the converter returns, and what it raises *)

Lemma assign_vinit_ready cs s v :
  species_ready cs s ->
  exists x, assign_vinit (cdict_of cs) s v = Ok (Some x).
Proof.
  intros [Hset Hc]. unfold assign_vinit, dict_lookup.
  unfold no_initial_value in Hset. unfold needs_compartment in Hc.
  destruct (species_initialAmount s) as [a|].
  - destruct (species_hasOnlySubstanceUnits s); [eauto|].
    destruct (dict_get (species_compartment s) (cdict_of cs)) eqn:E;
      simpl; [eauto|].
    exfalso.
    apply (proj2 (cdict_of_declared cs (species_compartment s)));
      [apply Hc; reflexivity | exact E].
  - destruct (species_initialConcentration s) as [c|]; [|exfalso; auto].
    destruct (species_hasOnlySubstanceUnits s); [|eauto].
    destruct (dict_get (species_compartment s) (cdict_of cs)) eqn:E;
      simpl; [eauto|].
    exfalso.
    apply (proj2 (cdict_of_declared cs (species_compartment s)));
      [apply Hc; reflexivity | exact E].
Qed.

Lemma add_species_types cdict ss st0 st :
  for_each (add_one_species cdict) ss st0 = Ok st ->
  species_types st
  = fold_left (fun d s => dict_set (species_id s) (species_type s) d)
              ss (species_types st0).
Proof.
  revert st0. induction ss as [|s ss IH]; intros st0 H.
  - simpl in H. now inversion H.
  - rewrite for_each_cons in H.
    apply bind_Ok_inv in H. destruct H as [st1 [H1 H]].
    rewrite (IH _ H). simpl. unfold add_one_species in H1.
    apply bind_Ok_inv in H1. destruct H1 as [v1 [_ H1]].
    apply bind_Ok_inv in H1. destruct H1 as [x [_ H1]].
    inversion H1. reflexivity.
Qed.

(** The species loop returns when every species is ready. *)
Lemma add_species_ready cs ss m_cellml :
  Forall (species_ready cs) ss ->
  exists st,
    add_species (cdict_of cs) ss m_cellml = Ok st
    /\ species_types st = species_types_of ss.
Proof.
  intros Hready.
  assert (Hex : forall st0,
             exists st, for_each (add_one_species (cdict_of cs)) ss st0 = Ok st).
  { induction Hready as [|s ss Hs _ IH]; intros st0.
    - simpl. eauto.
    - rewrite for_each_cons. unfold add_one_species at 1.
      destruct (assign_vinit_ready cs s (vinit st0) Hs) as [x ->].
      simpl. apply IH. }
  destruct (Hex {| species_types := []; vinit := None;
                   species_model := m_cellml |}) as [st Hst].
  exists st. split; [exact Hst|].
  exact (add_species_types _ _ _ _ Hst).
Qed.

Lemma add_reactions_outcome rs rt :
  (Forall (fun r => reaction_kineticLaw r <> None) rs ->
   exists rt1, for_each add_reaction rs rt = Ok rt1)
  /\ (Exists (fun r => reaction_kineticLaw r = None) rs ->
      for_each add_reaction rs rt = Raise (AttributeError "getMath")).
Proof.
  revert rt. induction rs as [|r rs IH]; intros rt.
  - split; [simpl; eauto | intros H; inversion H].
  - rewrite for_each_cons. unfold add_reaction at 1 3.
    destruct (reaction_kineticLaw r) as [formula|] eqn:E; simpl.
    + split.
      * intros H. inversion H; subst. now apply IH.
      * intros H. inversion H; subst; [congruence | now apply IH].
    + split; [|reflexivity].
      intros H. inversion H; subst. congruence.
Qed.

(** X6: in a model whose species are all ready, a reaction without a kinetic law
    makes the conversion raise [AttributeError]: the law is read before the
    reactants and products are looked at. *)
Theorem reaction_without_kinetic_law_raises
        (f : string -> option string) (stem : string) (m : SBMLModel) :
  Forall (species_ready (model_compartments m)) (model_species m) ->
  Exists (fun r => reaction_kineticLaw r = None) (model_reactions m) ->
  convert_model f stem m = Raise (AttributeError "getMath").
Proof.
  intros Hready Hlaw. rewrite convert_model_stages.
  destruct (add_species_ready _ _ (sbml_model (mid_of stem m) [per_second]
              (variable_time
                 :: map compartment_variable (model_compartments m)
                 ++ map parameter_variable (model_parameters m))%list "") Hready)
    as [st [-> _]].
  simpl. unfold collect_reaction_terms.
  now rewrite (proj2 (add_reactions_outcome (model_reactions m) []) Hlaw).
Qed.

Lemma example_species_ready :
  Forall (species_ready [example_compartment]) example_species.
Proof.
  constructor; [|constructor; [|constructor]];
    (split; [intros [H1 H2]; cbv in H1, H2; congruence
            | intros _; simpl; auto]).
Qed.

Lemma reaction_without_kinetic_law_raises_witness :
  convert_model example_mathml "example"
    (model_of example_species []
       [ {| reaction_kineticLaw := None;
            reaction_reactants := [];
            reaction_products := [] |} ])
  = Raise (AttributeError "getMath").
Proof.
  apply reaction_without_kinetic_law_raises.
  - exact example_species_ready.
  - constructor. reflexivity.
Defined.

Lemma scale_terms_outcome m items all :
  (Forall (fun item => In (fst item) (map species_id (model_species m))) items ->
   exists rt',
     for_each (scale_term m (species_types_of (model_species m))) items all
     = Ok rt')
  /\ (Exists (fun item => ~ In (fst item) (map species_id (model_species m)))
             items ->
      exists sid,
        In sid (map fst items)
        /\ ~ In sid (map species_id (model_species m))
        /\ for_each (scale_term m (species_types_of (model_species m))) items all
           = Raise (KeyError sid)).
Proof.
  revert all. induction items as [|[sid term] items IH]; intros all.
  - split; [simpl; eauto | intros H; inversion H].
  - rewrite for_each_cons.
    destruct (in_dec string_dec sid (map species_id (model_species m)))
      as [Hin|Hout].
    + assert (Hstep : exists all1,
                 scale_term m (species_types_of (model_species m)) all (sid, term)
                 = Ok all1).
      { unfold scale_term, dict_lookup.
        destruct (dict_get sid (species_types_of (model_species m)))
          as [ty|] eqn:Ety.
        - simpl. destruct (species_types_of_values _ _ _ Ety) as [-> | ->];
            simpl; [eauto|].
          destruct (getSpecies m sid) eqn:Es; [eauto|].
          exfalso. now apply (getSpecies_declared m sid).
        - exfalso.
          now apply (proj2 (species_types_of_declared (model_species m) sid)). }
      destruct Hstep as [all1 ->]. simpl.
      destruct (IH all1) as [IHok IHerr]. split.
      * intros H. inversion H; subst. now apply IHok.
      * intros H. inversion H; subst; [simpl in *; contradiction|].
        destruct (IHerr H1) as [sid' [H2 [H3 H4]]].
        exists sid'. simpl. auto.
    + assert (Hstep :
                 scale_term m (species_types_of (model_species m)) all (sid, term)
                 = Raise (KeyError sid)).
      { unfold scale_term, dict_lookup.
        destruct (dict_get sid (species_types_of (model_species m))) eqn:Ety;
          [|reflexivity].
        exfalso. apply Hout. apply species_types_of_declared. congruence. }
      rewrite Hstep. simpl. split.
      * intros H. inversion H; subst. simpl in *. contradiction.
      * intros _. exists sid. simpl. auto.
Qed.



Lemma assign_vinit_undeclared cs s v :
  ~ no_initial_value s ->
  needs_compartment s = true ->
  ~ In (species_compartment s) (map compartment_id cs) ->
  assign_vinit (cdict_of cs) s v = Raise (KeyError (species_compartment s)).
Proof.
  intros Hset Hneeds Hout.
  assert (E : dict_get (species_compartment s) (cdict_of cs) = None).
  { destruct (dict_get _ (cdict_of cs)) eqn:E; [|reflexivity].
    exfalso. apply Hout. apply cdict_of_declared. congruence. }
  unfold assign_vinit, dict_lookup, needs_compartment, no_initial_value in *.
  destruct (species_initialAmount s), (species_initialConcentration s),
    (species_hasOnlySubstanceUnits s);
    simpl in *; try discriminate; rewrite ?E; try reflexivity.
Qed.

Lemma add_species_undeclared_compartment cs ss st0 :
  Forall (fun s => ~ no_initial_value s) ss ->
  Exists (fun s => needs_compartment s = true
                   /\ ~ In (species_compartment s) (map compartment_id cs)) ss ->
  exists s,
    In s ss
    /\ needs_compartment s = true
    /\ ~ In (species_compartment s) (map compartment_id cs)
    /\ for_each (add_one_species (cdict_of cs)) ss st0
       = Raise (KeyError (species_compartment s)).
Proof.
  intros Hset. revert st0.
  induction Hset as [|s ss Hs _ IH]; intros st0 Hex; [inversion Hex|].
  rewrite for_each_cons. unfold add_one_species at 1.
  destruct (needs_compartment s) eqn:Hneeds.
  - destruct (in_dec string_dec (species_compartment s) (map compartment_id cs))
      as [Hin|Hout].
    + destruct (assign_vinit_ready cs s (vinit st0)) as [x ->].
      { split; auto. }
      simpl. inversion Hex as [? ? [_ Hno]|? ? Hex']; subst; [contradiction|].
      match goal with
      | |- context [for_each _ ss ?st] =>
          destruct (IH st Hex') as [s' [H1 [H2 [H3 H4]]]]
      end.
      exists s'. simpl. auto.
    + rewrite (assign_vinit_undeclared cs s _ Hs Hneeds Hout). simpl.
      exists s. simpl. auto.
  - destruct (assign_vinit_ready cs s (vinit st0)) as [x ->].
    { split; [assumption | congruence]. }
    simpl. inversion Hex as [? ? [Hn _]|? ? Hex']; subst; [congruence|].
    match goal with
    | |- context [for_each _ ss ?st] =>
        destruct (IH st Hex') as [s' [H1 [H2 [H3 H4]]]]
    end.
    exists s'. simpl. auto.
Qed.

(** X8: in a model whose species all have an initial value, a species whose
    compartment size is read while the model has no such compartment makes the
    conversion raise [KeyError] for that compartment. *)
Theorem undeclared_compartment_raises
        (f : string -> option string) (stem : string) (m : SBMLModel) :
  Forall (fun s => ~ no_initial_value s) (model_species m) ->
  Exists (fun s => needs_compartment s = true
                   /\ ~ In (species_compartment s)
                          (map compartment_id (model_compartments m)))
         (model_species m) ->
  exists s,
    In s (model_species m)
    /\ needs_compartment s = true
    /\ ~ In (species_compartment s) (map compartment_id (model_compartments m))
    /\ convert_model f stem m = Raise (KeyError (species_compartment s)).
Proof.
  intros Hset Hex. rewrite convert_model_stages. unfold add_species.
  destruct (add_species_undeclared_compartment
              (model_compartments m) (model_species m)
              {| species_types := []; vinit := None;
                 species_model :=
                   sbml_model (mid_of stem m) [per_second]
                     (variable_time
                        :: map compartment_variable (model_compartments m)
                        ++ map parameter_variable (model_parameters m))%list "" |}
              Hset Hex) as [s [H1 [H2 [H3 ->]]]].
  exists s. auto.
Qed.

Lemma undeclared_compartment_raises_witness :
  exists s,
    In s [ {| species_id := "S4";
              species_compartment := "nowhere";
              species_hasOnlySubstanceUnits := false;
              species_initialAmount := Some 1%float;
              species_initialConcentration := None |} ]
    /\ convert_model example_mathml "example"
         (model_of [ {| species_id := "S4";
                        species_compartment := "nowhere";
                        species_hasOnlySubstanceUnits := false;
                        species_initialAmount := Some 1%float;
                        species_initialConcentration := None |} ] [] [])
       = Raise (KeyError (species_compartment s)).
Proof.
  destruct (undeclared_compartment_raises
              example_mathml "example"
              (model_of [ {| species_id := "S4";
                             species_compartment := "nowhere";
                             species_hasOnlySubstanceUnits := false;
                             species_initialAmount := Some 1%float;
                             species_initialConcentration := None |} ] [] []))
    as [s [H1 [_ [_ H2]]]].
  - constructor; [|constructor]. intros [H _]. discriminate H.
  - constructor. split; [reflexivity|]. simpl. intros [H|[]]. discriminate H.
  - exists s. split; assumption.
Defined.

Lemma for_each_total {A S : Type} (body : S -> A -> result S) xs :
  (forall s x, exists s', body s x = Ok s') ->
  forall s, exists s', for_each body xs s = Ok s'.
Proof.
  intros Hbody. induction xs as [|x xs IH]; intros s; simpl; [eauto|].
  destruct (Hbody s x) as [s' ->]. simpl. apply IH.
Qed.

Lemma collect_mathml_parts_total f arules rrules reaction_terms :
  (forall formula, f formula <> None) ->
  exists parts, collect_mathml_parts f arules rrules reaction_terms = Ok parts.
Proof.
  intros Hf.
  assert (Hp : forall formula,
             exists rhs, process_mathml_for_cellml f formula = Ok rhs).
  { intros formula. unfold process_mathml_for_cellml.
    destruct (f formula) eqn:E; [eauto|]. now apply Hf in E. }
  assert (Ha : forall ps item, exists ps', append_assignment f ps item = Ok ps').
  { intros ps [vid formula]. unfold append_assignment, mathml_for_assignment.
    destruct (Hp formula) as [rhs ->]. simpl. eauto. }
  assert (Hd : forall ps item, exists ps', append_diff f ps item = Ok ps').
  { intros ps [vid formula]. unfold append_diff, mathml_for_diff.
    destruct (Hp formula) as [rhs ->]. simpl. eauto. }
  unfold collect_mathml_parts.
  destruct (for_each_total _ (dict_items arules) Ha []) as [ps1 ->]. simpl.
  destruct (for_each_total _ (dict_items rrules) Hd ps1) as [ps2 ->]. simpl.
  apply (for_each_total _ _ Hd).
Qed.

(** X9: the conversion returns a model when every species has an initial value
    and, where its size is read, a compartment of the model; every reaction
    has a kinetic law and refers to species of the model only; and libsbml
    writes MathML for every formula. *)
Theorem conversion_returns
        (f : string -> option string) (stem : string) (m : SBMLModel) :
  Forall (species_ready (model_compartments m)) (model_species m) ->
  Forall (fun r => reaction_kineticLaw r <> None) (model_reactions m) ->
  Forall (fun sid => In sid (map species_id (model_species m)))
         (reacting (model_reactions m)) ->
  (forall formula, f formula <> None) ->
  exists cm, convert_model f stem m = Ok cm.
Proof.
  intros Hready Hlaw Hdeclared Hf. rewrite convert_model_stages.
  destruct (add_species_ready _ _ (sbml_model (mid_of stem m) [per_second]
              (variable_time
                 :: map compartment_variable (model_compartments m)
                 ++ map parameter_variable (model_parameters m))%list "") Hready)
    as [st [-> Htypes]].
  simpl. rewrite Htypes.
  destruct (proj1 (add_reactions_outcome (model_reactions m) []) Hlaw)
    as [rt Hrt].
  change (for_each add_reaction (model_reactions m) [])
    with (collect_reaction_terms (model_reactions m)) in Hrt.
  rewrite Hrt. simpl. unfold scale_reaction_terms.
  assert (Hall : Forall (fun item => In (fst item)
                                        (map species_id (model_species m)))
                        (dict_items rt)).
  { apply Forall_forall. intros [sid term] Hin. simpl.
    rewrite Forall_forall in Hdeclared. apply Hdeclared.
    apply (collect_reaction_terms_keys _ _ sid Hrt).
    unfold dict_keys. apply in_map_iff. now exists (sid, term). }
  destruct (proj1 (scale_terms_outcome m (dict_items rt) []) Hall) as [rt' ->].
  simpl.
  destruct (collect_mathml_parts_total f
              (fst (collect_rules (model_rules m)))
              (snd (collect_rules (model_rules m))) rt' Hf) as [parts ->].
  simpl. eauto.
Qed.

Lemma conversion_returns_witness :
  exists cm, convert_model example_mathml "example" example_model = Ok cm.
Proof.
  apply conversion_returns.
  - exact example_species_ready.
  - repeat (constructor; [discriminate|]). constructor.
  - repeat (constructor; [simpl; auto|]). constructor.
  - intros formula. discriminate.
Defined.

(** ** The order and the right-hand sides of the differential equations *)

Lemma nodup_drop_repeated (a b : list string) k :
  In k b ->
  nodup string_dec (a ++ k :: b) = nodup string_dec (a ++ b).
Proof.
  intros Hk. induction a as [|x a IH]; simpl.
  - destruct (in_dec string_dec k b); [reflexivity | contradiction].
  - rewrite IH.
    destruct (in_dec string_dec x (a ++ k :: b)) as [H1|H1];
      destruct (in_dec string_dec x (a ++ b)) as [H2|H2]; try reflexivity.
    + exfalso. apply H2. apply in_app_or in H1. apply in_or_app.
      destruct H1 as [H1|[<-|H1]]; auto.
    + exfalso. apply H1. apply in_app_or in H2. apply in_or_app.
      destruct H2 as [H2|H2]; [auto | right; now right].
Qed.

Lemma first_mentions_drop_repeated ks k rest :
  In k ks ->
  first_mentions (ks ++ k :: rest) = first_mentions (ks ++ rest).
Proof.
  intros Hk. unfold first_mentions. f_equal.
  rewrite !rev_app_distr. simpl. rewrite <- app_assoc. simpl.
  apply nodup_drop_repeated. now apply in_rev in Hk.
Qed.

Lemma first_mentions_NoDup_id ks : NoDup ks -> first_mentions ks = ks.
Proof.
  intros H. unfold first_mentions.
  rewrite nodup_fixed_point by (now apply NoDup_rev).
  apply rev_involutive.
Qed.

Lemma add_term_keys_app sign formula rt sid rest :
  NoDup (dict_keys rt) ->
  first_mentions (dict_keys (add_term sign formula rt sid) ++ rest)
  = first_mentions (dict_keys rt ++ sid :: rest).
Proof.
  intros Hnd. unfold add_term. destruct (dict_get sid rt) as [old|] eqn:E.
  - rewrite (dict_keys_set_present _ _ _ _ E).
    apply dict_get_Some_key in E.
    now rewrite (first_mentions_drop_repeated _ _ rest E).
  - rewrite (dict_keys_set_fresh _ _ _ E). now rewrite <- app_assoc.
Qed.

Lemma add_terms_keys sign formula ids rt rest :
  NoDup (dict_keys rt) ->
  first_mentions (dict_keys (fold_left (add_term sign formula) ids rt) ++ rest)
  = first_mentions (dict_keys rt ++ ids ++ rest).
Proof.
  revert rt. induction ids as [|i ids IH]; intros rt Hnd; simpl.
  - reflexivity.
  - rewrite IH by (now apply add_term_NoDup).
    now apply add_term_keys_app.
Qed.

Lemma add_reactions_keys rs rt rt1 :
  NoDup (dict_keys rt) ->
  for_each add_reaction rs rt = Ok rt1 ->
  dict_keys rt1 = first_mentions (dict_keys rt ++ reacting rs).
Proof.
  revert rt. induction rs as [|r rs IH]; intros rt Hnd H.
  - simpl in H. inversion H; subst. unfold reacting. simpl.
    rewrite app_nil_r. symmetry. now apply first_mentions_NoDup_id.
  - rewrite for_each_cons in H.
    apply bind_Ok_inv in H. destruct H as [rt0 [H0 H]].
    rewrite (IH _ (add_reaction_NoDup _ _ _ H0 Hnd) H).
    unfold add_reaction in H0.
    destruct (reaction_kineticLaw r) as [formula|]; [|discriminate].
    inversion H0; subst rt0. clear H0.
    rewrite add_terms_keys by (now apply add_terms_NoDup).
    rewrite add_terms_keys by assumption.
    unfold reacting. simpl. now rewrite <- !app_assoc.
Qed.

(** X10: the reacting species get their differential equations in the order in
    which the reactions first mention them, the reactants of a reaction
    before its products. *)
Theorem reaction_terms_follow_first_mention
        (m : SBMLModel) (rt rt' : dict string) :
  collect_reaction_terms (model_reactions m) = Ok rt ->
  scale_reaction_terms m (species_types_of (model_species m)) rt = Ok rt' ->
  dict_keys rt = first_mentions (reacting (model_reactions m))
  /\ dict_keys rt' = first_mentions (reacting (model_reactions m)).
Proof.
  intros Hrt Hrt'.
  assert (Hk : dict_keys rt = first_mentions (reacting (model_reactions m))).
  { apply (add_reactions_keys (model_reactions m) [] rt); [constructor|exact Hrt]. }
  split; [exact Hk|]. rewrite <- Hk.
  unfold scale_reaction_terms in Hrt'.
  rewrite (scale_terms_keys _ _ _ _ _
             (species_types_of_values (model_species m)) Hrt').
  - reflexivity.
  - exact (collect_reaction_terms_NoDup _ _ Hrt).
  - reflexivity.
Qed.

Lemma reaction_terms_follow_first_mention_witness :
  dict_keys [("S2", "- (k * S2) + (k * S3)");
             ("S3", "+ (k * S2) + (k * S2) - (k * S3)")]
  = first_mentions ["S2"; "S3"; "S3"; "S3"; "S2"]
  /\ dict_keys [("S2", "1.0 dimensionless/c * (- (k * S2) + (k * S3))");
                ("S3", "+ (k * S2) + (k * S2) - (k * S3)")]
     = first_mentions ["S2"; "S3"; "S3"; "S3"; "S2"].
Proof.
  exact (reaction_terms_follow_first_mention
           example_model
           [("S2", "- (k * S2) + (k * S3)");
            ("S3", "+ (k * S2) + (k * S2) - (k * S3)")]
           [("S2", "1.0 dimensionless/c * (- (k * S2) + (k * S3))");
            ("S3", "+ (k * S2) + (k * S2) - (k * S3)")]
           eq_refl eq_refl).
Defined.

Lemma find_unique {A : Type} (key : A -> string) l x :
  NoDup (map key l) -> In x l ->
  find (fun y => String.eqb (key y) (key x)) l = Some x.
Proof.
  induction l as [|y l IH]; simpl; intros Hnd Hin; [contradiction|].
  inversion Hnd as [|? ? Hnotin Hnd']; subst.
  destruct Hin as [->|Hin].
  - now rewrite String.eqb_refl.
  - destruct (String.eqb (key y) (key x)) eqn:E; [|auto].
    apply String.eqb_eq in E. exfalso. apply Hnotin. rewrite E.
    now apply in_map.
Qed.

Lemma scaled_reaction_terms_get m types rt rt' :
  collect_reaction_terms (model_reactions m) = Ok rt ->
  scale_reaction_terms m types rt = Ok rt' ->
  forall sid term,
    accumulated sid (model_reactions m) = Some term ->
    (dict_get sid types = Some "amount" -> dict_get sid rt' = Some term)
    /\ (dict_get sid types = Some "concentration" ->
        exists s,
          getSpecies m sid = Some s
          /\ dict_get sid rt' = Some (wrapped (species_compartment s) term)).
Proof.
  intros Hrt Hrt' sid term Hacc.
  rewrite <- (collect_reaction_terms_get _ _ sid Hrt) in Hacc.
  apply dict_get_Some_In in Hacc.
  pose proof (collect_reaction_terms_NoDup _ _ Hrt) as Hnd.
  destruct (scale_terms_get _ _ _ _ _ Hrt' Hnd) as [_ Hin].
  exact (Hin sid term Hacc).
Qed.

(** X11: in a model whose species ids are unique, the right-hand side of a
    reacting species is its accumulated term when the species has only
    substance units, and that term wrapped with the species' own compartment
    otherwise. *)
Theorem right_hand_side_of_species
        (m : SBMLModel) (rt rt' : dict string) (s : Species) (term : string) :
  NoDup (map species_id (model_species m)) ->
  In s (model_species m) ->
  collect_reaction_terms (model_reactions m) = Ok rt ->
  scale_reaction_terms m (species_types_of (model_species m)) rt = Ok rt' ->
  accumulated (species_id s) (model_reactions m) = Some term ->
  dict_get (species_id s) rt'
  = Some (if species_hasOnlySubstanceUnits s
          then term
          else "1.0 dimensionless/" ++ species_compartment s
               ++ " * (" ++ term ++ ")").
Proof.
  intros Hnd Hin Hrt Hrt' Hacc.
  assert (Hty : dict_get (species_id s) (species_types_of (model_species m))
                = Some (species_type s)).
  { change (species_types_of (model_species m))
      with (filled species_id species_type (model_species m) []).
    rewrite filled_get, (find_unique species_id (rev (model_species m)) s).
    - reflexivity.
    - rewrite map_rev. now apply NoDup_rev.
    - now apply in_rev in Hin. }
  assert (Hget : getSpecies m (species_id s) = Some s)
    by (apply (find_unique species_id); assumption).
  destruct (scaled_reaction_terms_get m _ rt rt' Hrt Hrt'
              (species_id s) term Hacc) as [Hamount Hconc].
  unfold species_type in Hty.
  destruct (species_hasOnlySubstanceUnits s).
  - now apply Hamount.
  - destruct (Hconc Hty) as [s' [Hs' ->]].
    rewrite Hget in Hs'. inversion Hs'. reflexivity.
Qed.

Lemma right_hand_side_of_species_witness :
  dict_get "S2" [("S2", "1.0 dimensionless/c * (- (k * S2) + (k * S3))");
                 ("S3", "+ (k * S2) + (k * S2) - (k * S3)")]
  = Some "1.0 dimensionless/c * (- (k * S2) + (k * S3))".
Proof.
  apply (right_hand_side_of_species
           example_model
           [("S2", "- (k * S2) + (k * S3)");
            ("S3", "+ (k * S2) + (k * S2) - (k * S3)")]
           [("S2", "1.0 dimensionless/c * (- (k * S2) + (k * S3))");
            ("S3", "+ (k * S2) + (k * S2) - (k * S3)")]
           species_amount_set "- (k * S2) + (k * S3)").
  - simpl. constructor; [intros [H|[]]; discriminate H|].
    constructor; [intros []|constructor].
  - simpl. auto.
  - reflexivity.
  - reflexivity.
  - reflexivity.
Defined.

Lemma collect_rules_only_algebraic rules :
  Forall (fun rule => is_algebraic rule = true) rules ->
  collect_rules rules = ([], []).
Proof.
  intros H. rewrite <- collect_rules_without_algebraic.
  replace (filter (fun rule => negb (is_algebraic rule)) rules) with (@nil Rule);
    [reflexivity|].
  induction H as [|rule rules Hr _ IH]; simpl; [reflexivity|].
  now rewrite Hr.
Qed.

(** X12: for a model without reactions whose rules, if any, are algebraic, the
    MathML writer of libsbml is not consulted: the conversion is the same for
    every writer, and the math of a converted model is the <math> start tag,
    a newline and "</math>". *)
Theorem model_without_equations
        (f g : string -> option string) (stem : string) (m : SBMLModel) :
  model_reactions m = [] ->
  Forall (fun rule => is_algebraic rule = true) (model_rules m) ->
  convert_model f stem m = convert_model g stem m
  /\ forall cm,
      convert_model f stem m = Ok cm ->
      map component_math (cellml_components cm)
      = [ "<math xmlns=" ++ dq ++ "http://www.w3.org/1998/Math/MathML" ++ dq
          ++ " xmlns:cellml=" ++ dq ++ "http://www.cellml.org/cellml/2.0#" ++ dq
          ++ ">" ++ nl ++ "</math>" ].
Proof.
  intros Hrs Hrules.
  assert (Hstages : forall h,
             convert_model h stem m
             = (st <- add_species (cdict_of (model_compartments m))
                                  (model_species m)
                                  (sbml_model (mid_of stem m) [per_second]
                                     (variable_time
                                        :: map compartment_variable
                                               (model_compartments m)
                                        ++ map parameter_variable
                                               (model_parameters m))%list "") ;;
                Ok (on_component (setMath (combine_mathml []))
                                 (species_model st)))).
  { intros h. rewrite convert_model_stages, Hrs.
    rewrite (collect_rules_only_algebraic _ Hrules). simpl.
    destruct (add_species _ _ _); reflexivity. }
  split; [now rewrite !Hstages|].
  intros cm H. apply convert_model_inv in H.
  destruct H as [svars [v' [rt [rt' [parts [_ [Hrt [Hrt' [Hparts ->]]]]]]]]].
  rewrite Hrs in Hrt. inversion Hrt; subst rt.
  inversion Hrt'; subst rt'.
  rewrite (collect_rules_only_algebraic _ Hrules) in Hparts.
  inversion Hparts; subst parts. reflexivity.
Qed.

Lemma model_without_equations_witness :
  convert_model example_mathml "example" (model_of example_species [] [])
  = convert_model no_mathml "example" (model_of example_species [] []).
Proof.
  exact (proj1 (model_without_equations
                  example_mathml no_mathml "example"
                  (model_of example_species [] []) eq_refl (Forall_nil _))).
Defined.

(** * Further properties of the MathML processing *)

(** ** Replacing and stripping *)

Lemma prefix_length old s :
  String.prefix old s = true -> String.length old <= String.length s.
Proof.
  revert old. induction s as [|b s IH]; intros [|a old]; simpl;
    try discriminate; try lia.
  destruct (ascii_dec a b); [|discriminate].
  intros H. apply IH in H. lia.
Qed.

(** A pattern without the character [c] does not match across a [c]. *)
Lemma prefix_separator c old a b :
  has_char c old = false ->
  old <> EmptyString ->
  String.prefix old (a ++ String c b) = String.prefix old a.
Proof.
  revert old. induction a as [|y a IH]; intros [|x old] Hc Hne;
    try congruence; simpl in *.
  - apply orb_false_iff in Hc. destruct Hc as [Hx _].
    destruct (ascii_dec x c) as [->|]; [|reflexivity].
    now rewrite Ascii.eqb_refl in Hx.
  - destruct (ascii_dec x y); [|reflexivity].
    apply orb_false_iff in Hc. destruct Hc as [_ Hc].
    destruct old as [|x' old]; [now destruct a|].
    apply IH; [assumption | discriminate].
Qed.

Lemma replace_from_separator c old new a b k :
  has_char c old = false ->
  old <> EmptyString ->
  k <= String.length a ->
  replace_from old new k (a ++ String c b)
  = replace_from old new k a ++ String c (replace_from old new 0 b).
Proof.
  intros Hc Hne. revert k. induction a as [|y a IH]; intros k Hk.
  - simpl in Hk. replace k with 0 by lia.
    change (EmptyString ++ String c b) with (String c b).
    cbn [replace_from].
    assert (E : String.prefix old (String c b) = false).
    { pose proof (prefix_separator c old EmptyString b Hc Hne) as E0.
      change (EmptyString ++ String c b) with (String c b) in E0.
      rewrite E0. destruct old; [congruence | reflexivity]. }
    now rewrite E.
  - change (String y a ++ String c b) with (String y (a ++ String c b)).
    destruct k as [|k]; cbn [replace_from].
    + change (String y (a ++ String c b)) with (String y a ++ String c b).
      rewrite (prefix_separator c old (String y a) b Hc Hne).
      destruct (String.prefix old (String y a)) eqn:E.
      * apply prefix_length in E. simpl in E.
        rewrite IH by lia. now rewrite string_app_assoc.
      * rewrite IH by lia. reflexivity.
    + simpl in Hk. rewrite IH by lia. reflexivity.
Qed.

(** Replacing goes through a newline when the pattern has none. *)
Lemma replace_newline old new a b :
  has_char (ascii_of_nat 10) old = false ->
  old <> EmptyString ->
  replace old new (a ++ nl ++ b) = replace old new a ++ nl ++ replace old new b.
Proof.
  intros Hc Hne. unfold replace. destruct old as [|x old]; [congruence|].
  apply replace_from_separator; auto. lia.
Qed.

Lemma replace_from_absent old new s :
  occurs old s = false -> replace_from old new 0 s = s.
Proof.
  induction s as [|y s IH]; intros H; [reflexivity|].
  cbn [occurs] in H. apply orb_false_iff in H. destruct H as [Hp Ho].
  cbn [replace_from]. rewrite Hp, IH by assumption. reflexivity.
Qed.

(** A text in which the pattern does not occur is left as it is. *)
Lemma replace_absent old new s : occurs old s = false -> replace old new s = s.
Proof.
  intros H. unfold replace. destruct old; [reflexivity|].
  now apply replace_from_absent.
Qed.

Lemma prefix_app_true p q s :
  String.prefix (p ++ q) s = true -> String.prefix p s = true.
Proof.
  revert s. induction p as [|a p IH]; intros s H.
  - now destruct s.
  - destruct s as [|b s]; simpl in *; [discriminate|].
    destruct (ascii_dec a b); [auto | discriminate].
Qed.

(** Where the beginning of a pattern does not occur, the pattern does not. *)
Lemma occurs_longer p q s : occurs p s = false -> occurs (p ++ q) s = false.
Proof.
  induction s as [|y s IH]; cbn [occurs]; intros H;
    apply orb_false_iff in H; destruct H as [Hp Ho]; apply orb_false_iff.
  - split; [|reflexivity].
    destruct (String.prefix (p ++ q) EmptyString) eqn:E; [|reflexivity].
    apply prefix_app_true in E. congruence.
  - split; [|auto].
    destruct (String.prefix (p ++ q) (String y s)) eqn:E; [|reflexivity].
    apply prefix_app_true in E. congruence.
Qed.

Lemma rstrip_space_end s c :
  is_space c = true -> rstrip (s ++ String c EmptyString) = rstrip s.
Proof.
  intros Hc. induction s as [|y s IH]; simpl.
  - now rewrite Hc.
  - now rewrite IH.
Qed.

Lemma strip_space_end s c :
  is_space c = true -> strip (s ++ String c EmptyString) = strip s.
Proof.
  intros Hc. unfold strip. induction s as [|y s IH]; simpl.
  - now rewrite Hc.
  - destruct (is_space y); [exact IH|].
    change (String y (s ++ String c EmptyString))
      with (String y s ++ String c EmptyString).
    now apply rstrip_space_end.
Qed.

Lemma strip_space_start s c : is_space c = true -> strip (String c s) = strip s.
Proof. intros Hc. unfold strip. simpl. now rewrite Hc. Qed.

Lemma lstrip_no_space_start s c rest :
  lstrip s = String c rest -> is_space c = false.
Proof.
  induction s as [|y s IH]; simpl; [discriminate|].
  destruct (is_space y) eqn:E; [exact IH|].
  intros H. inversion H; subst. exact E.
Qed.

Lemma rstrip_head s c rest :
  is_space c = false -> s = String c rest ->
  exists rest', rstrip s = String c rest'.
Proof.
  intros Hc ->. simpl. destruct (rstrip rest); [rewrite Hc|]; eauto.
Qed.

Lemma rstrip_cons y s :
  rstrip (String y s)
  = match rstrip s with
    | EmptyString => if is_space y then EmptyString else String y EmptyString
    | r => String y r
    end.
Proof. reflexivity. Qed.

Lemma rstrip_idempotent s : rstrip (rstrip s) = rstrip s.
Proof.
  induction s as [|y s IH]; [reflexivity|].
  rewrite rstrip_cons. destruct (rstrip s) as [|z r] eqn:E.
  - destruct (is_space y) eqn:Ey; [reflexivity|].
    rewrite rstrip_cons. simpl. now rewrite Ey.
  - rewrite rstrip_cons, IH. reflexivity.
Qed.

(** Stripping a stripped string changes nothing. *)
Lemma strip_idempotent s : strip (strip s) = strip s.
Proof.
  unfold strip. destruct (lstrip s) as [|c rest] eqn:E; [reflexivity|].
  pose proof (lstrip_no_space_start _ _ _ E) as Hc.
  destruct (rstrip_head _ c rest Hc eq_refl) as [rest' Hr].
  rewrite Hr. simpl lstrip. rewrite Hc, <- Hr. apply rstrip_idempotent.
Qed.

Lemma rstrip_no_space_end s r c :
  rstrip s = r ++ String c EmptyString -> is_space c = false.
Proof.
  revert r. induction s as [|y s IH]; intros r.
  - intros H. destruct r; simpl in H; discriminate H.
  - rewrite rstrip_cons. destruct (rstrip s) as [|z t] eqn:E.
    + destruct (is_space y) eqn:Ey; intros H.
      * destruct r; simpl in H; discriminate H.
      * destruct r as [|y' r]; simpl in H.
        -- inversion H; subst. exact Ey.
        -- inversion H as [[Hy Hr]]. destruct r; discriminate Hr.
    + intros H. destruct r as [|y' r]; simpl in H.
      * inversion H.
      * inversion H as [[Hy Hr]]. eapply IH; eauto.
Qed.

(** ** process_mathml_for_cellml *)

(** X13: what [process_mathml_for_cellml] returns has no whitespace at either end:
    stripping it changes nothing, it does not begin with a whitespace
    character and it does not end with one. *)
Theorem processed_mathml_is_stripped
        (f : string -> option string) (formula mathml_str : string) :
  process_mathml_for_cellml f formula = Ok mathml_str ->
  strip mathml_str = mathml_str
  /\ (forall c rest, mathml_str = String c rest -> is_space c = false)
  /\ (forall rest c,
         mathml_str = rest ++ String c EmptyString -> is_space c = false).
Proof.
  unfold process_mathml_for_cellml. destruct (f formula) as [text|];
    [|discriminate].
  intros H. inversion H as [Hs]. clear H.
  split; [apply strip_idempotent|]. split.
  - intros c rest Hc. unfold strip in Hc.
    destruct (lstrip _) as [|c' rest'] eqn:E in Hc; [discriminate|].
    pose proof (lstrip_no_space_start _ _ _ E) as Hc'.
    destruct (rstrip_head _ c' rest' Hc' eq_refl) as [rest'' Hr].
    rewrite Hr in Hc. inversion Hc; subst. exact Hc'.
  - intros rest c Hc. unfold strip in Hc.
    eapply rstrip_no_space_end; eauto.
Qed.

Lemma processed_mathml_is_stripped_witness :
  strip "<ci> k </ci>" = "<ci> k </ci>".
Proof.
  exact (proj1 (processed_mathml_is_stripped
                  example_mathml "k" "<ci> k </ci>" eq_refl)).
Defined.

Lemma replace_segments old new s1 s2 s3 s4 t1 t2 t3 t4 :
  has_char (ascii_of_nat 10) old = false ->
  old <> EmptyString ->
  replace old new s1 = t1 ->
  replace old new s2 = t2 ->
  replace old new s3 = t3 ->
  replace old new s4 = t4 ->
  replace old new (s1 ++ nl ++ s2 ++ nl ++ s3 ++ nl ++ s4)
  = t1 ++ nl ++ t2 ++ nl ++ t3 ++ nl ++ t4.
Proof.
  intros Hc Hne <- <- <- <-. now rewrite !replace_newline.
Qed.

(** X14: for the layout in which libsbml writes a formula, with either of the two
    start tags of [mathml_prefixes], and a content in which neither "<?xml",
    "<math" nor "</math" occurs: [process_mathml_for_cellml] returns the
    content, with "sbml:units" replaced by "cellml:units" and without
    whitespace at the ends. *)
Theorem libsbml_wrapper_is_removed
        (f : string -> option string) (formula start_tag body : string) :
  In start_tag mathml_prefixes ->
  f formula = Some (libsbml_layout start_tag body) ->
  occurs "<?xml" body = false ->
  occurs "<math" body = false ->
  occurs "</math" body = false ->
  process_mathml_for_cellml f formula
  = Ok (strip (replace "sbml:units" "cellml:units" body)).
Proof.
  intros Htag Hf Hxml Hmath Hend.
  unfold process_mathml_for_cellml. rewrite Hf. f_equal.
  unfold libsbml_layout, mathml_prefixes in *. cbn [fold_left].
  set (tag1 := "<math xmlns=" ++ dq ++ "http://www.w3.org/1998/Math/MathML"
               ++ dq ++ ">") in *.
  set (tag2 := "<math xmlns=" ++ dq ++ "http://www.w3.org/1998/Math/MathML"
               ++ dq ++ " xmlns:sbml=" ++ dq
               ++ "http://www.sbml.org/sbml/level3/version2/core" ++ dq ++ ">")
    in *.
  assert (Bxml : replace xml_prefix "" body = body).
  { apply replace_absent. now apply (occurs_longer "<?xml"). }
  assert (B1 : replace tag1 "" body = body).
  { apply replace_absent. now apply (occurs_longer "<math"). }
  assert (B2 : replace tag2 "" body = body).
  { apply replace_absent. now apply (occurs_longer "<math"). }
  assert (Bend : replace mathml_suffix "" body = body).
  { apply replace_absent. now apply (occurs_longer "</math"). }
  assert (Hstrip : forall text,
             strip (EmptyString ++ nl ++ EmptyString ++ nl ++ text ++ nl
                    ++ EmptyString)
             = strip text).
  { intros text.
    change (EmptyString ++ nl ++ EmptyString ++ nl ++ text ++ nl ++ EmptyString)
      with (String (ascii_of_nat 10)
              (String (ascii_of_nat 10)
                 (text ++ String (ascii_of_nat 10) EmptyString))).
    rewrite !strip_space_start by reflexivity.
    now apply strip_space_end. }
  destruct Htag as [<-|[<-|[]]].
  - rewrite (replace_segments xml_prefix "" xml_prefix tag1 body mathml_suffix
               "" tag1 body mathml_suffix);
      [|reflexivity|discriminate|reflexivity|reflexivity|exact Bxml|reflexivity].
    rewrite (replace_segments tag1 "" "" tag1 body mathml_suffix
               "" "" body mathml_suffix);
      [|reflexivity|discriminate|reflexivity|reflexivity|exact B1|reflexivity].
    rewrite (replace_segments tag2 "" "" "" body mathml_suffix
               "" "" body mathml_suffix);
      [|reflexivity|discriminate|reflexivity|reflexivity|exact B2|reflexivity].
    rewrite (replace_segments mathml_suffix "" "" "" body mathml_suffix
               "" "" body "");
      [|reflexivity|discriminate|reflexivity|reflexivity|exact Bend|reflexivity].
    rewrite (replace_segments "sbml:units" "cellml:units" "" "" body ""
               "" "" (replace "sbml:units" "cellml:units" body) "");
      [|reflexivity|discriminate|reflexivity|reflexivity|reflexivity|reflexivity].
    apply Hstrip.
  - rewrite (replace_segments xml_prefix "" xml_prefix tag2 body mathml_suffix
               "" tag2 body mathml_suffix);
      [|reflexivity|discriminate|reflexivity|reflexivity|exact Bxml|reflexivity].
    rewrite (replace_segments tag1 "" "" tag2 body mathml_suffix
               "" tag2 body mathml_suffix);
      [|reflexivity|discriminate|reflexivity|reflexivity|exact B1|reflexivity].
    rewrite (replace_segments tag2 "" "" tag2 body mathml_suffix
               "" "" body mathml_suffix);
      [|reflexivity|discriminate|reflexivity|reflexivity|exact B2|reflexivity].
    rewrite (replace_segments mathml_suffix "" "" "" body mathml_suffix
               "" "" body "");
      [|reflexivity|discriminate|reflexivity|reflexivity|exact Bend|reflexivity].
    rewrite (replace_segments "sbml:units" "cellml:units" "" "" body ""
               "" "" (replace "sbml:units" "cellml:units" body) "");
      [|reflexivity|discriminate|reflexivity|reflexivity|reflexivity|reflexivity].
    apply Hstrip.
Qed.

Lemma libsbml_wrapper_is_removed_witness :
  process_mathml_for_cellml units_mathml "1 dimensionless"
  = Ok (strip (replace "sbml:units" "cellml:units" units_body))
  /\ strip (replace "sbml:units" "cellml:units" units_body)
     = "<cn cellml:units=" ++ dq ++ "dimensionless" ++ dq ++ "> 1 </cn>".
Proof.
  split; [|reflexivity].
  apply (libsbml_wrapper_is_removed
           units_mathml "1 dimensionless" (last mathml_prefixes "") units_body).
  - simpl. auto.
  - reflexivity.
  - reflexivity.
  - reflexivity.
  - reflexivity.
Defined.

(** * Further properties of the validation path *)

Lemma print_issues_length title logger :
  List.length (print_issues title logger) = report_length logger.
Proof.
  unfold print_issues, report_length.
  destruct (issueCount logger) as [|n] eqn:E; [reflexivity|].
  cbn [Nat.eqb List.length]. now rewrite length_map, length_seq.
Qed.

Lemma report_length_zero logger :
  report_length logger = 0 <-> issueCount logger = 0.
Proof.
  unfold report_length. destruct (issueCount logger); split; congruence.
Qed.

(** X15: [validate_cellml] returns 0 whatever the loggers report; it prints one
    line more than there are issues for each logger that has issues, and it
    prints nothing exactly when none of the three loggers has an issue. *)
Theorem validation_report (lib : LibCellML) (model : CellMLModel) :
  snd (validate_cellml lib model) = 0%Z
  /\ List.length (fst (validate_cellml lib model))
     = report_length (Printer lib)
       + report_length (Validator_validateModel lib model)
       + report_length (Analyser_analyseModel lib model)
  /\ (fst (validate_cellml lib model) = []
      <-> issueCount (Printer lib) = 0
          /\ issueCount (Validator_validateModel lib model) = 0
          /\ issueCount (Analyser_analyseModel lib model) = 0).
Proof.
  split; [reflexivity|].
  assert (Hlen : List.length (fst (validate_cellml lib model))
                 = report_length (Printer lib)
                   + report_length (Validator_validateModel lib model)
                   + report_length (Analyser_analyseModel lib model)).
  { unfold validate_cellml. simpl.
    rewrite !length_app, !print_issues_length. lia. }
  split; [exact Hlen|].
  rewrite <- !report_length_zero. split.
  - intros H. rewrite H in Hlen. simpl in Hlen. lia.
  - intros [H1 [H2 H3]]. rewrite H1, H2, H3 in Hlen.
    now destruct (fst (validate_cellml lib model)).
Qed.

Lemma fmt_width3_upto_999 :
  forallb (fun n => Nat.eqb (String.length (fmt_width3 n)) 3) (seq 0 1000)
  = true.
Proof. vm_compute. reflexivity. Qed.

(** X16: up to 999 issues, the number of an issue is printed in a field of exactly
    three characters, so that the lines of a report are aligned: a line is
    "[", the number in three characters, and "] - (level) description". *)
Theorem issue_numbers_are_aligned (logger : Logger) (index : nat) :
  index < 999 ->
  exists number,
    String.length number = 3
    /\ issue_text logger index
       = "[" ++ number ++ "] - (" ++ issue_level (issue logger index) ++ ") "
         ++ issue_description (issue logger index).
Proof.
  intros Hlt. exists (fmt_width3 (index + 1)). split; [|reflexivity].
  pose proof fmt_width3_upto_999 as H.
  rewrite forallb_forall in H.
  apply Nat.eqb_eq, H, in_seq. lia.
Qed.

Lemma issue_numbers_are_aligned_witness :
  exists number,
    String.length number = 3
    /\ issue_text two_issues 1
       = "[" ++ number ++ "] - (" ++ issue_level (issue two_issues 1) ++ ") "
         ++ issue_description (issue two_issues 1).
Proof.
  apply issue_numbers_are_aligned. lia.
Defined.

(** * Further properties of the time-course driver *)

Lemma dict_set_Forall {V : Type} (P : string * V -> Prop) (d : dict V) k v :
  Forall P d -> P (k, v) -> Forall P (dict_set k v d).
Proof.
  intros Hd Hkv. induction d as [|[k' v'] d IH]; simpl.
  - now constructor.
  - inversion Hd; subst. destruct (String.eqb k k'); constructor; auto.
Qed.

Lemma same_length_uniform (d : dict (list float)) n :
  Forall (fun kv => List.length (snd kv) = n) d -> same_length d = true.
Proof.
  destruct d as [|[k col] d]; [reflexivity|].
  intros H. apply Forall_cons_iff in H. destruct H as [Hcol Hrest]. simpl in *.
  apply forallb_forall. intros kv Hin.
  rewrite Forall_forall in Hrest. apply Nat.eqb_eq.
  rewrite (Hrest kv Hin). now rewrite Hcol.
Qed.

Lemma add_states_uniform lib (task : SedInstanceTask lib) n ks st :
  Forall (fun kv => List.length (snd kv) = n) (fst st) ->
  (forall k, In k ks -> List.length (task_state lib task k) = n) ->
  Forall (fun kv => List.length (snd kv) = n)
         (fst (fold_left (add_state_pure lib task) ks st)).
Proof.
  revert st. induction ks as [|k ks IH]; intros st Hst Hks; simpl; auto.
  apply IH.
  - simpl. apply dict_set_Forall; [assumption|]. simpl. apply Hks. now left.
  - intros k' Hk'. apply Hks. now right.
Qed.

(** X17: the run returns a table when the instance that was run has a task and
    every state of the first task has a series as long as that of the
    variable of integration. *)
Theorem timecourse_returns
        (lib : OpenCOR) (cellml_path : string) (start end_ : float) (steps : Z)
        (task : SedInstanceTask lib) (rest : list (SedInstanceTask lib)) :
  SedInstance_tasks lib (run_instance lib cellml_path) = task :: rest ->
  (forall k,
      k < task_state_count lib task ->
      List.length (task_state lib task k) = List.length (task_voi lib task)) ->
  exists df units,
    snd (run_cellml_timecourse lib cellml_path start end_ steps) = Ok (df, units).
Proof.
  intros Htasks Hlen. rewrite run_cellml_timecourse_eq. simpl.
  rewrite Htasks.
  rewrite (same_length_uniform _ (List.length (task_voi lib task))); [eauto|].
  apply add_states_uniform.
  - simpl. constructor; [reflexivity | constructor].
  - intros k Hk. apply in_seq in Hk. apply Hlen. lia.
Qed.

Lemma timecourse_returns_witness :
  exists df units,
    snd (run_cellml_timecourse distinct_names "model.cellml" 0 100 100)
    = Ok (df, units).
Proof.
  apply (timecourse_returns distinct_names "model.cellml" 0%float 100%float
                            100%Z tt []).
  - reflexivity.
  - intros k _. reflexivity.
Defined.

(** X18: the run raises [IndexError] when the instance that was run has no task,
    and [ValueError] when, the names being pairwise distinct, a state of the
    first task has a series that is not as long as that of the variable of
    integration. *)
Theorem timecourse_raises
        (lib : OpenCOR) (cellml_path : string) (start end_ : float) (steps : Z) :
  (SedInstance_tasks lib (run_instance lib cellml_path) = [] ->
   snd (run_cellml_timecourse lib cellml_path start end_ steps)
   = Raise IndexError)
  /\ (forall task rest k,
         SedInstance_tasks lib (run_instance lib cellml_path) = task :: rest ->
         NoDup (task_voi_name lib task :: state_names lib task) ->
         k < task_state_count lib task ->
         List.length (task_state lib task k)
         <> List.length (task_voi lib task) ->
         snd (run_cellml_timecourse lib cellml_path start end_ steps)
         = Raise ValueError).
Proof.
  split.
  - intros Htasks. rewrite run_cellml_timecourse_eq. simpl.
    now rewrite Htasks.
  - intros task rest k Htasks Hnd Hk Hne.
    rewrite run_cellml_timecourse_eq. simpl. rewrite Htasks.
    rewrite (add_states_distinct lib task _
               ([(task_voi_name lib task, task_voi lib task)],
                [(task_voi_name lib task, task_voi_unit lib task)])
               eq_refl Hnd).
    simpl.
    assert (E : forallb
                  (fun kv : string * list float =>
                     Nat.eqb (List.length (snd kv))
                             (List.length (task_voi lib task)))
                  (map (fun k => (task_state_name lib task k,
                                  task_state lib task k))
                       (seq 0 (task_state_count lib task))) = false).
    { destruct (forallb _ _) eqn:E; [|reflexivity].
      rewrite forallb_forall in E.
      specialize (E (task_state_name lib task k, task_state lib task k)).
      simpl in E. exfalso. apply Hne. apply Nat.eqb_eq, E.
      apply in_map_iff. exists k. split; [reflexivity|].
      apply in_seq. lia. }
    now rewrite E.
Qed.

Lemma timecourse_raises_witness :
  snd (run_cellml_timecourse no_task "missing.cellml" 0 100 100)
  = Raise IndexError
  /\ snd (run_cellml_timecourse ragged "model.cellml" 0 100 100)
     = Raise ValueError.
Proof.
  split.
  - exact (proj1 (timecourse_raises no_task "missing.cellml"
                                    0%float 100%float 100%Z) eq_refl).
  - apply (proj2 (timecourse_raises ragged "model.cellml"
                                    0%float 100%float 100%Z) tt [] 0).
    + reflexivity.
    + simpl. constructor; [intros [H|[]]; discriminate H|].
      constructor; [intros []|constructor].
    + simpl. lia.
    + simpl. discriminate.
Defined.

(** * Plotting *)

Lemma dict_lookup_entry {V : Type} (d : dict V) k v :
  NoDup (dict_keys d) -> In (k, v) d -> dict_lookup k d = Ok v.
Proof.
  unfold dict_lookup.
  induction d as [|[k' v'] d IH]; simpl; intros Hnd Hin; [contradiction|].
  inversion Hnd as [|? ? Hnotin Hnd']; subst.
  destruct Hin as [Heq|Hin].
  - inversion Heq; subst. now rewrite String.eqb_refl.
  - destruct (String.eqb k k') eqn:E; [|auto].
    apply String.eqb_eq in E. subst k'. exfalso. apply Hnotin.
    change (In k (map fst d)). apply in_map_iff. now exists (k, v).
Qed.

Lemma plot_line_step df units voi lines name y :
  dict_lookup name (columns df) = Ok y ->
  plot_line df units voi lines name
  = match dict_get name units with
    | Some unit =>
        Ok (lines ++ [ {| line_x := voi; line_y := y;
                          line_label := name ++ "[" ++ unit ++ "]" |} ])%list
    | None => Raise (KeyError name)
    end.
Proof.
  intros Hy. unfold plot_line. rewrite Hy. cbn [bind]. unfold dict_lookup.
  now destruct (dict_get name units).
Qed.

(** The lines that the loop of [plot_cellml_timecourse] draws, or the first
    name without units. *)
Lemma plot_lines_outcome df units voi cols lines0 :
  NoDup (map fst (columns df)) ->
  incl cols (columns df) ->
  (Forall (fun col => dict_get (fst col) units <> None) cols ->
   exists lines,
     for_each (plot_line df units voi) (map fst cols) lines0
     = Ok (lines0 ++ lines)%list
     /\ Forall2 (fun col line =>
                   line_x line = voi
                   /\ line_y line = snd col
                   /\ exists unit,
                       dict_get (fst col) units = Some unit
                       /\ line_label line = fst col ++ "[" ++ unit ++ "]")
                cols lines)
  /\ (Exists (fun col => dict_get (fst col) units = None) cols ->
      exists name,
        In name (map fst cols)
        /\ dict_get name units = None
        /\ for_each (plot_line df units voi) (map fst cols) lines0
           = Raise (KeyError name)).
Proof.
  intros Hnd. revert lines0.
  induction cols as [|[name y] cols IH]; intros lines0 Hincl.
  - split.
    + intros _. exists []. rewrite app_nil_r. split; [reflexivity|constructor].
    + intros H. inversion H.
  - assert (Hy : dict_lookup name (columns df) = Ok y).
    { apply dict_lookup_entry; [exact Hnd|]. apply Hincl. now left. }
    assert (Hincl' : incl cols (columns df)).
    { intros col Hcol. apply Hincl. now right. }
    cbn [map fst]. rewrite for_each_cons, (plot_line_step _ _ _ _ _ _ Hy).
    destruct (dict_get name units) as [unit|] eqn:Eu; cbn [bind].
    + destruct (IH (lines0 ++ [ {| line_x := voi; line_y := y;
                                   line_label := name ++ "[" ++ unit ++ "]" |} ])%list
                   Hincl') as [IHok IHerr].
      split.
      * intros Hall. inversion Hall; subst.
        destruct (IHok H2) as [lines [Hlines Hforall]].
        exists ({| line_x := voi; line_y := y;
                   line_label := name ++ "[" ++ unit ++ "]" |} :: lines).
        split.
        -- rewrite Hlines. now rewrite <- app_assoc.
        -- constructor; [|exact Hforall]. simpl. eauto.
      * intros Hex. inversion Hex; subst; [simpl in *; congruence|].
        destruct (IHerr H0) as [name' [H1 [H2 H3]]].
        exists name'. simpl. auto.
    + split.
      * intros Hall. inversion Hall; subst. simpl in *. congruence.
      * intros _. exists name. simpl. auto.
Qed.

Lemma run_result_frame lib cellml_path start end_ steps df units :
  snd (run_cellml_timecourse lib cellml_path start end_ steps) = Ok (df, units) ->
  NoDup (map fst (columns df))
  /\ map fst (columns df) = dict_keys units
  /\ columns df <> [].
Proof.
  rewrite run_cellml_timecourse_eq. simpl.
  destruct (SedInstance_tasks lib (run_instance lib cellml_path))
    as [|task rest]; [discriminate|].
  set (st0 := ([(task_voi_name lib task, task_voi lib task)],
               [(task_voi_name lib task, task_voi_unit lib task)])).
  set (ks := seq 0 (task_state_count lib task)).
  destruct (same_length _); [|discriminate].
  intros H. inversion H; subst df units. clear H. simpl. unfold dict_items.
  change (map fst (fst (fold_left (add_state_pure lib task) ks st0)))
    with (dict_keys (fst (fold_left (add_state_pure lib task) ks st0))).
  split; [|split].
  - apply add_states_NoDup. simpl. constructor; [intros []|constructor].
  - now apply add_states_same_keys.
  - intros E.
    pose proof (add_states_hd lib task ks st0 (task_voi_name lib task) eq_refl)
      as Hhd.
    rewrite E in Hhd. discriminate Hhd.
Qed.

(** X19: the table and the units that [run_cellml_timecourse] returns can always
    be plotted: [plot_cellml_timecourse] raises nothing on them and draws one
    line per column after the first, over the first column, labelled with the
    column's name and unit; the x axis is labelled with the name and unit of
    the first column. *)
Theorem plot_after_run
        (lib : OpenCOR) (cellml_path : string) (start end_ : float) (steps : Z)
        (df : DataFrame) (units : dict string) :
  snd (run_cellml_timecourse lib cellml_path start end_ steps) = Ok (df, units) ->
  exists ax voi_name voi rest,
    columns df = (voi_name, voi) :: rest
    /\ plot_cellml_timecourse df units = Ok ax
    /\ Forall2 (fun col line =>
                  line_x line = voi
                  /\ line_y line = snd col
                  /\ exists unit,
                      dict_get (fst col) units = Some unit
                      /\ line_label line = fst col ++ "[" ++ unit ++ "]")
               rest (ax_lines ax)
    /\ (exists unit,
           dict_get voi_name units = Some unit
           /\ ax_xlabel ax = "voi (" ++ voi_name ++ ") [" ++ unit ++ "]")
    /\ ax_ylabel ax = "states"
    /\ ax_legend ax = true.
Proof.
  intros H. destruct (run_result_frame _ _ _ _ _ _ _ H) as [Hnd [Hkeys Hne]].
  destruct (columns df) as [|[voi_name voi] rest] eqn:Ecols; [congruence|].
  assert (Hunits : forall name,
             In name (map fst (columns df)) -> dict_get name units <> None).
  { intros name Hin. rewrite Ecols, Hkeys in Hin. intros E.
    now apply dict_get_None_not_key in E. }
  assert (Hvoi : dict_lookup voi_name (columns df) = Ok voi).
  { apply dict_lookup_entry; rewrite Ecols; [exact Hnd | now left]. }
  assert (Hall : Forall (fun col => dict_get (fst col) units <> None) rest).
  { apply Forall_forall. intros col Hcol. apply Hunits. rewrite Ecols.
    right. now apply in_map. }
  destruct (plot_lines_outcome df units voi rest []) as [Hok _].
  { now rewrite Ecols. }
  { rewrite Ecols. intros col Hcol. now right. }
  destruct (Hok Hall) as [lines [Hlines Hforall]].
  destruct (dict_get voi_name units) as [unit|] eqn:Eu.
  - exists {| ax_lines := lines;
              ax_xlabel := "voi (" ++ voi_name ++ ") [" ++ unit ++ "]";
              ax_ylabel := "states";
              ax_legend := true |}, voi_name, voi, rest.
    split; [reflexivity|]. split.
    + unfold plot_cellml_timecourse. rewrite Ecols. cbn [map fst].
      rewrite <- Ecols, Hvoi. cbn [bind]. rewrite Hlines. cbn [bind app].
      unfold dict_lookup. rewrite Eu. reflexivity.
    + simpl. repeat split; eauto.
  - exfalso. apply (Hunits voi_name); [|exact Eu]. rewrite Ecols. now left.
Qed.

Lemma plot_after_run_witness :
  exists ax,
    plot_cellml_timecourse
      {| columns := [("t", [0%float; 1%float]); ("x", [2%float; 3%float]);
                     ("y", [2%float; 3%float])] |}
      [("t", "second"); ("x", "dimensionless"); ("y", "dimensionless")]
    = Ok ax
    /\ ax_xlabel ax = "voi (t) [second]"
    /\ map line_label (ax_lines ax) = ["x[dimensionless]"; "y[dimensionless]"].
Proof.
  destruct (plot_after_run
              distinct_names "model.cellml" 0%float 100%float 100%Z
              {| columns := [("t", [0%float; 1%float]);
                             ("x", [2%float; 3%float]);
                             ("y", [2%float; 3%float])] |}
              [("t", "second"); ("x", "dimensionless"); ("y", "dimensionless")]
              eq_refl)
    as [ax [voi_name [voi [rest [_ [Hplot _]]]]]].
  exists ax. split; [exact Hplot|].
  vm_compute in Hplot. inversion Hplot. split; reflexivity.
Defined.

(** X20: [plot_cellml_timecourse] raises [IndexError] on a table without columns,
    and [KeyError] for a column name when the units dictionary lacks the name
    of a column. *)
Theorem plot_raises (df : DataFrame) (units : dict string) :
  (columns df = [] -> plot_cellml_timecourse df units = Raise IndexError)
  /\ (NoDup (map fst (columns df)) ->
      Exists (fun name => dict_get name units = None) (map fst (columns df)) ->
      exists name,
        In name (map fst (columns df))
        /\ dict_get name units = None
        /\ plot_cellml_timecourse df units = Raise (KeyError name)).
Proof.
  split.
  - intros E. unfold plot_cellml_timecourse. now rewrite E.
  - intros Hnd Hex.
    destruct (columns df) as [|[voi_name voi] rest] eqn:Ecols;
      [inversion Hex|].
    assert (Hvoi : dict_lookup voi_name (columns df) = Ok voi).
    { apply dict_lookup_entry; rewrite Ecols; [exact Hnd | now left]. }
    destruct (plot_lines_outcome df units voi rest []) as [Hok Herr].
    { now rewrite Ecols. }
    { rewrite Ecols. intros col Hcol. now right. }
    unfold plot_cellml_timecourse. rewrite Ecols. cbn [map fst].
    rewrite <- Ecols, Hvoi. cbn [bind].
    destruct (Exists_dec (fun col : string * list float =>
                            dict_get (fst col) units = None) rest) as [Hmiss|Hnone].
    { intros col. destruct (dict_get (fst col) units); [right|left]; congruence. }
    + destruct (Herr Hmiss) as [name [Hin [Hname ->]]].
      exists name. simpl. split; [right; exact Hin|]. split; [exact Hname|reflexivity].
    + assert (Hall : Forall (fun col => dict_get (fst col) units <> None) rest).
      { apply Forall_forall. intros col Hcol E. apply Hnone.
        apply Exists_exists. now exists col. }
      destruct (Hok Hall) as [lines [-> _]]. cbn [bind].
      assert (Evoi : dict_get voi_name units = None).
      { simpl in Hex. inversion Hex as [? ? Hhere|? ? Hlater]; subst; [exact Hhere|].
        exfalso. apply Hnone. apply Exists_exists in Hlater.
        destruct Hlater as [name [Hin Hname]]. apply in_map_iff in Hin.
        destruct Hin as [col [<- Hcol]]. apply Exists_exists. now exists col. }
      exists voi_name. simpl. split; [now left|]. split; [exact Evoi|].
      unfold dict_lookup. now rewrite Evoi.
Qed.

Lemma plot_raises_witness :
  plot_cellml_timecourse {| columns := [] |} [] = Raise IndexError
  /\ exists name,
      In name ["t"; "x"]
      /\ plot_cellml_timecourse
           {| columns := [("t", [0%float]); ("x", [1%float])] |}
           [("t", "second")]
         = Raise (KeyError name).
Proof.
  split.
  - exact (proj1 (plot_raises {| columns := [] |} []) eq_refl).
  - destruct (proj2 (plot_raises
                       {| columns := [("t", [0%float]); ("x", [1%float])] |}
                       [("t", "second")]))
      as [name [Hin [_ Hraise]]].
    + simpl. constructor; [intros [H|[]]; discriminate H|].
      constructor; [intros []|constructor].
    + simpl. right. now left.
    + exists name. split; assumption.
Defined.

(** * The math string *)

Lemma process_mathml_for_cellml_content f formula rhs :
  process_mathml_for_cellml f formula = Ok rhs
  <-> exists text, f formula = Some text /\ rhs = cellml_content text.
Proof.
  unfold process_mathml_for_cellml. destruct (f formula) as [text|]; split.
  - intros H. inversion H. exists text. split; reflexivity.
  - intros [text' [H ->]]. inversion H. reflexivity.
  - discriminate.
  - intros [text' [H _]]. discriminate H.
Qed.

Lemma mathml_for_assignment_equation f vid formula eq :
  mathml_for_assignment f vid formula = Ok eq ->
  is_assignment_of f (vid, formula) eq.
Proof.
  unfold mathml_for_assignment. intros H.
  apply bind_Ok_inv in H. destruct H as [rhs [Hrhs H]].
  apply process_mathml_for_cellml_content in Hrhs.
  destruct Hrhs as [text [Hf ->]]. inversion H.
  exists text. split; [exact Hf | reflexivity].
Qed.

Lemma mathml_for_diff_equation f vid formula eq :
  mathml_for_diff f vid formula time_name = Ok eq ->
  is_differential_of f (vid, formula) eq.
Proof.
  unfold mathml_for_diff. intros H.
  apply bind_Ok_inv in H. destruct H as [rhs [Hrhs H]].
  apply process_mathml_for_cellml_content in Hrhs.
  destruct Hrhs as [text [Hf ->]]. inversion H.
  exists text. split; [exact Hf | reflexivity].
Qed.

Lemma collect_rules_entries rules :
  dict_keys (fst (collect_rules rules))
  = first_mentions (map rule_variable (filter is_assignment rules))
  /\ dict_keys (snd (collect_rules rules))
     = first_mentions (map rule_variable (filter is_rate rules))
  /\ (forall vid,
         dict_get vid (fst (collect_rules rules))
         = last_formula is_assignment vid rules)
  /\ (forall vid,
         dict_get vid (snd (collect_rules rules))
         = last_formula is_rate vid rules).
Proof.
  unfold collect_rules. rewrite collect_rules_filled. simpl.
  split; [apply filled_keys|]. split; [apply filled_keys|].
  split; intros vid; unfold last_formula;
    rewrite filled_get, <- filter_rev, find_filter; simpl;
    now destruct (find _ (rev rules)).
Qed.

(** C10, as the code has it: the math of the component is the <math> start tag
    with the MathML and CellML namespaces and a newline, then the equations
    joined by newlines, then "</math>".  The equations are, in this order:
    one assignment equation per variable that has an assignment rule, the
    variables in the order of their first assignment rule, each with the
    formula of its last assignment rule; one differential equation per
    variable that has a rate rule, likewise; one differential equation per
    reacting species, in the order of their first mention, each with its
    scaled reaction term.  An assignment equation is the <apply> of <eq/> to
    <ci>vid</ci> and the content libsbml writes for the formula; a
    differential equation has the <diff/> of vid by "time" in the place of
    <ci>vid</ci>. *)
Theorem math_equations_in_order
        (f : string -> option string) (stem : string) (m : SBMLModel)
        (cm : CellMLModel) :
  convert_model f stem m = Ok cm ->
  exists arules rrules rt rt' eqs_a eqs_r eqs_t,
    map component_math (cellml_components cm)
    = [ "<math xmlns=" ++ dq ++ "http://www.w3.org/1998/Math/MathML" ++ dq
        ++ " xmlns:cellml=" ++ dq ++ "http://www.cellml.org/cellml/2.0#" ++ dq
        ++ ">" ++ nl
        ++ join nl (eqs_a ++ eqs_r ++ eqs_t)%list
        ++ "</math>" ]
    /\ Forall2 (is_assignment_of f) arules eqs_a
    /\ Forall2 (is_differential_of f) rrules eqs_r
    /\ Forall2 (is_differential_of f) rt' eqs_t
    /\ (map fst arules
        = first_mentions
            (map rule_variable (filter is_assignment (model_rules m)))
        /\ forall vid,
            dict_get vid arules
            = last_formula is_assignment vid (model_rules m))
    /\ (map fst rrules
        = first_mentions (map rule_variable (filter is_rate (model_rules m)))
        /\ forall vid,
            dict_get vid rrules = last_formula is_rate vid (model_rules m))
    /\ (map fst rt' = first_mentions (reacting (model_reactions m))
        /\ collect_reaction_terms (model_reactions m) = Ok rt
        /\ scale_reaction_terms m (species_types_of (model_species m)) rt
           = Ok rt').
Proof.
  intros H. apply convert_model_inv in H.
  destruct H as [svars [v' [rt [rt' [parts [_ [Hrt [Hrt' [Hparts ->]]]]]]]]].
  apply collect_mathml_parts_inv in Hparts.
  destruct Hparts as [eqs_a [eqs_r [eqs_t [-> [Ha [Hr Ht]]]]]].
  destruct (collect_rules_entries (model_rules m)) as [Hka [Hkr [Hga Hgr]]].
  exists (fst (collect_rules (model_rules m))),
         (snd (collect_rules (model_rules m))), rt, rt', eqs_a, eqs_r, eqs_t.
  split; [reflexivity|].
  split.
  { eapply Forall2_impl; [|exact Ha]. intros [vid formula] eq.
    apply mathml_for_assignment_equation. }
  split.
  { eapply Forall2_impl; [|exact Hr]. intros [vid formula] eq.
    apply mathml_for_diff_equation. }
  split.
  { eapply Forall2_impl; [|exact Ht]. intros [vid formula] eq.
    apply mathml_for_diff_equation. }
  split; [split; assumption|]. split; [split; assumption|].
  split; [|split; assumption].
  change (map fst rt') with (dict_keys rt').
  unfold scale_reaction_terms in Hrt'.
  rewrite (scale_terms_keys _ _ _ _ _
             (species_types_of_values (model_species m)) Hrt').
  - simpl. apply (add_reactions_keys (model_reactions m) [] rt);
      [constructor | exact Hrt].
  - exact (collect_reaction_terms_NoDup _ _ Hrt).
  - reflexivity.
Qed.

Lemma math_equations_in_order_witness :
  exists arules rrules rt rt' eqs_a eqs_r eqs_t,
    map component_math (cellml_components example_cellml)
    = [ "<math xmlns=" ++ dq ++ "http://www.w3.org/1998/Math/MathML" ++ dq
        ++ " xmlns:cellml=" ++ dq ++ "http://www.cellml.org/cellml/2.0#" ++ dq
        ++ ">" ++ nl
        ++ join nl (eqs_a ++ eqs_r ++ eqs_t)%list
        ++ "</math>" ]
    /\ Forall2 (is_assignment_of example_mathml) arules eqs_a
    /\ Forall2 (is_differential_of example_mathml) rrules eqs_r
    /\ Forall2 (is_differential_of example_mathml) rt' eqs_t
    /\ (map fst arules = ["k"]
        /\ forall vid,
            dict_get vid arules
            = last_formula is_assignment vid (model_rules example_model))
    /\ (map fst rrules = ["c"]
        /\ forall vid,
            dict_get vid rrules
            = last_formula is_rate vid (model_rules example_model))
    /\ (map fst rt' = ["S2"; "S3"]
        /\ collect_reaction_terms (model_reactions example_model) = Ok rt
        /\ scale_reaction_terms example_model
             (species_types_of (model_species example_model)) rt
           = Ok rt').
Proof.
  assert (H : convert_model example_mathml "example" example_model
              = Ok example_cellml) by (vm_compute; reflexivity).
  exact (math_equations_in_order _ _ _ _ H).
Defined.

(** Two assignment rules for one variable give one assignment equation, that
    of the second rule: the math is not one equation per assignment rule. *)
Lemma two_rules_for_one_variable_give_one_equation :
  List.length (filter is_assignment rules_on_k) = 2
  /\ collect_rules rules_on_k = ([("k", "2")], [])
  /\ exists cm,
      convert_model example_mathml "example" (model_of [] rules_on_k []) = Ok cm
      /\ map component_math (cellml_components cm)
         = [ math_header
             ++ join nl [assignment_equation "k" "<ci> 2 </ci>"]
             ++ "</math>" ]
      /\ map component_math (cellml_components cm)
         <> [ math_header
              ++ join nl [assignment_equation "k" "<ci> 1 </ci>";
                          assignment_equation "k" "<ci> 2 </ci>"]
              ++ "</math>" ].
Proof.
  split; [reflexivity|]. split; [reflexivity|].
  eexists. split; [vm_compute; reflexivity|].
  split; [vm_compute; reflexivity|].
  intros H.
  apply (f_equal (fun maths => map String.length maths)) in H.
  vm_compute in H. discriminate H.
Qed.
